(** * flatten_orders_to_parquet: the order flattener, embedded and verified

    A shallow embedding of [src/lambda/flatten_orders_to_parquet.py].  The
    handler reads a JSON array of orders, builds two tables with pandas
    (FactOrder and FactOrderItem) and uploads one Parquet file per table and
    per [(order_year, order_month)] partition.

    The pandas operations the handler calls are modelled as functions on a
    column-oriented [DataFrame]; every local variable of the handler is a
    definition of the same name.  What the libraries compute from text
    (dates, numbers, [str()] of a float) is kept behind the [Externals]
    interface. *)

From Stdlib Require Import ZArith List String Ascii Bool Lia.
From Stdlib Require Import PrimFloat FloatOps SpecFloat.
From Stdlib Require Import DecimalString DecimalZ DecimalPos.
Import ListNotations.

Local Open Scope string_scope.
Local Open Scope list_scope.
Local Open Scope Z_scope.
Set Warnings "-register-all,-inexact-float".

(* ================================================================== *)
(** ** Python values *)

(** A value as [json.loads] builds it, plus what pandas puts in a cell.
    [PNone] stands for every missing marker ([None], [NaN], [NaT], [<NA>]);
    [PTimestamp ns] is a UTC instant, in nanoseconds since the epoch. *)
Inductive pyval : Type :=
| PNone
| PBool (b : bool)
| PInt (z : Z)
| PFloat (f : float)
| PStr (s : string)
| PList (l : list pyval)
| PDict (d : list (string * pyval))
| PTimestamp (ns : Z).

(** A Python [dict] with string keys, in insertion order. *)
Definition record : Type := list (string * pyval).

Definition isna (v : pyval) : bool :=
  match v with
  | PNone => true
  | PFloat f => PrimFloat.is_nan f
  | _ => false
  end.

Definition notna (v : pyval) : bool := negb (isna v).

Definition mem (k : string) (l : list string) : bool :=
  existsb (String.eqb k) l.

Fixpoint dict_get (k : string) (d : record) : option pyval :=
  match d with
  | [] => None
  | (k', v) :: r => if String.eqb k k' then Some v else dict_get k r
  end.

(** [d[k] = v]: overwrite in place, or append. *)
Fixpoint dict_set (k : string) (v : pyval) (d : record) : record :=
  match d with
  | [] => [(k, v)]
  | (k', v') :: r =>
      if String.eqb k k' then (k, v) :: r else (k', v') :: dict_set k v r
  end.

(** [{**d1, **d2}] *)
Definition dict_update (d1 d2 : record) : record :=
  fold_left (fun d kv => dict_set (fst kv) (snd kv) d) d2 d1.

Definition keys (d : record) : list string := map fst d.

(* ================================================================== *)
(** ** Exceptions *)

Inductive exn : Type :=
| RuntimeError (msg : string)
| KeyError (label : string)
| ValueError (msg : string)
| TypeError (msg : string)
| ClientError (msg : string).

Inductive result (A : Type) : Type :=
| Ok (a : A)
| Raise (e : exn).

Arguments Ok {A} a.
Arguments Raise {A} e.

Definition bind {A B} (c : result A) (k : A -> result B) : result B :=
  match c with
  | Ok a => k a
  | Raise e => Raise e
  end.

Notation "x <- c ;; k" := (bind c (fun x => k))
  (at level 61, c at next level, right associativity).

Fixpoint mapM {A B} (f : A -> result B) (l : list A) : result (list B) :=
  match l with
  | [] => Ok []
  | x :: r => y <- f x ;; ys <- mapM f r ;; Ok (y :: ys)
  end.

(* ================================================================== *)
(** ** Numbers, text and dates *)

Definition INT64_MIN : Z := - 2 ^ 63.
Definition INT64_MAX : Z := 2 ^ 63 - 1.
Definition UINT64_MAX : Z := 2 ^ 64 - 1.

Definition fits_int64 (z : Z) : bool := (INT64_MIN <=? z) && (z <=? INT64_MAX).

(** Two's-complement wrap-around of int64 arithmetic. *)
Definition wrap64 (z : Z) : Z := (z - INT64_MIN) mod 2 ^ 64 + INT64_MIN.

(** The binary64 value nearest to an integer. *)
Definition float_of_Z (z : Z) : float :=
  SF2Prim (binary_normalize prec emax z 0 false).

(** [str(int)] *)
Definition str_of_Z (z : Z) : string := NilZero.string_of_int (Z.to_int z).

Definition is_digit (c : ascii) : bool :=
  let n := nat_of_ascii c in (48 <=? n)%nat && (n <=? 57)%nat.

(** [re.fullmatch(r"\d+", s)] on ASCII text. *)
Definition fullmatch_digits (s : string) : bool :=
  negb (String.eqb s "") && forallb is_digit (list_ascii_of_string s).

(** The integer a string of digits denotes. *)
Definition int_of_digits (s : string) : option Z :=
  option_map Z.of_uint (NilZero.uint_of_string s).

Fixpoint zfill (width : nat) (s : string) : string :=
  match width with
  | O => s
  | S w => if (String.length s <=? w)%nat then zfill w (String "0" s) else s
  end.

Definition NS_PER_DAY : Z := 86400 * 10 ^ 9.

(** Days since 1970-01-01 to (year, month, day) in the proleptic Gregorian
    calendar. *)
Definition civil_from_days (days : Z) : Z * Z * Z :=
  let z := days + 719468 in
  let era := z / 146097 in
  let doe := z - era * 146097 in
  let yoe := (doe - doe / 1460 + doe / 36524 - doe / 146096) / 365 in
  let y := yoe + era * 400 in
  let doy := doe - (365 * yoe + yoe / 4 - yoe / 100) in
  let mp := (5 * doy + 2) / 153 in
  let d := doy - (153 * mp + 2) / 5 + 1 in
  let m := if mp <? 10 then mp + 3 else mp - 9 in
  (if m <=? 2 then y + 1 else y, m, d).

(** [.dt.year], [.dt.month], and [.dt.date.astype(str)] of a UTC instant. *)
Definition dt_year (ns : Z) : Z := fst (fst (civil_from_days (ns / NS_PER_DAY))).
Definition dt_month (ns : Z) : Z := snd (fst (civil_from_days (ns / NS_PER_DAY))).
Definition dt_date_str (ns : Z) : string :=
  let '(y, m, d) := civil_from_days (ns / NS_PER_DAY) in
  (zfill 4 (str_of_Z y) ++ "-" ++ zfill 2 (str_of_Z m) ++ "-" ++ zfill 2 (str_of_Z d))%string.

(** numpy's [round(x, 2)] on a binary64: [rint(x * 100) / 100], where [rint]
    rounds to the nearest integer, ties to even. *)
Definition two52 : float := 4503599627370496%float.

Definition rint (x : float) : float :=
  let a := PrimFloat.abs x in
  let r := if PrimFloat.ltb a two52
           then PrimFloat.sub (PrimFloat.add a two52) two52
           else a in
  if PrimFloat.get_sign x then PrimFloat.opp r else r.

Definition np_round2 (x : float) : float :=
  PrimFloat.div (rint (PrimFloat.mul x 100%float)) 100%float.

(* ================================================================== *)
(** ** What the libraries read from text *)

(** The parsers and printers of pandas, dateutil and the Python runtime that
    the handler relies on. *)
Class Externals : Type := {
  (** [str(v)] for a float, a list, a dict or a Timestamp. *)
  py_repr : pyval -> string;
  (** [pd.to_datetime(s, errors="coerce", utc=True)] on a Series of
      strings: for each element its UTC instant in nanoseconds, or nothing
      ([NaT]).  The parser reads the Series as a whole (the format of the
      first string may decide how it reads the others); all that is known of
      it is that it answers element by element and has nothing to say of a
      missing string. *)
  to_datetime : list (option string) -> list (option Z);
  to_datetime_length :
    forall s, List.length (to_datetime s) = List.length s;
  to_datetime_missing :
    forall s i, nth_error s i = Some None -> nth_error (to_datetime s) i = Some None;
  (** [pd.to_numeric(s, errors="coerce")] on one string. *)
  parse_numeric_string : string -> option (Z + float);
  (** [urllib.parse.unquote_plus] *)
  unquote_plus : string -> string
}.

(* ================================================================== *)
(** ** Data frames *)

(** A frame is its columns, in order, each a label and one cell per row.
    Labels may repeat.  [nrows] is the length of the index, which a frame
    keeps even when it has no column.  Rows are addressed by position: the
    handler resets or ignores the index wherever it combines frames. *)
Record DataFrame : Type := mkDF {
  nrows : nat;
  data : list (string * list pyval)
}.

(** [pd.DataFrame()] *)
Definition empty_frame : DataFrame := mkDF 0 [].

(** [df.columns] *)
Definition columns (df : DataFrame) : list string := map fst (data df).

(** [c in df.columns] *)
Definition has_column (df : DataFrame) (c : string) : bool := mem c (columns df).

(** [df.empty]: no row or no column. *)
Definition empty (df : DataFrame) : bool :=
  (nrows df =? 0)%nat || (List.length (data df) =? 0)%nat.

(** [len(df)] *)
Definition len (df : DataFrame) : nat := nrows df.

Definition labelled (c : string) (cv : string * list pyval) : bool :=
  String.eqb (fst cv) c.

(** [df[c]] used as a Series.  A label carried by several columns selects a
    frame, which none of the Series operations of the handler accepts: the
    selection and its use are modelled together, as a raise. *)
Definition getitem (df : DataFrame) (c : string) : result (list pyval) :=
  match filter (labelled c) (data df) with
  | [] => Raise (KeyError c)
  | [cv] => Ok (snd cv)
  | _ => Raise (ValueError "cannot reindex on an axis with duplicate labels")
  end.

(** [df[c] = values] *)
Definition setitem (df : DataFrame) (c : string) (values : list pyval) : DataFrame :=
  if has_column df c
  then mkDF (nrows df)
            (map (fun cv => if labelled c cv then (c, values) else cv) (data df))
  else mkDF (nrows df) (data df ++ [(c, values)]).

(** [df[labels]] *)
Definition getitems (df : DataFrame) (labels : list string) : result DataFrame :=
  cols <- mapM (fun c => match filter (labelled c) (data df) with
                         | [] => Raise (KeyError c)
                         | cs => Ok cs
                         end) labels ;;
  Ok (mkDF (nrows df) (List.concat cols)).

(** Rows kept by a boolean mask. *)
Definition mask_rows {A : Type} (mask : list bool) (l : list A) : list A :=
  map snd (filter fst (combine mask l)).

(** [df[mask]] *)
Definition boolean_index (df : DataFrame) (mask : list bool) : DataFrame :=
  mkDF (List.length (mask_rows mask (seq 0 (nrows df))))
       (map (fun cv => (fst cv, mask_rows mask (snd cv))) (data df)).

(** [df.dropna(subset=[c])] *)
Definition dropna (df : DataFrame) (c : string) : result DataFrame :=
  col <- getitem df c ;;
  Ok (boolean_index df (map notna col)).

(** [df.drop(columns=labels)], with [errors="ignore"] or the default
    [errors="raise"]; every column carrying a listed label goes. *)
Definition drop (df : DataFrame) (labels : list string) (ignore : bool)
  : result DataFrame :=
  match filter (fun c => negb (has_column df c)) labels with
  | c :: _ =>
      if ignore
      then Ok (mkDF (nrows df) (filter (fun cv => negb (mem (fst cv) labels)) (data df)))
      else Raise (KeyError c)
  | [] => Ok (mkDF (nrows df) (filter (fun cv => negb (mem (fst cv) labels)) (data df)))
  end.

(** [df.add_prefix(p)] *)
Definition add_prefix (p : string) (df : DataFrame) : DataFrame :=
  mkDF (nrows df) (map (fun cv => ((p ++ fst cv)%string, snd cv)) (data df)).

Definition pad (n : nat) (l : list pyval) : list pyval :=
  l ++ repeat PNone (n - List.length l).

(** [pd.concat(frames, axis=1)] of frames on default indexes: columns side
    by side, the shorter ones filled with missing values. *)
Definition concat_axis1 (frames : list DataFrame) : DataFrame :=
  let n := fold_right Nat.max 0%nat (map nrows frames) in
  mkDF n (flat_map (fun df => map (fun cv => (fst cv, pad n (snd cv))) (data df)) frames).

(** The labels of a list of records, each once, in order of first
    appearance. *)
Fixpoint uniq_acc (seen : list string) (l : list string) : list string :=
  match l with
  | [] => []
  | x :: r => if mem x seen then uniq_acc seen r else x :: uniq_acc (x :: seen) r
  end.

Definition union_keys (rs : list record) : list string :=
  uniq_acc [] (List.concat (map keys rs)).

(** The dtype inference of the frame constructor on one column
    ([maybe_convert_objects]): integers that share a column with a float or
    a missing value, and nothing else, become floats; any other column keeps
    its objects. *)
Definition is_float_or_na (v : pyval) : bool :=
  match v with
  | PNone | PFloat _ => true
  | _ => false
  end.

Definition is_number_or_na (v : pyval) : bool :=
  match v with
  | PInt z => (INT64_MIN <=? z) && (z <=? UINT64_MAX)
  | v => is_float_or_na v
  end.

Definition to_float64 (v : pyval) : pyval :=
  match v with
  | PInt z => PFloat (float_of_Z z)
  | v => v
  end.

Definition maybe_convert_objects (col : list pyval) : list pyval :=
  if forallb is_number_or_na col && existsb is_float_or_na col
  then map to_float64 col
  else col.

(** [pd.DataFrame(records)]: one row per record, one column per label, a
    missing value where a record lacks the label. *)
Definition field_or_nan (k : string) (r : record) : pyval :=
  match dict_get k r with
  | Some v => v
  | None => PNone
  end.

Definition DataFrame_of_records (rs : list record) : DataFrame :=
  mkDF (List.length rs)
       (map (fun k => (k, maybe_convert_objects (map (field_or_nan k) rs)))
            (union_keys rs)).

(** *** [pd.json_normalize] *)

Definition is_dict (v : pyval) : bool :=
  match v with
  | PDict _ => true
  | _ => false
  end.

(** [_normalise_json]: nested dicts flattened, keys joined with ["."]. *)
Fixpoint _normalise_json (data : pyval) (key_string : string)
         (normalized_dict : record) : record :=
  match data with
  | PDict kvs =>
      (fix items (kvs : list (string * pyval)) (acc : record) : record :=
         match kvs with
         | [] => acc
         | (key, value) :: rest =>
             let new_key := if String.eqb key_string ""
                            then key
                            else (key_string ++ "." ++ key)%string in
             items rest (_normalise_json value new_key acc)
         end) kvs normalized_dict
  | _ => dict_set key_string data normalized_dict
  end.

(** [_normalise_json_ordered]: top-level scalars first, then the flattened
    nested dicts. *)
Definition _normalise_json_ordered (d : record) : record :=
  let top_dict_ := filter (fun kv => negb (is_dict (snd kv))) d in
  let nested_dict_ :=
    _normalise_json (PDict (filter (fun kv => is_dict (snd kv)) d)) "" [] in
  dict_update top_dict_ nested_dict_.

(** [_simple_json_normalize] on one element of the Series: a dict is
    flattened, a scalar or a missing value gives the empty record, and a
    list gives a list.  The frame constructor asks every element for its
    keys and so refuses a list met after a record.  A Series that starts
    with a list is read by position instead, into columns labelled by
    number: that shape is not modelled, the embedding raises on every
    list. *)
Definition _simple_json_normalize (v : pyval) : result record :=
  match v with
  | PDict d => Ok (_normalise_json_ordered d)
  | PList _ => Raise (TypeError "list among records")
  | _ => Ok []
  end.

Definition json_normalize (series : list pyval) : result DataFrame :=
  rs <- mapM _simple_json_normalize series ;;
  Ok (DataFrame_of_records rs).

(** *** [DataFrame.explode] *)

(** The rows one cell explodes into: the elements of a non-empty list, the
    keys of a non-empty dict, one missing value for an empty list or dict,
    and the cell itself when it is a scalar. *)
Definition explode_cell (v : pyval) : list pyval :=
  match v with
  | PList [] => [PNone]
  | PList l => l
  | PDict [] => [PNone]
  | PDict d => map (fun kv => PStr (fst kv)) d
  | v => [v]
  end.

Definition repeat_each {A : Type} (counts : list nat) (l : list A) : list A :=
  List.concat (map (fun nv => repeat (snd nv) (fst nv)) (combine counts l)).

(** [df.explode(c, ignore_index=True)] *)
Definition explode (df : DataFrame) (c : string) : result DataFrame :=
  col <- getitem df c ;;
  let counts := map (fun v => List.length (explode_cell v)) col in
  Ok (mkDF (list_sum counts)
           (map (fun cv => if labelled c cv
                           then (c, flat_map explode_cell col)
                           else (fst cv, repeat_each counts (snd cv)))
                (data df))).

(* ================================================================== *)
(** ** Series operations *)

Definition map2 {A B C : Type} (f : A -> B -> C) (l1 : list A) (l2 : list B)
  : list C :=
  map (fun p => f (fst p) (snd p)) (combine l1 l2).

(** [s.where(cond)] on a nullable Series *)
Definition where_ {A : Type} (s : list (option A)) (cond : list bool)
  : list (option A) :=
  map2 (fun x (c : bool) => if c then x else None) s cond.

(** [s.fillna(other)] *)
Definition fillna {A : Type} (s other : list (option A)) : list (option A) :=
  map2 (fun x y => match x with
                   | Some _ => x
                   | None => y
                   end) s other.

(** [pd.to_datetime(n, unit=..., errors="coerce", utc=True)] on one integer:
    the instant [n] units after the epoch, or [NaT] when it is outside the
    range of a nanosecond Timestamp. *)
Definition to_datetime_unit (ns_per_unit : Z) (n : option Z) : option Z :=
  match n with
  | Some v =>
      let ns := v * ns_per_unit in
      if (- INT64_MAX <=? ns) && (ns <=? INT64_MAX) then Some ns else None
  | None => None
  end.

Definition timestamp_cell (t : option Z) : pyval :=
  match t with
  | Some ns => PTimestamp ns
  | None => PNone
  end.

(** [x * y] on two numeric Series, cell by cell: int64 with wrap-around
    when both are integers, binary64 otherwise. *)
Definition mul_cell (a b : pyval) : pyval :=
  match a, b with
  | PInt x, PInt y => PInt (wrap64 (x * y))
  | PInt x, PFloat g => PFloat (PrimFloat.mul (float_of_Z x) g)
  | PFloat f, PInt y => PFloat (PrimFloat.mul f (float_of_Z y))
  | PFloat f, PFloat g => PFloat (PrimFloat.mul f g)
  | _, _ => PNone
  end.

(** [s.round(2)]: integers are left alone. *)
Definition round2_cell (v : pyval) : pyval :=
  match v with
  | PFloat f => PFloat (np_round2 f)
  | v => v
  end.

(** [(s == z)] against an integer *)
Definition eq_int (v : pyval) (z : Z) : bool :=
  match v with
  | PInt a => a =? z
  | PFloat f => PrimFloat.eqb f (float_of_Z z)
  | PBool b => (if b then 1 else 0) =? z
  | _ => false
  end.

(** [int(v)] *)
Definition py_int (v : pyval) : result Z :=
  match v with
  | PInt z => Ok z
  | PBool b => Ok (if b then 1 else 0)
  | _ => Raise (TypeError "int() argument must be a number")
  end.

(** [.dt.date.astype(str)], [.dt.year], [.dt.month] on one cell *)
Definition dt_date_cell (v : pyval) : pyval :=
  match v with
  | PTimestamp ns => PStr (dt_date_str ns)
  | _ => PNone
  end.

Definition dt_year_cell (v : pyval) : pyval :=
  match v with
  | PTimestamp ns => PInt (dt_year ns)
  | _ => PNone
  end.

Definition dt_month_cell (v : pyval) : pyval :=
  match v with
  | PTimestamp ns => PInt (dt_month ns)
  | _ => PNone
  end.

Definition pair_eqb (p q : Z * Z) : bool := (fst p =? fst q) && (snd p =? snd q).

Definition pair_mem (p : Z * Z) (seen : list (Z * Z)) : bool :=
  existsb (pair_eqb p) seen.

(** The distinct pairs of a list, in order of first appearance. *)
Fixpoint uniq_pairs (seen l : list (Z * Z)) : list (Z * Z) :=
  match l with
  | [] => []
  | p :: r =>
      if pair_mem p seen
      then uniq_pairs seen r
      else p :: uniq_pairs (p :: seen) r
  end.

Fixpoint rstrip_slash (s : string) : string :=
  match s with
  | EmptyString => EmptyString
  | String c r =>
      match rstrip_slash r with
      | EmptyString => if Ascii.eqb c "/" then EmptyString else String c EmptyString
      | r' => String c r'
      end
  end.

(* ================================================================== *)
(** ** The module *)

(** The process environment, the objects the bucket holds, and the clock.
    An object is the value [json.loads] returns for its bytes, or bytes that
    are not JSON; [utcnow k] is the formatted time at the [k]-th reading of
    the clock. *)
Inductive document : Type :=
| NotJson
| Json (v : pyval).

Record Env : Type := {
  environ_PROCESSED_PREFIX : option string;
  environ_PROCESSED_BUCKET : option string;
  objects : string -> string -> option document;
  utcnow : nat -> string
}.

(** The trigger's first record. *)
Record Event : Type := {
  event_bucket : string;
  event_key : string
}.

(** An uploaded Parquet file: where it went and the frame it holds. *)
Record S3Object : Type := {
  Bucket : string;
  Key : string;
  Body : DataFrame
}.

Record World : Type := {
  uploads : list S3Object;
  clock_reads : nat
}.

(** The dict the handler returns; ["status"] is ["ok"] in both shapes. *)
Inductive Response : Type :=
| NoOrders (input : string)
| Processed (input output_bucket fact_orders_prefix fact_order_items_prefix : string)
            (rows_fact_orders rows_fact_order_items : nat).

(** Computations that read the clock and upload files, and may raise. *)
Definition M (A : Type) : Type := World -> result A * World.

Definition ret {A} (a : A) : M A := fun w => (Ok a, w).

Definition lift {A} (r : result A) : M A := fun w => (r, w).

Definition bindM {A B} (c : M A) (k : A -> M B) : M B :=
  fun w => match c w with
           | (Ok a, w') => k a w'
           | (Raise e, w') => (Raise e, w')
           end.

Notation "x <~ c ;; k" := (bindM c (fun x => k))
  (at level 61, c at next level, right associativity).

Fixpoint for_each {A} (l : list A) (body : A -> M unit) : M unit :=
  match l with
  | [] => ret tt
  | x :: r => _ <~ body x ;; for_each r body
  end.

Section Flatten.

Context {ext : Externals}.
Variable env : Env.

Definition PROCESSED_PREFIX : string :=
  rstrip_slash (match environ_PROCESSED_PREFIX env with
                | Some p => p
                | None => "processed/store_sales"
                end).

Definition PROCESSED_BUCKET_ENV : option string := environ_PROCESSED_BUCKET env.

Definition PARTITION_COLS : list string := ["order_year"; "order_month"].

Definition _parse_s3_event (event : Event) : string * string :=
  (event_bucket event, unquote_plus (event_key event)).

(** [s.astype("string")] on one cell *)
Definition astype_string (v : pyval) : option string :=
  if isna v then None
  else Some (match v with
             | PStr s => s
             | PInt z => str_of_Z z
             | PBool b => if b then "True" else "False"
             | v => py_repr v
             end).

(** The epochs are read exactly: [to_numeric] keeps the digits of a string
    Series as nullable 64-bit integers.  Digits beyond 64 bits would make
    pandas read the whole column through floats; here such a value is out of
    the range of a Timestamp and the other epochs are still read exactly. *)
Definition _safe_to_datetime (series : list pyval) : list pyval :=
  let s_str := map astype_string series in
  let is_num := map (fun s => match s with
                              | Some t => fullmatch_digits t
                              | None => false
                              end) s_str in
  let num := map (fun s => match s with
                           | Some t => int_of_digits t
                           | None => None
                           end) (where_ s_str is_num) in
  let below := map (fun n => match n with
                             | Some v => v <? 10 ^ 15
                             | None => false
                             end) num in
  let above := map (fun n => match n with
                             | Some v => 10 ^ 15 <=? v
                             | None => false
                             end) num in
  let dt_ms := map (to_datetime_unit (10 ^ 6)) (where_ num below) in
  let dt_ns := map (to_datetime_unit 1) (where_ num above) in
  let dt_num := fillna dt_ms dt_ns in
  let dt_str := to_datetime (where_ s_str (map negb is_num)) in
  map timestamp_cell (fillna dt_str dt_num).

(** [pd.to_numeric(s, errors="coerce")]: each cell read as a number or
    dropped to missing; the Series is int64 when every cell is an integer
    that fits, float64 otherwise.  A boolean counts as the integer it is,
    and an integer beyond int64 as the nearest float (pandas keeps a Series
    of booleans as booleans and one of large non-negative integers as
    uint64; as numbers they are the same up to that rounding). *)
Definition narrow (x : Z + float) : Z + float :=
  match x with
  | inl z => if fits_int64 z then inl z else inr (float_of_Z z)
  | inr f => inr f
  end.

Definition coerce_numeric (v : pyval) : option (Z + float) :=
  match v with
  | PBool b => Some (inl (if b then 1 else 0))
  | PInt z => Some (narrow (inl z))
  | PFloat f => if PrimFloat.is_nan f then None else Some (inr f)
  | PStr s => option_map narrow (parse_numeric_string s)
  | _ => None
  end.

Definition is_int (x : option (Z + float)) : bool :=
  match x with
  | Some (inl _) => true
  | _ => false
  end.

Definition int64_cell (x : option (Z + float)) : pyval :=
  match x with
  | Some (inl z) => PInt z
  | Some (inr f) => PFloat f
  | None => PNone
  end.

Definition float64_cell (x : option (Z + float)) : pyval :=
  match x with
  | Some (inl z) => PFloat (float_of_Z z)
  | Some (inr f) => PFloat f
  | None => PNone
  end.

Definition to_numeric (series : list pyval) : list pyval :=
  let xs := map coerce_numeric series in
  if forallb is_int xs then map int64_cell xs else map float64_cell xs.

(** The Parquet encoding is not modelled: the uploaded file is the frame it
    was written from, and a frame that pyarrow would refuse to encode
    (columns that share a label, cells of mixed types) is uploaded like any
    other. *)
Definition _write_parquet_and_upload (df : DataFrame) (bucket key : string)
  : M unit :=
  fun w =>
    if empty df then (Ok tt, w)
    else (Ok tt, {| uploads := uploads w ++ [{| Bucket := bucket; Key := key; Body := df |}];
                    clock_reads := clock_reads w |}).

(** [datetime.utcnow().strftime("%Y%m%dT%H%M%S")] *)
Definition utcnow_strftime : M string :=
  fun w => (Ok (utcnow env (clock_reads w)),
            {| uploads := uploads w; clock_reads := S (clock_reads w) |}).

(* ------------------------------------------------------------------ *)
(** *** [lambda_handler], one definition per local variable *)

(** [json.loads] gave a list; the frame constructor takes it as records.  An
    array holding anything but records does not get past the required-fields
    check: the constructor refuses it or labels its columns by position. *)
Definition as_records (orders : list pyval) : result (list record) :=
  mapM (fun o => match o with
                 | PDict d => Ok d
                 | _ => Raise (TypeError "the array does not hold records")
                 end) orders.

(** The frame of orders once the timestamp is parsed, the rows without one
    are dropped and the partition fields are derived. *)
Definition df_orders_raw (orders : list record) : result DataFrame :=
  let df := DataFrame_of_records orders in
  if negb (has_column df "order_id") || negb (has_column df "order_timestamp")
  then Raise (RuntimeError "Missing required fields: order_id and/or order_timestamp")
  else
    ts <- getitem df "order_timestamp" ;;
    let df := setitem df "order_timestamp" (_safe_to_datetime ts) in
    df <- dropna df "order_timestamp" ;;
    ts <- getitem df "order_timestamp" ;;
    let df := setitem df "order_date" (map dt_date_cell ts) in
    ts <- getitem df "order_timestamp" ;;
    let df := setitem df "order_year" (map dt_year_cell ts) in
    ts <- getitem df "order_timestamp" ;;
    Ok (setitem df "order_month" (map dt_month_cell ts)).

Definition nested_df (raw : DataFrame) (field : string) : result DataFrame :=
  if has_column raw field
  then col <- getitem raw field ;;
       flat <- json_normalize col ;;
       Ok (add_prefix (field ++ "_")%string flat)
  else Ok empty_frame.

Definition customer_df (raw : DataFrame) : result DataFrame := nested_df raw "customer".

Definition payment_df (raw : DataFrame) : result DataFrame := nested_df raw "payment".

Definition base_cols (raw : DataFrame) : list string :=
  filter (fun c => negb (mem c ["customer"; "payment"; "items"])) (columns raw).

Definition df_fact_orders (raw : DataFrame) : result DataFrame :=
  customer <- customer_df raw ;;
  payment <- payment_df raw ;;
  base <- getitems raw (base_cols raw) ;;
  let df := concat_axis1 [base; customer; payment] in
  if has_column df "order_total"
  then total <- getitem df "order_total" ;;
       Ok (setitem df "order_total" (to_numeric total))
  else Ok df.

Definition ctx_cols : list string :=
  ["order_id"; "order_timestamp"; "order_date"; "order_year"; "order_month"].

(** The exploded items beside their order context, before the numeric
    coercions. *)
Definition exploded_items (raw : DataFrame) : result DataFrame :=
  if has_column raw "items"
  then
    df_items_ctx <- getitems raw (ctx_cols ++ ["items"]) ;;
    df_items_ctx <- explode df_items_ctx "items" ;;
    items <- getitem df_items_ctx "items" ;;
    items_df <- json_normalize items ;;
    ctx <- drop df_items_ctx ["items"] false ;;
    Ok (concat_axis1 [ctx; items_df])
  else Ok empty_frame.

Definition coerce_column (df : DataFrame) (c : string) : result DataFrame :=
  if has_column df c
  then col <- getitem df c ;; Ok (setitem df c (to_numeric col))
  else Ok df.

Definition df_fact_order_items (raw : DataFrame) : result DataFrame :=
  df <- exploded_items raw ;;
  if negb (empty df)
  then
    df <- coerce_column df "quantity" ;;
    df <- coerce_column df "unit_price" ;;
    if has_column df "quantity" && has_column df "unit_price"
    then quantity <- getitem df "quantity" ;;
         unit_price <- getitem df "unit_price" ;;
         Ok (setitem df "line_total" (map round2_cell (map2 mul_cell quantity unit_price)))
    else Ok df
  else Ok df.

(** [df_fact_orders[PARTITION_COLS].drop_duplicates().to_dict("records")],
    each record read with [int(p["order_year"])], [int(p["order_month"])]. *)
Definition partitions (fact_orders : DataFrame) : result (list (Z * Z)) :=
  years <- getitem fact_orders "order_year" ;;
  months <- getitem fact_orders "order_month" ;;
  ps <- mapM (fun p => y <- py_int (fst p) ;; m <- py_int (snd p) ;; Ok (y, m))
             (combine years months) ;;
  Ok (uniq_pairs [] ps).

(** [df[(df["order_year"] == y) & (df["order_month"] == m)]] *)
Definition select_partition (df : DataFrame) (y m : Z) : result DataFrame :=
  years <- getitem df "order_year" ;;
  months <- getitem df "order_month" ;;
  Ok (boolean_index df (map2 (fun a b => eq_int a y && eq_int b m) years months)).

Definition partition_key (dataset : string) (y m : Z) (run_id : string) : string :=
  (PROCESSED_PREFIX ++ "/" ++ dataset ++ "/"
   ++ "order_year=" ++ str_of_Z y ++ "/order_month=" ++ str_of_Z m ++ "/"
   ++ "part-" ++ run_id ++ ".parquet")%string.

(** The body of the loop over the partitions. *)
Definition write_partition (out_bucket : string) (context : option string)
           (fact_orders fact_order_items : DataFrame) (p : Z * Z) : M unit :=
  let y := fst p in
  let m := snd p in
  orders_part <~ lift (select_partition fact_orders y m) ;;
  items_part <~ lift (if negb (empty fact_order_items)
                      then select_partition fact_order_items y m
                      else Ok empty_frame) ;;
  orders_to_write <~ lift (drop orders_part PARTITION_COLS true) ;;
  items_to_write <~ lift (drop items_part PARTITION_COLS true) ;;
  now <~ utcnow_strftime ;;
  let run_id := (now ++ "-" ++ match context with
                               | Some aws_request_id => aws_request_id
                               | None => "local"
                               end)%string in
  _ <~ _write_parquet_and_upload orders_to_write out_bucket
         (partition_key "fact_orders" y m run_id) ;;
  _write_parquet_and_upload items_to_write out_bucket
    (partition_key "fact_order_items" y m run_id).

Definition lambda_handler (event : Event) (context : option string) : M Response :=
  let in_bucket := fst (_parse_s3_event event) in
  let in_key := snd (_parse_s3_event event) in
  let out_bucket := match PROCESSED_BUCKET_ENV with
                    | Some b => if String.eqb b "" then in_bucket else b
                    | None => in_bucket
                    end in
  let input := ("s3://" ++ in_bucket ++ "/" ++ in_key)%string in
  obj <~ lift (match objects env in_bucket in_key with
               | Some o => Ok o
               | None => Raise (ClientError "NoSuchKey")
               end) ;;
  orders <~ lift (match obj with
                  | Json v => Ok v
                  | NotJson => Raise (RuntimeError ("Input is not valid JSON array: " ++ input))
                  end) ;;
  match orders with
  | PList (o :: os) =>
      records <~ lift (as_records (o :: os)) ;;
      raw <~ lift (df_orders_raw records) ;;
      fact_orders <~ lift (df_fact_orders raw) ;;
      fact_order_items <~ lift (df_fact_order_items raw) ;;
      ps <~ lift (partitions fact_orders) ;;
      _ <~ for_each ps (write_partition out_bucket context fact_orders fact_order_items) ;;
      ret (Processed input out_bucket
             ("s3://" ++ out_bucket ++ "/" ++ PROCESSED_PREFIX ++ "/fact_orders/")%string
             ("s3://" ++ out_bucket ++ "/" ++ PROCESSED_PREFIX ++ "/fact_order_items/")%string
             (len fact_orders)
             (if negb (empty fact_order_items) then len fact_order_items else 0%nat))
  | _ => ret (NoOrders input)
  end.

End Flatten.

(* ================================================================== *)
(** ** A small instance of the interface *)

(** It reads what the examples of this file use: ISO-8601 instants written
    [YYYY-MM-DDTHH:MM:SSZ] and decimal integers.  On these it agrees with
    pandas; every other text it refuses. *)
Module Reference.

(** (year, month, day) to days since 1970-01-01. *)
Definition days_from_civil (y m d : Z) : Z :=
  let y' := if m <=? 2 then y - 1 else y in
  let era := y' / 400 in
  let yoe := y' - era * 400 in
  let doy := (153 * (if 2 <? m then m - 3 else m + 9) + 2) / 5 + d - 1 in
  let doe := yoe * 365 + yoe / 4 - yoe / 100 + doy in
  era * 146097 + doe - 719468.

Definition field (s : string) (start len : nat) : option Z :=
  let t := substring start len s in
  if fullmatch_digits t then int_of_digits t else None.

Definition sep (s : string) (at_ : nat) (c : string) : bool :=
  String.eqb (substring at_ 1 s) c.

Definition iso8601_utc (s : string) : option Z :=
  if (String.length s =? 20)%nat
     && sep s 4 "-" && sep s 7 "-" && sep s 10 "T"
     && sep s 13 ":" && sep s 16 ":" && sep s 19 "Z"
  then
    match field s 0 4, field s 5 2, field s 8 2,
          field s 11 2, field s 14 2, field s 17 2 with
    | Some y, Some mo, Some d, Some h, Some mi, Some sec =>
        if (1 <=? mo) && (mo <=? 12) && (1 <=? d) && (d <=? 31)
           && (h <? 24) && (mi <? 60) && (sec <? 60)
        then let ns := ((days_from_civil y mo d * 86400 + h * 3600 + mi * 60 + sec)
                        * 10 ^ 9) in
             if (- INT64_MAX <=? ns) && (ns <=? INT64_MAX) then Some ns else None
        else None
    | _, _, _, _, _, _ => None
    end
  else None.

Definition decimal_integer (s : string) : option (Z + float) :=
  match s with
  | String "-" t =>
      if fullmatch_digits t then option_map (fun z => inl (- z)) (int_of_digits t) else None
  | _ => if fullmatch_digits s then option_map inl (int_of_digits s) else None
  end.

(** [str()] of a float with an integral value below [1e16], as Python
    prints it; the instance has no text for the other objects. *)
Definition repr (v : pyval) : string :=
  match v with
  | PFloat f =>
      match Prim2SF f with
      | S754_zero _ => "0.0"
      | S754_finite s m e =>
          let n := if 0 <=? e then Zpos m * 2 ^ e else Zpos m / 2 ^ (- e) in
          let integral := (0 <=? e) || (Zpos m mod 2 ^ (- e) =? 0) in
          if integral && (n <? 10 ^ 16)
          then ((if s then "-" else "") ++ str_of_Z n ++ ".0")%string
          else "<object>"
      | _ => "<object>"
      end
  | _ => "<object>"
  end.

Fixpoint plus_to_space (s : string) : string :=
  match s with
  | EmptyString => EmptyString
  | String c r => String (if Ascii.eqb c "+" then " "%char else c) (plus_to_space r)
  end.

(** Every string is read on its own. *)
Definition iso8601_column (s : list (option string)) : list (option Z) :=
  map (fun x => match x with
                | Some t => iso8601_utc t
                | None => None
                end) s.

Lemma iso8601_column_length (s : list (option string)) :
  List.length (iso8601_column s) = List.length s.
Proof. apply length_map. Qed.

Lemma iso8601_column_missing (s : list (option string)) (i : nat) :
  nth_error s i = Some None -> nth_error (iso8601_column s) i = Some None.
Proof. intro H. unfold iso8601_column. now rewrite nth_error_map, H. Qed.

#[export] Instance externals : Externals := {
  py_repr := repr;
  to_datetime := iso8601_column;
  to_datetime_length := iso8601_column_length;
  to_datetime_missing := iso8601_column_missing;
  parse_numeric_string := decimal_integer;
  unquote_plus := plus_to_space
}.

Definition env (doc : document) : Env := {|
  environ_PROCESSED_PREFIX := None;
  environ_PROCESSED_BUCKET := None;
  objects := fun _ _ => Some doc;
  utcnow := fun _ => "20250101T000000"
|}.

Definition event : Event := {| event_bucket := "raw"; event_key := "orders.json" |}.

Definition world : World := {| uploads := []; clock_reads := 0 |}.

(** The handler run on a bucket that holds [doc], from an empty world. *)
Definition run (doc : document) : result Response * World :=
  lambda_handler (env doc) event None world.

(** A batch of three orders: an ISO timestamp with a customer and two
    items, a millisecond epoch with no item, and a timestamp that does not
    parse. *)
Definition order1 : record :=
  [("order_id", PInt 1);
   ("order_timestamp", PStr "2025-01-01T12:00:00Z");
   ("customer", PDict [("name", PStr "Ann"); ("address", PDict [("city", PStr "Pune")])]);
   ("items", PList [PDict [("sku", PStr "A"); ("quantity", PInt 3);
                           ("unit_price", PFloat 2.005)];
                    PDict [("sku", PStr "B"); ("quantity", PStr "N/A");
                           ("unit_price", PInt 2)]])].

Definition order2 : record :=
  [("order_id", PInt 2);
   ("order_timestamp", PInt 1738411200000);
   ("items", PList [])].

Definition order3 : record :=
  [("order_id", PInt 3);
   ("order_timestamp", PStr "not-a-date");
   ("customer", PList [PStr "unknown"]);
   ("items", PList [PDict [("sku", PStr "C")]])].

Definition sample : list record := [order1; order2; order3].

Definition frame_of (r : result DataFrame) : DataFrame :=
  match r with
  | Ok df => df
  | Raise _ => empty_frame
  end.

Definition sample_raw : DataFrame :=
  Eval vm_compute in frame_of (df_orders_raw sample).

Definition sample_fact_orders : DataFrame :=
  Eval vm_compute in frame_of (df_fact_orders sample_raw).

Definition sample_fact_order_items : DataFrame :=
  Eval vm_compute in frame_of (df_fact_order_items sample_raw).

End Reference.

(* ================================================================== *)
(** * Properties *)

(** ** What the statements below speak of *)

Section Vocabulary.

Context {ext : Externals}.

(** The cells under a label: those of the first column that carries it. *)
Definition column (df : DataFrame) (c : string) : list pyval :=
  match filter (labelled c) (data df) with
  | cv :: _ => snd cv
  | [] => []
  end.

(** Every column has one cell per row. *)
Definition wf (df : DataFrame) : Prop :=
  Forall (fun cv => List.length (snd cv) = nrows df) (data df).

Definition count_true (mask : list bool) : nat :=
  List.length (filter (fun b : bool => b) mask).

Definition is_list (v : pyval) : bool :=
  match v with
  | PList _ => true
  | _ => false
  end.

Definition is_timestamp (v : pyval) : bool :=
  match v with
  | PTimestamp _ => true
  | _ => false
  end.

Definition is_pint (v : pyval) : bool :=
  match v with
  | PInt _ => true
  | _ => false
  end.

(** [c] labels exactly one column of [df]. *)
Definition single (df : DataFrame) (c : string) : Prop :=
  exists v, filter (labelled c) (data df) = [(c, v)].

(** The classification step: a value is missing, a numeric epoch, or text
    for the date parser. *)
Inductive candidate : Type :=
| Missing
| Epoch (n : Z)
| Text (s : string).

Definition candidate_of (v : pyval) : candidate :=
  match astype_string v with
  | None => Missing
  | Some s =>
      if fullmatch_digits s
      then match int_of_digits s with
           | Some n => Epoch n
           | None => Missing
           end
      else Text s
  end.

(** The instant of a classified value: milliseconds below [10^15] and
    nanoseconds from there on for an epoch, and for a text what the date
    parser answered. *)
Definition instant (k : candidate) (parsed : option Z) : option Z :=
  match k with
  | Missing => None
  | Epoch n =>
      if n <? 10 ^ 15
      then to_datetime_unit (10 ^ 6) (Some n)
      else to_datetime_unit 1 (Some n)
  | Text _ => parsed
  end.

Definition normalize (v : pyval) (parsed : option Z) : pyval :=
  timestamp_cell (instant (candidate_of v) parsed).

(** The texts of a Series, as the date parser receives them: nothing where
    the value is missing or an epoch. *)
Definition texts (series : list pyval) : list (option string) :=
  map (fun v => match candidate_of v with
                | Text s => Some s
                | _ => None
                end) series.

(** The normalized timestamp of each order of the batch, and the mask of the
    orders that have one. *)
Definition timestamps (orders : list record) : list pyval :=
  _safe_to_datetime (column (DataFrame_of_records orders) "order_timestamp").

Definition alive (orders : list record) : list bool :=
  map notna (timestamps orders).

(** Both required columns are there. *)
Definition required (orders : list record) : bool :=
  has_column (DataFrame_of_records orders) "order_id"
  && has_column (DataFrame_of_records orders) "order_timestamp".

(** What [df_orders_raw] guarantees to the rest of the handler. *)
Record good (raw : DataFrame) : Prop := {
  good_wf : wf raw;
  good_NoDup : NoDup (columns raw);
  good_ctx : forall c, In c ctx_cols -> has_column raw c = true;
  good_ts : Forall (fun v => is_timestamp v = true) (column raw "order_timestamp");
  good_date : column raw "order_date" = map dt_date_cell (column raw "order_timestamp");
  good_year : column raw "order_year" = map dt_year_cell (column raw "order_timestamp");
  good_month : column raw "order_month" = map dt_month_cell (column raw "order_timestamp")
}.

Definition derived : list string :=
  ["order_timestamp"; "order_date"; "order_year"; "order_month"].

(** The frame [df_orders_raw] returns, written out. *)
Definition orders_frame (orders : list record) : DataFrame :=
  let ts := mask_rows (alive orders) (timestamps orders) in
  let kept := boolean_index
                (setitem (DataFrame_of_records orders) "order_timestamp" (timestamps orders))
                (alive orders) in
  setitem (setitem (setitem kept "order_date" (map dt_date_cell ts))
                   "order_year" (map dt_year_cell ts))
          "order_month" (map dt_month_cell ts).

(** The record one element of a Series is flattened into. *)
Definition flat (v : pyval) : record :=
  match v with
  | PDict d => _normalise_json_ordered d
  | _ => []
  end.

Definition no_list (series : list pyval) : bool :=
  forallb (fun v => negb (is_list v)) series.

(** A column turned numeric in place, when it is there. *)
Definition coerced (df : DataFrame) (c : string) : DataFrame :=
  if has_column df c then setitem df c (to_numeric (column df c)) else df.

(** The frame a nested field is expanded into. *)
Definition nested_frame (raw : DataFrame) (field : string) : DataFrame :=
  if has_column raw field
  then add_prefix (field ++ "_") (DataFrame_of_records (map flat (column raw field)))
  else empty_frame.

(** The columns of [raw] under the given labels, as a list of columns. *)
Definition graph (raw : DataFrame) (labels : list string) : list (string * list pyval) :=
  map (fun c => (c, column raw c)) labels.

(** FactOrder before [order_total] is coerced: the base columns, then the
    expanded customer and payment. *)
Definition fact_orders_pre (raw : DataFrame) : DataFrame :=
  mkDF (nrows raw)
       (graph raw (base_cols raw)
        ++ data (nested_frame raw "customer")
        ++ data (nested_frame raw "payment")).

(** The frame [df_fact_orders] returns, written out. *)
Definition fact_orders_frame (raw : DataFrame) : DataFrame :=
  coerced (fact_orders_pre raw) "order_total".

Definition nested_ok (raw : DataFrame) : bool :=
  no_list (column raw "customer") && no_list (column raw "payment").

(** Rows each order explodes into, and the exploded cells. *)
Definition item_counts (raw : DataFrame) : list nat :=
  map (fun v => List.length (explode_cell v)) (column raw "items").

Definition exploded (raw : DataFrame) : list pyval :=
  flat_map explode_cell (column raw "items").

(** [items_df]: the exploded cells, flattened. *)
Definition items_frame (raw : DataFrame) : DataFrame :=
  DataFrame_of_records (map flat (exploded raw)).

(** The frame [exploded_items] returns, written out: the order context of
    each order repeated once per exploded row, then the item fields. *)
Definition exploded_frame (raw : DataFrame) : DataFrame :=
  if has_column raw "items"
  then mkDF (list_sum (item_counts raw))
            (map (fun c => (c, repeat_each (item_counts raw) (column raw c))) ctx_cols
             ++ data (items_frame raw))
  else empty_frame.

Definition items_ok (raw : DataFrame) : bool := no_list (exploded raw).

(** [line_total], when both of its inputs are columns of the frame. *)
Definition with_line_total (df : DataFrame) : DataFrame :=
  if has_column df "quantity" && has_column df "unit_price"
  then setitem df "line_total"
         (map round2_cell (map2 mul_cell (column df "quantity") (column df "unit_price")))
  else df.

(** The exploded frame with its two numeric columns coerced. *)
Definition coerced_items (raw : DataFrame) : DataFrame :=
  coerced (coerced (exploded_frame raw) "quantity") "unit_price".

(** The frame [df_fact_order_items] returns, written out. *)
Definition fact_order_items_frame (raw : DataFrame) : DataFrame :=
  if negb (empty (exploded_frame raw))
  then with_line_total (coerced_items raw)
  else exploded_frame raw.

(** The rows of one partition, and a frame without its partition columns. *)
Definition slice (df : DataFrame) (y m : Z) : DataFrame :=
  boolean_index df
    (map2 (fun a b => eq_int a y && eq_int b m)
          (column df "order_year") (column df "order_month")).

Definition without_partition_cols (df : DataFrame) : DataFrame :=
  mkDF (nrows df) (filter (fun cv => negb (mem (fst cv) PARTITION_COLS)) (data df)).

(** What one call of [_write_parquet_and_upload] adds to the bucket. *)
Definition uploaded (df : DataFrame) (bucket key : string) : list S3Object :=
  if empty df then [] else [{| Bucket := bucket; Key := key; Body := df |}].

Definition in_bucket_of (event : Event) : string := fst (_parse_s3_event event).

Definition in_key_of (event : Event) : string := snd (_parse_s3_event event).

Definition input_of (event : Event) : string :=
  ("s3://" ++ in_bucket_of event ++ "/" ++ in_key_of event)%string.

(** The partition key of a Timestamp cell, and the keys of the rows of
    [raw]. *)
Definition key_of (v : pyval) : Z * Z :=
  match v with
  | PTimestamp ns => (dt_year ns, dt_month ns)
  | _ => (0, 0)
  end.

Definition keys_of (raw : DataFrame) : list (Z * Z) :=
  map key_of (column raw "order_timestamp").

(** A record carries the field. *)
Definition has_field (c : string) (o : pyval) : bool :=
  match o with
  | PDict d => mem c (keys d)
  | _ => false
  end.

(** The order that row [i] of the exploded frame comes from. *)
Fixpoint owner (counts : list nat) (i : nat) : nat :=
  match counts with
  | [] => 0
  | n :: rest => if (i <? n)%nat then 0%nat else S (owner rest (i - n))
  end.

(** The rows of partition [p], each order counted with its weight. *)
Definition weight (p : Z * Z) (keys : list (Z * Z)) (ws : list nat) : nat :=
  list_sum (mask_rows (map (pair_eqb p) keys) ws).

(** [s] starts with [p]. *)
Fixpoint starts_with (p s : string) : bool :=
  match p with
  | EmptyString => true
  | String a p' =>
      match s with
      | EmptyString => false
      | String b s' => Ascii.eqb a b && starts_with p' s'
      end
  end.

(** No character of [s] is a slash. *)
Definition no_slash (s : string) : bool :=
  forallb (fun c => negb (Ascii.eqb c "/")) (list_ascii_of_string s).

(** The rows one slice puts in its file: none when the file is skipped. *)
Definition written_rows (part : DataFrame) : nat :=
  if empty (without_partition_cols part) then 0%nat else nrows part.

Definition orders_rows (fo : DataFrame) (p : Z * Z) : nat :=
  written_rows (slice fo (fst p) (snd p)).

Definition items_rows (foi : DataFrame) (p : Z * Z) : nat :=
  if negb (empty foi) then written_rows (slice foi (fst p) (snd p)) else 0%nat.

Definition partition_mask (df : DataFrame) (y m : Z) : list bool :=
  map2 (fun a b => eq_int a y && eq_int b m)
       (column df "order_year") (column df "order_month").

(** A cell of a numeric Series: an integer, a float, or missing. *)
Definition numeric_or_missing (v : pyval) : bool :=
  match v with
  | PNone | PInt _ | PFloat _ => true
  | _ => false
  end.

(** What FactOrder [fo] holds of a nested field of [raw].  When the field is
    a column of [raw], the labels it contributes are the flattened keys met
    in that column, each behind the prefix; and whatever a row's record holds
    under a flattened key is in the column labelled with the prefixed key, at
    that row (as a float when dtype inference turned an integer column into
    floats).  When the field is not a column, it contributes no column. *)
Definition expands (raw fo : DataFrame) (field : string) : Prop :=
  if has_column raw field
  then columns (nested_frame raw field)
       = map (String.append (field ++ "_")) (union_keys (map flat (column raw field)))
       /\ forall i d k v,
            nth_error (column raw field) i = Some (PDict d) ->
            dict_get k (flat (PDict d)) = Some v ->
            exists col,
              In (((field ++ "_") ++ k)%string, col) (data fo)
              /\ List.length col = nrows fo
              /\ (nth i col PNone = v \/ nth i col PNone = to_float64 v)
  else columns (nested_frame raw field) = [].

(** *** What depends on the environment *)

Variable env : Env.

Definition run_id (context : option string) (k : nat) : string :=
  (utcnow env k ++ "-" ++ match context with
                          | Some aws_request_id => aws_request_id
                          | None => "local"
                          end)%string.

(** The files one iteration of the loop uploads, given the two slices. *)
Definition partition_files (out_bucket : string) (context : option string)
           (orders_part items_part : DataFrame) (p : Z * Z) (k : nat) : list S3Object :=
  uploaded (without_partition_cols orders_part) out_bucket
           (partition_key env "fact_orders" (fst p) (snd p) (run_id context k))
  ++ uploaded (without_partition_cols items_part) out_bucket
              (partition_key env "fact_order_items" (fst p) (snd p) (run_id context k)).

Definition out_bucket_of (event : Event) : string :=
  match PROCESSED_BUCKET_ENV env with
  | Some b => if String.eqb b "" then in_bucket_of event else b
  | None => in_bucket_of event
  end.

(** The result the handler returns once both tables are written. *)
Definition summary (event : Event) (fo foi : DataFrame) : Response :=
  Processed (input_of event) (out_bucket_of event)
    ("s3://" ++ out_bucket_of event ++ "/" ++ PROCESSED_PREFIX env ++ "/fact_orders/")%string
    ("s3://" ++ out_bucket_of event ++ "/" ++ PROCESSED_PREFIX env ++ "/fact_order_items/")%string
    (len fo)
    (if negb (empty foi) then len foi else 0%nat).

(** The files of a dataset are those under its output prefix; the rows
    written for it are the rows of these files. *)
Definition in_dataset (dataset : string) (f : S3Object) : bool :=
  starts_with (PROCESSED_PREFIX env ++ "/" ++ dataset ++ "/") (Key f).

Definition rows_written (dataset : string) (files : list S3Object) : nat :=
  list_sum (map (fun f => nrows (Body f)) (filter (in_dataset dataset) files)).

(** [f] is the slice of [table] for one partition, without the partition
    columns, stored under the Hive-style path of that partition. *)
Definition hive_file (context : option string) (dataset : string)
           (table : DataFrame) (f : S3Object) : Prop :=
  exists y m k,
    Key f = partition_key env dataset y m (run_id context k)
    /\ Body f = without_partition_cols (slice table y m).

End Vocabulary.

(* ================================================================== *)
(** * Lemmas *)

(** ** Lists, labels and masks *)

Lemma mem_In (k : string) (l : list string) : mem k l = true <-> In k l.
Proof.
  unfold mem. rewrite existsb_exists. split.
  - intros (x & Hx & He). apply String.eqb_eq in He. now subst.
  - intro Hk. exists k. split; [assumption | apply String.eqb_refl].
Qed.

Lemma mem_not_In (k : string) (l : list string) : mem k l = false <-> ~ In k l.
Proof.
  rewrite <- mem_In. destruct (mem k l); split; intro H; congruence.
Qed.

Lemma uniq_acc_In (l seen : list string) (x : string) :
  In x (uniq_acc seen l) <-> In x l /\ ~ In x seen.
Proof.
  revert seen. induction l as [|a l IH]; intro seen; simpl.
  - tauto.
  - destruct (mem a seen) eqn:Ha.
    + rewrite IH. apply mem_In in Ha. split.
      * intros [H1 H2]. auto.
      * intros [[-> | H1] H2]; [contradiction | auto].
    + apply mem_not_In in Ha. simpl. rewrite IH. simpl. split.
      * intros [-> | [H1 H2]]; auto.
      * intros [[-> | H1] H2]; auto.
        destruct (string_dec a x) as [-> | Hne]; auto.
        right. split; auto. intros [E | E]; auto.
Qed.

Lemma uniq_acc_NoDup (l seen : list string) : NoDup (uniq_acc seen l).
Proof.
  revert seen. induction l as [|a l IH]; intro seen; simpl.
  - constructor.
  - destruct (mem a seen); [apply IH|].
    constructor; [|apply IH].
    rewrite uniq_acc_In. simpl. tauto.
Qed.

Lemma union_keys_In (rs : list record) (k : string) :
  In k (union_keys rs) <-> exists r, In r rs /\ In k (keys r).
Proof.
  unfold union_keys. rewrite uniq_acc_In, in_concat. split.
  - intros [(l & Hl & Hk) _]. apply in_map_iff in Hl as (r & <- & Hr). eauto.
  - intros (r & Hr & Hk). split; [|auto]. exists (keys r). split; auto using in_map.
Qed.

Lemma union_keys_NoDup (rs : list record) : NoDup (union_keys rs).
Proof. apply uniq_acc_NoDup. Qed.

Lemma mask_rows_nil_l {A} (l : list A) : mask_rows [] l = [].
Proof. reflexivity. Qed.

Lemma mask_rows_cons {A} (b : bool) (mask : list bool) (x : A) (l : list A) :
  mask_rows (b :: mask) (x :: l) = if b then x :: mask_rows mask l else mask_rows mask l.
Proof. unfold mask_rows. simpl. now destruct b. Qed.

Lemma mask_rows_map {A B} (f : A -> B) (mask : list bool) (l : list A) :
  mask_rows mask (map f l) = map f (mask_rows mask l).
Proof.
  revert l. induction mask as [|b mask IH]; intros [|x l]; try reflexivity.
  simpl map. rewrite !mask_rows_cons, IH. now destruct b.
Qed.

Lemma mask_rows_length {A} (mask : list bool) (l : list A) :
  List.length mask = List.length l ->
  List.length (mask_rows mask l) = count_true mask.
Proof.
  revert l. induction mask as [|b mask IH]; intros [|x l] Hlen; try discriminate.
  - reflexivity.
  - rewrite mask_rows_cons. unfold count_true in *. simpl in *.
    injection Hlen as Hlen. destruct b; simpl; auto.
Qed.

Lemma mask_rows_In {A} (mask : list bool) (l : list A) (x : A) :
  In x (mask_rows mask l) -> In x l.
Proof.
  revert l. induction mask as [|b mask IH]; intros [|y l]; try (simpl; tauto).
  rewrite mask_rows_cons. destruct b; simpl; intuition auto.
Qed.

Lemma mask_rows_Forall {A} (P : A -> Prop) (mask : list bool) (l : list A) :
  Forall P l -> Forall P (mask_rows mask l).
Proof.
  rewrite !Forall_forall. intros H x Hx. eauto using mask_rows_In.
Qed.

(** A mask computed from the cells keeps exactly the cells that pass. *)
Lemma mask_rows_self {A} (p : A -> bool) (l : list A) :
  mask_rows (map p l) l = filter p l.
Proof.
  induction l as [|x l IH]; [reflexivity|].
  simpl map. rewrite mask_rows_cons, IH. reflexivity.
Qed.

Lemma map2_map {A B C D} (f : B -> C -> D) (g : A -> B) (h : A -> C) (l : list A) :
  map2 f (map g l) (map h l) = map (fun x => f (g x) (h x)) l.
Proof.
  unfold map2. induction l as [|x l IH]; simpl; [reflexivity | now rewrite IH].
Qed.

Lemma map2_length {A B C} (f : A -> B -> C) (l1 : list A) (l2 : list B) :
  List.length l1 = List.length l2 -> List.length (map2 f l1 l2) = List.length l1.
Proof.
  intro H. unfold map2. rewrite length_map, length_combine, <- H. apply Nat.min_id.
Qed.

(** ** Frames: selecting and replacing columns *)

Section FrameFacts.

Implicit Types (df : DataFrame) (c : string) (l : list (string * list pyval)).

Lemma labelled_eq c cv : labelled c cv = true <-> fst cv = c.
Proof. unfold labelled. apply String.eqb_eq. Qed.

Lemma labelled_neq c cv : fst cv <> c -> labelled c cv = false.
Proof. unfold labelled. apply String.eqb_neq. Qed.

Lemma filter_labelled_nil c l : ~ In c (map fst l) -> filter (labelled c) l = [].
Proof.
  induction l as [|cv l IH]; simpl; intro H; [reflexivity|].
  destruct (labelled c cv) eqn:E.
  - apply labelled_eq in E. tauto.
  - apply IH. tauto.
Qed.

Lemma filter_labelled_unique c l :
  NoDup (map fst l) -> In c (map fst l) -> exists v, filter (labelled c) l = [(c, v)].
Proof.
  induction l as [|[k v] l IH]; simpl; intros Hnd Hin; [contradiction|].
  inversion Hnd as [|? ? Hk Hnd']; subst.
  unfold labelled at 1. simpl. destruct (String.eqb k c) eqn:E.
  - apply String.eqb_eq in E. subst k. exists v.
    now rewrite filter_labelled_nil.
  - apply String.eqb_neq in E. destruct Hin as [Hin | Hin]; [contradiction|].
    now apply IH.
Qed.

Lemma filter_labelled_has c l :
  In c (map fst l) -> exists cv rest, filter (labelled c) l = cv :: rest /\ fst cv = c.
Proof.
  intro H. apply in_map_iff in H as (cv & Hc & Hin).
  assert (Hf : In cv (filter (labelled c) l))
    by (apply filter_In; split; [assumption | now apply labelled_eq]).
  destruct (filter (labelled c) l) as [|cv' rest] eqn:E; [contradiction|].
  exists cv', rest. split; [reflexivity|].
  apply labelled_eq. apply (proj1 (filter_In (labelled c) cv' l)).
  rewrite E. now left.
Qed.

Lemma filter_labelled_map_snd (g : list pyval -> list pyval) c l :
  filter (labelled c) (map (fun cv => (fst cv, g (snd cv))) l)
  = map (fun cv => (fst cv, g (snd cv))) (filter (labelled c) l).
Proof.
  induction l as [|cv l IH]; simpl; [reflexivity|].
  replace (labelled c (fst cv, g (snd cv))) with (labelled c cv) by reflexivity.
  destruct (labelled c cv); simpl; now rewrite IH.
Qed.

Lemma has_column_In df c : has_column df c = true <-> In c (columns df).
Proof. apply mem_In. Qed.

Lemma has_column_not_In df c : has_column df c = false <-> ~ In c (columns df).
Proof. apply mem_not_In. Qed.

Lemma single_has df c : single df c -> has_column df c = true.
Proof.
  intros [v Hv]. apply has_column_In. unfold columns.
  destruct (in_dec string_dec c (map fst (data df))) as [H | H]; [assumption|].
  rewrite filter_labelled_nil in Hv by assumption. discriminate.
Qed.

Lemma NoDup_single df c : NoDup (columns df) -> has_column df c = true -> single df c.
Proof.
  intros Hnd Hc. apply has_column_In in Hc. now apply filter_labelled_unique.
Qed.

Lemma getitem_single df c : single df c -> getitem df c = Ok (column df c).
Proof. intros [v Hv]. unfold getitem, column. now rewrite Hv. Qed.

Lemma getitem_Ok df c v : getitem df c = Ok v -> single df c /\ v = column df c.
Proof.
  unfold getitem, column, single. intro H.
  destruct (filter (labelled c) (data df)) as [|cv [|cv' rest]] eqn:E; try discriminate.
  injection H as <-. split; [|reflexivity].
  exists (snd cv). destruct cv as [k v]. simpl. f_equal. f_equal.
  apply labelled_eq with (cv := (k, v)).
  apply (proj1 (filter_In (labelled c) (k, v) (data df))). rewrite E. now left.
Qed.

Lemma getitem_missing df c : has_column df c = false -> getitem df c = Raise (KeyError c).
Proof.
  intro H. apply has_column_not_In in H. unfold getitem.
  now rewrite filter_labelled_nil.
Qed.

Lemma getitem_has df c v : getitem df c = Ok v -> has_column df c = true.
Proof. intro H. apply getitem_Ok in H as [H _]. now apply single_has. Qed.

Lemma column_In_data df c :
  has_column df c = true -> In (c, column df c) (data df).
Proof.
  intro H. apply has_column_In in H. unfold columns in H.
  destruct (filter_labelled_has c (data df) H) as (cv & rest & E & Hc).
  unfold column. rewrite E. destruct cv as [k v]. simpl in *. subst k.
  apply (proj1 (filter_In (labelled c) (c, v) (data df))). rewrite E. now left.
Qed.

Lemma wf_column df c :
  wf df -> has_column df c = true -> List.length (column df c) = nrows df.
Proof.
  intros Hwf Hc. apply column_In_data in Hc.
  unfold wf in Hwf. rewrite Forall_forall in Hwf. apply (Hwf _ Hc).
Qed.

Lemma wf_getitem df c v : wf df -> getitem df c = Ok v -> List.length v = nrows df.
Proof.
  intros Hwf H. pose proof (getitem_has _ _ _ H) as Hc.
  apply getitem_Ok in H as [_ ->]. now apply wf_column.
Qed.

(** *** [setitem] *)

Lemma setitem_nrows df c v : nrows (setitem df c v) = nrows df.
Proof. unfold setitem. now destruct (has_column df c). Qed.

Lemma setitem_columns df c v :
  columns (setitem df c v) = if has_column df c then columns df else columns df ++ [c].
Proof.
  unfold setitem, columns. destruct (has_column df c); simpl.
  - rewrite map_map. apply map_ext_in. intros cv _.
    destruct (labelled c cv) eqn:E; [|reflexivity].
    apply labelled_eq in E. now rewrite E.
  - now rewrite map_app.
Qed.

Lemma setitem_has df c v c' :
  has_column (setitem df c v) c' = has_column df c' || String.eqb c' c.
Proof.
  unfold has_column at 1. rewrite setitem_columns.
  destruct (has_column df c) eqn:Hc.
  - fold (has_column df c'). destruct (String.eqb c' c) eqn:E.
    + apply String.eqb_eq in E. subst. rewrite Hc. reflexivity.
    + now rewrite orb_false_r.
  - unfold mem. rewrite existsb_app. simpl. now rewrite orb_false_r.
Qed.

Lemma setitem_NoDup df c v : NoDup (columns df) -> NoDup (columns (setitem df c v)).
Proof.
  intro H. rewrite setitem_columns. destruct (has_column df c) eqn:Hc; [assumption|].
  apply has_column_not_In in Hc. apply NoDup_app; [assumption | repeat constructor; auto |].
  intros x Hx [<- | []]. contradiction.
Qed.

Lemma setitem_wf df c v : wf df -> List.length v = nrows df -> wf (setitem df c v).
Proof.
  unfold wf, setitem. intros Hwf Hv. destruct (has_column df c); simpl.
  - rewrite Forall_map. eapply Forall_impl; [|exact Hwf].
    intros cv H. now destruct (labelled c cv).
  - apply Forall_app. split; [assumption | now repeat constructor].
Qed.

Lemma setitem_filter_other df c v c' :
  c' <> c ->
  filter (labelled c') (data (setitem df c v)) = filter (labelled c') (data df).
Proof.
  intro Hne. unfold setitem. destruct (has_column df c); simpl.
  - induction (data df) as [|cv l IH]; simpl; [reflexivity|].
    destruct (labelled c cv) eqn:E.
    + apply labelled_eq in E.
      rewrite (labelled_neq c' (c, v)), (labelled_neq c' cv) by (simpl; congruence).
      exact IH.
    + destruct (labelled c' cv); now rewrite IH.
  - rewrite filter_app. simpl.
    rewrite (labelled_neq c' (c, v)) by (simpl; congruence).
    apply app_nil_r.
Qed.

Lemma setitem_getitem_other df c v c' :
  c' <> c -> getitem (setitem df c v) c' = getitem df c'.
Proof. intro H. unfold getitem. now rewrite setitem_filter_other. Qed.

Lemma setitem_column_other df c v c' :
  c' <> c -> column (setitem df c v) c' = column df c'.
Proof. intro H. unfold column. now rewrite setitem_filter_other. Qed.

Lemma setitem_single_other df c v c' :
  c' <> c -> single (setitem df c v) c' <-> single df c'.
Proof. intro H. unfold single. now rewrite setitem_filter_other. Qed.

Lemma setitem_filter_same df c v :
  filter (labelled c) (data (setitem df c v))
  = if has_column df c
    then map (fun _ => (c, v)) (filter (labelled c) (data df))
    else [(c, v)].
Proof.
  unfold setitem. destruct (has_column df c) eqn:Hc; simpl.
  - induction (data df) as [|cv l IH]; simpl; [reflexivity|].
    destruct (labelled c cv) eqn:E; simpl.
    + unfold labelled at 1. simpl. rewrite String.eqb_refl. now rewrite IH.
    + rewrite E. exact IH.
  - apply has_column_not_In in Hc. rewrite filter_app, filter_labelled_nil by assumption.
    simpl. unfold labelled. simpl. now rewrite String.eqb_refl.
Qed.

Lemma setitem_single_same df c v :
  (has_column df c = true -> single df c) -> single (setitem df c v) c.
Proof.
  intro H. exists v. rewrite setitem_filter_same.
  destruct (has_column df c); [|reflexivity].
  destruct (H eq_refl) as [v' ->]. reflexivity.
Qed.

Lemma setitem_column_same df c v : column (setitem df c v) c = v.
Proof.
  unfold column. rewrite setitem_filter_same.
  destruct (has_column df c) eqn:Hc; [|reflexivity].
  apply has_column_In in Hc.
  destruct (filter_labelled_has c (data df) Hc) as (cv & rest & -> & _). reflexivity.
Qed.

(** *** [boolean_index] *)

Lemma boolean_index_columns df mask : columns (boolean_index df mask) = columns df.
Proof. unfold boolean_index, columns. simpl. now rewrite map_map. Qed.

Lemma boolean_index_nrows df mask :
  List.length mask = nrows df -> nrows (boolean_index df mask) = count_true mask.
Proof.
  intro H. simpl. apply mask_rows_length. now rewrite length_seq.
Qed.

Lemma boolean_index_wf df mask :
  wf df -> List.length mask = nrows df -> wf (boolean_index df mask).
Proof.
  intros Hwf Hlen. unfold wf. rewrite boolean_index_nrows by assumption.
  simpl. rewrite Forall_map. eapply Forall_impl; [|exact Hwf].
  intros cv H. simpl. apply mask_rows_length. congruence.
Qed.

Lemma boolean_index_filter df mask c :
  filter (labelled c) (data (boolean_index df mask))
  = map (fun cv => (fst cv, mask_rows mask (snd cv))) (filter (labelled c) (data df)).
Proof. apply (filter_labelled_map_snd (mask_rows mask)). Qed.

Lemma boolean_index_getitem df mask c :
  getitem (boolean_index df mask) c
  = (v <- getitem df c ;; Ok (mask_rows mask v)).
Proof.
  unfold getitem. rewrite boolean_index_filter.
  destruct (filter (labelled c) (data df)) as [|cv [|cv' rest]]; reflexivity.
Qed.

Lemma boolean_index_column df mask c :
  column (boolean_index df mask) c = mask_rows mask (column df c).
Proof.
  unfold column. rewrite boolean_index_filter.
  destruct (filter (labelled c) (data df)) as [|cv rest]; simpl; [|reflexivity].
  unfold mask_rows. now rewrite combine_nil.
Qed.

Lemma boolean_index_single df mask c :
  single (boolean_index df mask) c <-> single df c.
Proof.
  unfold single. rewrite boolean_index_filter. split.
  - intros [v H]. destruct (filter (labelled c) (data df)) as [|[k w] [|cv' rest]] eqn:E;
      try discriminate.
    simpl in H. injection H as -> _. eauto.
  - intros [v ->]. simpl. eauto.
Qed.

End FrameFacts.

(** ** The frame constructor *)

Lemma maybe_convert_objects_cases (col : list pyval) :
  maybe_convert_objects col = col \/ maybe_convert_objects col = map to_float64 col.
Proof.
  unfold maybe_convert_objects.
  destruct (forallb is_number_or_na col && existsb is_float_or_na col); auto.
Qed.

Lemma maybe_convert_objects_length (col : list pyval) :
  List.length (maybe_convert_objects col) = List.length col.
Proof.
  destruct (maybe_convert_objects_cases col) as [-> | ->];
    [reflexivity | apply length_map].
Qed.

(** Inference touches integers only: whatever is read off a cell that is
    blind to the int/float distinction is read off the column unchanged. *)
Lemma maybe_convert_objects_blind {A} (f : pyval -> A) (col : list pyval) :
  (forall z, f (PFloat (float_of_Z z)) = f (PInt z)) ->
  map f (maybe_convert_objects col) = map f col.
Proof.
  intro Hf. destruct (maybe_convert_objects_cases col) as [-> | ->]; [reflexivity|].
  rewrite map_map. apply map_ext. intros [ | | z | | | | | ]; simpl; auto.
Qed.

Lemma DataFrame_of_records_columns (rs : list record) :
  columns (DataFrame_of_records rs) = union_keys rs.
Proof.
  unfold columns, DataFrame_of_records. simpl. rewrite map_map. simpl. apply map_id.
Qed.

Lemma DataFrame_of_records_NoDup (rs : list record) :
  NoDup (columns (DataFrame_of_records rs)).
Proof. rewrite DataFrame_of_records_columns. apply union_keys_NoDup. Qed.

Lemma DataFrame_of_records_wf (rs : list record) : wf (DataFrame_of_records rs).
Proof.
  unfold wf, DataFrame_of_records. simpl. rewrite Forall_map. apply Forall_forall.
  intros k _. simpl. now rewrite maybe_convert_objects_length, length_map.
Qed.

Lemma DataFrame_of_records_has (rs : list record) (c : string) :
  has_column (DataFrame_of_records rs) c = existsb (fun r => mem c (keys r)) rs.
Proof.
  unfold has_column. rewrite DataFrame_of_records_columns.
  apply eq_true_iff_eq. rewrite mem_In, union_keys_In, existsb_exists.
  split; intros (r & Hr & Hk); exists r; split; auto; now apply mem_In.
Qed.

Lemma DataFrame_of_records_column (rs : list record) (c : string) :
  has_column (DataFrame_of_records rs) c = true ->
  column (DataFrame_of_records rs) c = maybe_convert_objects (map (field_or_nan c) rs).
Proof.
  intro Hc. pose proof (column_In_data _ _ Hc) as Hin.
  unfold DataFrame_of_records in Hin. simpl in Hin.
  apply in_map_iff in Hin as (k & Hk & _). injection Hk as Hk1 Hk2. subst k.
  symmetry. exact Hk2.
Qed.

(** ** The timestamp normalizer, value by value *)

Lemma Forall2_pointwise {A B} (R : A -> B -> Prop) (l1 : list A) (l2 : list B) :
  List.length l1 = List.length l2 ->
  (forall i a b, nth_error l1 i = Some a -> nth_error l2 i = Some b -> R a b) ->
  Forall2 R l1 l2.
Proof.
  revert l2. induction l1 as [|a l1 IH]; intros [|b l2] Hlen H; try discriminate.
  - constructor.
  - constructor.
    + now apply (H 0%nat).
    + apply IH; [now injection Hlen|]. intro i. apply (H (S i)).
Qed.

Section Normalizer.

Context {ext : Externals}.

(** The strings that are not all digits are the texts. *)
Lemma where_texts (series : list pyval) :
  where_ (map astype_string series)
         (map negb (map (fun s => match s with
                                  | Some t => fullmatch_digits t
                                  | None => false
                                  end) (map astype_string series)))
  = texts series.
Proof.
  unfold where_, map2, texts. induction series as [|v series IH]; [reflexivity|].
  cbn [map combine fst snd]. rewrite IH. f_equal.
  unfold candidate_of. destruct (astype_string v) as [s|]; [|reflexivity].
  destruct (fullmatch_digits s); cbn [negb]; [|reflexivity].
  now destruct (int_of_digits s).
Qed.

(** The date parser has an answer for the texts only. *)
Lemma texts_parsed (series : list pyval) :
  Forall2 (fun v t => match candidate_of v with
                      | Text _ => True
                      | _ => t = None
                      end) series (to_datetime (texts series)).
Proof.
  apply Forall2_pointwise.
  - rewrite to_datetime_length. unfold texts. now rewrite length_map.
  - intros i v t Hv Ht.
    destruct (candidate_of v) eqn:E; [| |exact I];
      (assert (Hi : nth_error (texts series) i = Some None)
         by (unfold texts; rewrite nth_error_map, Hv; cbn; now rewrite E));
      apply to_datetime_missing in Hi; congruence.
Qed.

(** The normalizer works value by value, but for the date parser, which is
    handed the texts of the whole Series. *)
Lemma _safe_to_datetime_spec (series : list pyval) :
  _safe_to_datetime series = map2 normalize series (to_datetime (texts series)).
Proof.
  unfold _safe_to_datetime. cbv zeta. rewrite where_texts.
  pose proof (texts_parsed series) as H. revert H.
  generalize (to_datetime (texts series)) as parsed.
  unfold where_, fillna, map2.
  induction series as [|v series IH]; intros parsed H;
    inversion H as [|? t ? parsed' Hv Hrest]; subst; [reflexivity|].
  cbn [map combine fst snd]. f_equal; [|now apply IH].
  unfold normalize. unfold candidate_of in *.
  destruct (astype_string v) as [s|]; [|now subst t].
  destruct (fullmatch_digits s).
  - destruct (int_of_digits s) as [n|]; subst t; [|reflexivity].
    cbn [instant]. rewrite Z.leb_antisym. destruct (n <? 10 ^ 15); cbn [negb].
    + now destruct (to_datetime_unit (10 ^ 6) (Some n)).
    + reflexivity.
  - cbn [instant]. now destruct t.
Qed.

Lemma _safe_to_datetime_length (series : list pyval) :
  List.length (_safe_to_datetime series) = List.length series.
Proof.
  rewrite _safe_to_datetime_spec. apply map2_length.
  rewrite to_datetime_length. unfold texts. now rewrite length_map.
Qed.

Lemma normalize_cases (v : pyval) (parsed : option Z) :
  normalize v parsed = PNone \/ exists ns, normalize v parsed = PTimestamp ns.
Proof. unfold normalize. destruct (instant (candidate_of v) parsed); simpl; eauto. Qed.

Lemma notna_normalize (v : pyval) (parsed : option Z) :
  notna (normalize v parsed) = is_timestamp (normalize v parsed).
Proof. destruct (normalize_cases v parsed) as [-> | [ns ->]]; reflexivity. Qed.

(** What the normalizer returns is a Timestamp wherever it is not missing. *)
Lemma notna_safe_to_datetime (series : list pyval) :
  map notna (_safe_to_datetime series) = map is_timestamp (_safe_to_datetime series).
Proof.
  rewrite _safe_to_datetime_spec. unfold map2. rewrite !map_map.
  apply map_ext. intro p. apply notna_normalize.
Qed.

End Normalizer.

(** ** Decimal text *)

Lemma is_digit_uint_of_char (c : ascii) (d : Decimal.uint) :
  is_digit c = true -> exists d', uint_of_char c (Some d) = Some d'.
Proof.
  destruct c as [[|] [|] [|] [|] [|] [|] [|] [|]]; simpl; intro H;
    try discriminate H; eauto.
Qed.

Lemma digits_uint_of_string (s : string) :
  forallb is_digit (list_ascii_of_string s) = true ->
  exists d, NilEmpty.uint_of_string s = Some d.
Proof.
  induction s as [|c s IH]; simpl; intro H.
  - eauto.
  - apply andb_true_iff in H as [Hc Hs]. destruct (IH Hs) as [d ->].
    now apply is_digit_uint_of_char.
Qed.

Lemma Z_of_uint_nonneg (d : Decimal.uint) : 0 <= Z.of_uint d.
Proof. unfold Z.of_uint. apply N2Z.is_nonneg. Qed.

(** A string of digits always reads as a non-negative integer. *)
Lemma fullmatch_digits_int (s : string) :
  fullmatch_digits s = true -> exists n, int_of_digits s = Some n /\ 0 <= n.
Proof.
  unfold fullmatch_digits, int_of_digits. intro H.
  apply andb_true_iff in H as [Hne Hd].
  destruct (digits_uint_of_string s Hd) as [d Hs].
  exists (Z.of_uint d). split; [|apply Z_of_uint_nonneg].
  destruct s; [discriminate Hne|]. unfold NilZero.uint_of_string. now rewrite Hs.
Qed.

Lemma string_of_uint_digits (d : Decimal.uint) :
  forallb is_digit (list_ascii_of_string (NilEmpty.string_of_uint d)) = true.
Proof. induction d; simpl; auto. Qed.

(** [str] of a non-negative integer is a string of digits that reads back
    as the integer. *)
Lemma str_of_Z_digits (z : Z) :
  0 <= z ->
  fullmatch_digits (str_of_Z z) = true /\ int_of_digits (str_of_Z z) = Some z.
Proof.
  intro Hz. destruct z as [|p|p]; [split; reflexivity | | lia].
  unfold str_of_Z, fullmatch_digits, int_of_digits. simpl Z.to_int.
  cbn [NilZero.string_of_int].
  pose proof (Unsigned.to_uint_nonnil p) as Hnil.
  split.
  - unfold NilZero.string_of_uint.
    destruct (Pos.to_uint p) eqn:E; try contradiction;
      rewrite <- E; rewrite string_of_uint_digits;
      rewrite E; reflexivity.
  - rewrite NilZero.usu by assumption. simpl. unfold Z.of_uint.
    now rewrite Unsigned.of_to.
Qed.

Section Classification.

Context {ext : Externals}.

Lemma candidate_of_nonneg_int (z : Z) : 0 <= z -> candidate_of (PInt z) = Epoch z.
Proof.
  intro Hz. unfold candidate_of, astype_string. simpl.
  destruct (str_of_Z_digits z Hz) as [-> ->]. reflexivity.
Qed.

Lemma candidate_of_text (s : string) :
  fullmatch_digits s = false -> candidate_of (PStr s) = Text s.
Proof. intro H. unfold candidate_of, astype_string. simpl. now rewrite H. Qed.

Lemma candidate_of_digits (s : string) :
  fullmatch_digits s = true ->
  exists n, 0 <= n /\ int_of_digits s = Some n /\ candidate_of (PStr s) = Epoch n.
Proof.
  intro H. destruct (fullmatch_digits_int s H) as (n & Hn & Hpos).
  exists n. repeat split; auto.
  unfold candidate_of, astype_string. simpl. now rewrite H, Hn.
Qed.

End Classification.

(** ** The frame of orders *)

Section Orders.

Context {ext : Externals}.

Lemma boolean_index_has df mask c :
  has_column (boolean_index df mask) c = has_column df c.
Proof. unfold has_column. now rewrite boolean_index_columns. Qed.

Lemma timestamps_length (orders : list record) :
  has_column (DataFrame_of_records orders) "order_timestamp" = true ->
  List.length (timestamps orders) = List.length orders.
Proof.
  intro H. unfold timestamps. rewrite _safe_to_datetime_length.
  now rewrite (wf_column _ _ (DataFrame_of_records_wf orders) H).
Qed.

Lemma timestamps_alive (orders : list record) :
  Forall (fun v => is_timestamp v = true) (mask_rows (alive orders) (timestamps orders)).
Proof.
  unfold alive. rewrite mask_rows_self. apply Forall_forall.
  intros v Hv. apply filter_In in Hv as [Hin Hv].
  unfold timestamps in Hin. rewrite _safe_to_datetime_spec in Hin.
  unfold map2 in Hin. apply in_map_iff in Hin as (x & <- & _).
  now rewrite <- notna_normalize.
Qed.

Lemma df_orders_raw_required (orders : list record) :
  required orders = false ->
  df_orders_raw orders
  = Raise (RuntimeError "Missing required fields: order_id and/or order_timestamp").
Proof.
  unfold required, df_orders_raw. intro H.
  apply andb_false_iff in H as [-> | ->]; simpl; [reflexivity|].
  now rewrite orb_true_r.
Qed.

Lemma df_orders_raw_Ok (orders : list record) :
  required orders = true -> df_orders_raw orders = Ok (orders_frame orders).
Proof.
  unfold required, df_orders_raw. intro H. apply andb_true_iff in H as [Hid Hts].
  rewrite Hid, Hts. cbn [negb orb].
  pose proof (DataFrame_of_records_NoDup orders) as Hnd.
  rewrite (getitem_single _ _ (NoDup_single _ _ Hnd Hts)). cbn [bind].
  fold (timestamps orders).
  set (parsed := setitem (DataFrame_of_records orders) "order_timestamp" (timestamps orders)).
  assert (Hp : getitem parsed "order_timestamp" = Ok (timestamps orders)).
  { unfold parsed. rewrite getitem_single.
    - now rewrite setitem_column_same.
    - apply setitem_single_same. intros _. now apply NoDup_single. }
  unfold dropna. rewrite Hp. cbn [bind]. fold (alive orders).
  set (kept := boolean_index parsed (alive orders)).
  assert (Hk : getitem kept "order_timestamp"
               = Ok (mask_rows (alive orders) (timestamps orders))).
  { unfold kept. now rewrite boolean_index_getitem, Hp. }
  rewrite Hk. cbn [bind].
  rewrite setitem_getitem_other by discriminate. rewrite Hk. cbn [bind].
  rewrite !setitem_getitem_other by discriminate. rewrite Hk. cbn [bind].
  reflexivity.
Qed.

Lemma orders_frame_nrows (orders : list record) :
  required orders = true ->
  nrows (orders_frame orders) = count_true (alive orders).
Proof.
  intro H. apply andb_true_iff in H as [_ Hts].
  unfold orders_frame. cbn zeta. rewrite !setitem_nrows.
  apply boolean_index_nrows. rewrite setitem_nrows. unfold alive.
  rewrite length_map. now apply timestamps_length.
Qed.

Lemma orders_frame_column (orders : list record) (c : string) :
  ~ In c derived ->
  column (orders_frame orders) c
  = mask_rows (alive orders) (column (DataFrame_of_records orders) c).
Proof.
  intro Hc. unfold orders_frame. cbn zeta. simpl in Hc.
  rewrite !setitem_column_other by intuition congruence.
  rewrite boolean_index_column.
  rewrite setitem_column_other by intuition congruence. reflexivity.
Qed.

Lemma orders_frame_has (orders : list record) (c : string) :
  has_column (orders_frame orders) c
  = has_column (DataFrame_of_records orders) c || mem c derived.
Proof.
  unfold orders_frame. cbn zeta. rewrite !setitem_has, boolean_index_has, setitem_has.
  unfold derived, mem. simpl. rewrite orb_false_r, <- !orb_assoc. reflexivity.
Qed.

Lemma orders_frame_timestamps (orders : list record) :
  column (orders_frame orders) "order_timestamp"
  = mask_rows (alive orders) (timestamps orders).
Proof.
  unfold orders_frame. cbn zeta.
  rewrite !setitem_column_other by discriminate.
  rewrite boolean_index_column. now rewrite setitem_column_same.
Qed.

Lemma orders_frame_good (orders : list record) :
  required orders = true -> good (orders_frame orders).
Proof.
  intro Hreq. pose proof Hreq as Hreq'. apply andb_true_iff in Hreq' as [Hid Hts].
  assert (Hlen : List.length (alive orders) = List.length orders)
    by (unfold alive; rewrite length_map; now apply timestamps_length).
  assert (Hn : forall f : pyval -> pyval,
             List.length (map f (mask_rows (alive orders) (timestamps orders)))
             = count_true (alive orders)).
  { intro f. rewrite length_map. apply mask_rows_length.
    rewrite Hlen. symmetry. now apply timestamps_length. }
  assert (Hkept : wf (boolean_index
                        (setitem (DataFrame_of_records orders) "order_timestamp"
                                 (timestamps orders)) (alive orders))).
  { apply boolean_index_wf.
    - apply setitem_wf; [apply DataFrame_of_records_wf|]. now apply timestamps_length.
    - now rewrite setitem_nrows. }
  assert (Hkn : nrows (boolean_index
                        (setitem (DataFrame_of_records orders) "order_timestamp"
                                 (timestamps orders)) (alive orders))
                = count_true (alive orders)).
  { apply boolean_index_nrows. now rewrite setitem_nrows. }
  constructor.
  - unfold orders_frame. cbn zeta.
    repeat (apply setitem_wf; [|rewrite ?setitem_nrows, Hkn; apply Hn]).
    exact Hkept.
  - unfold orders_frame. cbn zeta. repeat apply setitem_NoDup.
    rewrite boolean_index_columns. apply setitem_NoDup, DataFrame_of_records_NoDup.
  - intros c Hc. rewrite orders_frame_has. simpl in Hc.
    destruct Hc as [<- | [<- | [<- | [<- | [<- | []]]]]];
      [now rewrite Hid | apply orb_true_r ..].
  - rewrite orders_frame_timestamps. apply timestamps_alive.
  - rewrite orders_frame_timestamps. unfold orders_frame. cbn zeta.
    rewrite !setitem_column_other by discriminate. apply setitem_column_same.
  - rewrite orders_frame_timestamps. unfold orders_frame. cbn zeta.
    rewrite !setitem_column_other by discriminate. apply setitem_column_same.
  - rewrite orders_frame_timestamps. unfold orders_frame. cbn zeta.
    apply setitem_column_same.
Qed.

End Orders.

(** ** The orders that survive *)

Lemma nth_error_map2 {A B C} (f : A -> B -> C) (l1 : list A) (l2 : list B) (i : nat)
      (a : A) (b : B) :
  nth_error l1 i = Some a -> nth_error l2 i = Some b ->
  nth_error (map2 f l1 l2) i = Some (f a b).
Proof.
  unfold map2. revert l2 i. induction l1 as [|x l1 IH]; intros [|y l2] [|i] H1 H2;
    try discriminate; simpl in *.
  - now injection H1 as ->; injection H2 as ->.
  - now apply IH.
Qed.

Section Survivors.

Context {ext : Externals}.

(** An epoch that fits a Timestamp is read whatever the rest of the Series
    holds. *)
Lemma normalize_epoch (z : Z) (parsed : option Z) :
  0 <= z -> z * (if z <? 10 ^ 15 then 10 ^ 6 else 1) <= INT64_MAX ->
  normalize (PInt z) parsed
  = PTimestamp (z * (if z <? 10 ^ 15 then 10 ^ 6 else 1)).
Proof.
  intros Hz Hfit. unfold normalize. rewrite candidate_of_nonneg_int by assumption.
  unfold instant, to_datetime_unit.
  destruct (z <? 10 ^ 15).
  - destruct (Z.leb_spec (- INT64_MAX) (z * 10 ^ 6)) as [_ | Hlt];
      [|unfold INT64_MAX in *; lia].
    destruct (Z.leb_spec (z * 10 ^ 6) INT64_MAX) as [_ | Hgt]; [reflexivity | lia].
  - destruct (Z.leb_spec (- INT64_MAX) (z * 1)) as [_ | Hlt];
      [|unfold INT64_MAX in *; lia].
    destruct (Z.leb_spec (z * 1) INT64_MAX) as [_ | Hgt]; [reflexivity | lia].
Qed.

Lemma safe_to_datetime_epoch (series : list pyval) (i : nat) (z : Z) :
  nth_error series i = Some (PInt z) ->
  0 <= z -> z * (if z <? 10 ^ 15 then 10 ^ 6 else 1) <= INT64_MAX ->
  nth_error (_safe_to_datetime series) i
  = Some (PTimestamp (z * (if z <? 10 ^ 15 then 10 ^ 6 else 1))).
Proof.
  intros Hi Hz Hfit. rewrite _safe_to_datetime_spec.
  assert (Hlen : List.length (to_datetime (texts series)) = List.length series)
    by (rewrite to_datetime_length; unfold texts; apply length_map).
  destruct (nth_error (to_datetime (texts series)) i) as [t|] eqn:Ht.
  - rewrite (nth_error_map2 _ _ _ _ _ _ Hi Ht). now rewrite normalize_epoch.
  - apply nth_error_None in Ht. rewrite Hlen in Ht.
    assert (i < List.length series)%nat by (apply nth_error_Some; congruence). lia.
Qed.

Lemma alive_epoch (orders : list record) (i : nat) (z : Z) :
  nth_error (column (DataFrame_of_records orders) "order_timestamp") i = Some (PInt z) ->
  0 <= z -> z * (if z <? 10 ^ 15 then 10 ^ 6 else 1) <= INT64_MAX ->
  nth_error (alive orders) i = Some true.
Proof.
  intros Hi Hz Hfit. unfold alive, timestamps.
  now rewrite nth_error_map, (safe_to_datetime_epoch _ _ _ Hi Hz Hfit).
Qed.

(** A text survives when the date parser found its instant. *)
Lemma alive_text (orders : list record) (i : nat) (s : string) (t : Z) :
  nth_error (column (DataFrame_of_records orders) "order_timestamp") i = Some (PStr s) ->
  fullmatch_digits s = false ->
  nth_error (to_datetime (texts (column (DataFrame_of_records orders) "order_timestamp"))) i
  = Some (Some t) ->
  nth_error (alive orders) i = Some true.
Proof.
  intros Hi Hs Ht. unfold alive, timestamps.
  rewrite nth_error_map, _safe_to_datetime_spec, (nth_error_map2 _ _ _ _ _ _ Hi Ht).
  unfold normalize. now rewrite candidate_of_text.
Qed.

End Survivors.

(** Dtype inference reaches the timestamps before the normalizer does.  An
    integer epoch keeps its digits beside a text, but beside a missing value
    and no text the frame constructor makes it a float, whose text is not
    all digits: the date parser of [Reference] has no instant for it. *)
Example epoch_beside_text :
  @timestamps Reference.externals
    [[("order_id", PInt 1); ("order_timestamp", PInt 1735732800000)];
     [("order_id", PInt 2); ("order_timestamp", PStr "not-a-date")]]
  = [PTimestamp 1735732800000000000; PNone].
Proof. vm_compute. reflexivity. Qed.

Example epoch_beside_missing :
  column (DataFrame_of_records
            [[("order_id", PInt 1); ("order_timestamp", PInt 1735732800000)];
             [("order_id", PInt 2); ("order_timestamp", PNone)]])
         "order_timestamp"
  = [PFloat 1735732800000; PNone]
  /\ @timestamps Reference.externals
       [[("order_id", PInt 1); ("order_timestamp", PInt 1735732800000)];
        [("order_id", PInt 2); ("order_timestamp", PNone)]]
     = [PNone; PNone].
Proof. vm_compute. split; reflexivity. Qed.

(** ** [mapM], [json_normalize], [getitems], [concat] *)

Lemma mapM_Ok_map {A B} (f : A -> result B) (g : A -> B) (l : list A) :
  (forall x, In x l -> f x = Ok (g x)) -> mapM f l = Ok (map g l).
Proof.
  induction l as [|x l IH]; intro H; [reflexivity|].
  simpl. rewrite (H x) by now left. simpl.
  rewrite IH by (intros y Hy; apply H; now right). reflexivity.
Qed.

Lemma mapM_Ok_inv {A B} (f : A -> result B) (l : list A) (ys : list B) :
  mapM f l = Ok ys -> Forall2 (fun x y => f x = Ok y) l ys.
Proof.
  revert ys. induction l as [|x l IH]; simpl; intros ys H.
  - injection H as <-. constructor.
  - destruct (f x) as [y|e] eqn:Hx; [|discriminate]. simpl in H.
    destruct (mapM f l) as [ys'|e] eqn:Hl; [|discriminate]. simpl in H.
    injection H as <-. constructor; auto.
Qed.

Lemma mapM_Raise {A B} (f : A -> result B) (l : list A) (x : A) (e : exn) :
  In x l -> f x = Raise e -> exists e', mapM f l = Raise e'.
Proof.
  induction l as [|y l IH]; simpl; intros Hin Hx; [contradiction|].
  destruct Hin as [-> | Hin].
  - rewrite Hx. simpl. eauto.
  - destruct (f y); simpl; [|eauto].
    destruct (IH Hin Hx) as [e' ->]. simpl. eauto.
Qed.

Lemma json_normalize_Ok (series : list pyval) :
  no_list series = true ->
  json_normalize series = Ok (DataFrame_of_records (map flat series)).
Proof.
  intro H. unfold json_normalize.
  rewrite (mapM_Ok_map _ flat); [reflexivity|].
  intros v Hv. unfold no_list in H. rewrite forallb_forall in H.
  specialize (H v Hv). now destruct v.
Qed.

Lemma json_normalize_Raise (series : list pyval) :
  no_list series = false -> exists e, json_normalize series = Raise e.
Proof.
  intro H. unfold no_list in H.
  assert (Hex : exists v, In v series /\ is_list v = true).
  { induction series as [|v l IH]; simpl in H; [discriminate|].
    destruct (is_list v) eqn:E.
    - exists v. split; [now left | assumption].
    - simpl in H. destruct (IH H) as (w & Hw & Hl). exists w. split; [now right | assumption]. }
  destruct Hex as (v & Hv & Hl). destruct v; try discriminate.
  unfold json_normalize.
  destruct (mapM_Raise _simple_json_normalize series (PList l) _ Hv eq_refl) as [e ->].
  simpl. eauto.
Qed.

Lemma json_normalize_inv (series : list pyval) (df : DataFrame) :
  json_normalize series = Ok df ->
  no_list series = true /\ df = DataFrame_of_records (map flat series).
Proof.
  intro H. destruct (no_list series) eqn:E.
  - split; [reflexivity|]. rewrite json_normalize_Ok in H by assumption. congruence.
  - destruct (json_normalize_Raise series E) as [e He]. congruence.
Qed.

(** Selecting labels that each name one column. *)
Lemma getitems_single (df : DataFrame) (labels : list string) :
  (forall c, In c labels -> single df c) ->
  getitems df labels = Ok (mkDF (nrows df) (map (fun c => (c, column df c)) labels)).
Proof.
  intro H. unfold getitems.
  rewrite (mapM_Ok_map _ (fun c => [(c, column df c)])).
  - simpl. f_equal. f_equal. induction labels as [|c l IH]; simpl; [reflexivity|].
    f_equal. apply IH. intros; apply H; now right.
  - intros c Hc. destruct (H c Hc) as [v Hv]. unfold column. rewrite Hv. reflexivity.
Qed.

Lemma pad_full (n : nat) (l : list pyval) : List.length l = n -> pad n l = l.
Proof. intro H. unfold pad. rewrite H, Nat.sub_diag. apply app_nil_r. Qed.

Lemma pad_data (df : DataFrame) :
  wf df -> map (fun cv => (fst cv, pad (nrows df) (snd cv))) (data df) = data df.
Proof.
  unfold wf. induction (data df) as [|[k v] l IH]; intro H; [reflexivity|].
  inversion H; subst. simpl. rewrite pad_full by assumption. now rewrite IH.
Qed.

(** Frames side by side: when each has the [n] rows of the first or no
    column at all, nothing is padded. *)
Lemma concat_axis1_aligned (n : nat) (frames : list DataFrame) :
  Forall (fun df => wf df /\ (nrows df = n \/ (nrows df = 0%nat /\ data df = []))) frames ->
  (exists df, In df frames /\ nrows df = n) ->
  concat_axis1 frames = mkDF n (flat_map data frames).
Proof.
  intros Hall Hex. unfold concat_axis1.
  assert (Hmax : fold_right Nat.max 0%nat (map nrows frames) = n).
  { destruct Hex as (df0 & Hin & Hn).
    assert (Hle : forall df, In df frames -> (nrows df <= n)%nat).
    { intros df Hdf. rewrite Forall_forall in Hall.
      destruct (Hall df Hdf) as [_ [-> | [-> _]]]; lia. }
    clear Hall. induction frames as [|df l IH]; [contradiction|].
    simpl. destruct Hin as [-> | Hin].
    - assert (fold_right Nat.max 0%nat (map nrows l) <= n)%nat.
      { clear IH. induction l as [|d l IH]; simpl; [lia|].
        pose proof (Hle d (or_intror (or_introl eq_refl))).
        assert (fold_right Nat.max 0%nat (map nrows l) <= n)%nat
          by (apply IH; intros; apply Hle; simpl in *; tauto).
        lia. }
      lia.
    - rewrite IH by (auto; intros; apply Hle; now right).
      pose proof (Hle df (or_introl eq_refl)). lia. }
  rewrite Hmax. f_equal. clear Hex Hmax.
  induction Hall as [|df l [Hwf Hn] _ IH]; [reflexivity|].
  simpl. rewrite IH. f_equal.
  destruct Hn as [Hn | [_ Hd]].
  - rewrite <- Hn. now apply pad_data.
  - now rewrite Hd.
Qed.

(** ** FactOrder *)

Section FactOrders.

Context {ext : Externals}.

Lemma to_numeric_length (series : list pyval) :
  List.length (to_numeric series) = List.length series.
Proof.
  unfold to_numeric. destruct (forallb is_int (map coerce_numeric series));
    now rewrite !length_map.
Qed.

Lemma coerce_column_Ok (df : DataFrame) (c : string) :
  (has_column df c = true -> single df c) ->
  coerce_column df c = Ok (coerced df c).
Proof.
  intro H. unfold coerce_column, coerced.
  destruct (has_column df c); [|reflexivity].
  now rewrite (getitem_single _ _ (H eq_refl)).
Qed.

Lemma coerce_column_inv (df df' : DataFrame) (c : string) :
  coerce_column df c = Ok df' -> df' = coerced df c.
Proof.
  unfold coerce_column, coerced. destruct (has_column df c); [|congruence].
  destruct (getitem df c) as [v|e] eqn:E; [|discriminate].
  simpl. apply getitem_Ok in E as [_ ->]. congruence.
Qed.

Lemma coerced_nrows df c : nrows (coerced df c) = nrows df.
Proof. unfold coerced. destruct (has_column df c); [apply setitem_nrows | reflexivity]. Qed.

Lemma coerced_columns df c : columns (coerced df c) = columns df.
Proof.
  unfold coerced. destruct (has_column df c) eqn:H; [|reflexivity].
  now rewrite setitem_columns, H.
Qed.

Lemma coerced_has df c c' : has_column (coerced df c) c' = has_column df c'.
Proof. unfold has_column. now rewrite coerced_columns. Qed.

Lemma coerced_wf df c : wf df -> wf (coerced df c).
Proof.
  intro H. unfold coerced. destruct (has_column df c) eqn:Hc; [|assumption].
  apply setitem_wf; [assumption|]. rewrite to_numeric_length. now apply wf_column.
Qed.

Lemma coerced_column_other df c c' : c' <> c -> column (coerced df c) c' = column df c'.
Proof.
  intro H. unfold coerced. destruct (has_column df c); [|reflexivity].
  now apply setitem_column_other.
Qed.

Lemma coerced_column_same df c : column (coerced df c) c = to_numeric (column df c).
Proof.
  unfold coerced. destruct (has_column df c) eqn:H; [apply setitem_column_same|].
  apply has_column_not_In in H. unfold column. rewrite filter_labelled_nil by assumption.
  reflexivity.
Qed.

Lemma coerced_single_other df c c' : c' <> c -> single (coerced df c) c' <-> single df c'.
Proof.
  intro H. unfold coerced. destruct (has_column df c); [|reflexivity].
  now apply setitem_single_other.
Qed.

Lemma coerced_single df c c' : single df c' -> single (coerced df c) c'.
Proof.
  intro H. destruct (string_dec c' c) as [-> | Hne].
  - unfold coerced. destruct (has_column df c); [|assumption].
    apply setitem_single_same. auto.
  - now apply coerced_single_other.
Qed.

Lemma column_missing df c : has_column df c = false -> column df c = [].
Proof.
  intro H. apply has_column_not_In in H. unfold column.
  now rewrite filter_labelled_nil.
Qed.

Lemma nested_df_Ok (raw : DataFrame) (field : string) :
  NoDup (columns raw) -> no_list (column raw field) = true ->
  nested_df raw field = Ok (nested_frame raw field).
Proof.
  intros Hnd Hok. unfold nested_df, nested_frame.
  destruct (has_column raw field) eqn:Hc; [|reflexivity].
  rewrite (getitem_single _ _ (NoDup_single _ _ Hnd Hc)). simpl.
  now rewrite json_normalize_Ok.
Qed.

Lemma nested_df_inv (raw df : DataFrame) (field : string) :
  NoDup (columns raw) -> nested_df raw field = Ok df ->
  no_list (column raw field) = true /\ df = nested_frame raw field.
Proof.
  intros Hnd H. unfold nested_df in H. unfold nested_frame.
  destruct (has_column raw field) eqn:Hc.
  - rewrite (getitem_single _ _ (NoDup_single _ _ Hnd Hc)) in H. simpl in H.
    destruct (json_normalize (column raw field)) as [d|e] eqn:E; [|discriminate].
    apply json_normalize_inv in E as [Hok ->]. simpl in H. split; congruence.
  - rewrite column_missing by assumption. split; [reflexivity | congruence].
Qed.

Lemma add_prefix_wf p df : wf df -> wf (add_prefix p df).
Proof. unfold wf, add_prefix. simpl. now rewrite Forall_map. Qed.

Lemma nested_frame_wf raw field : wf (nested_frame raw field).
Proof.
  unfold nested_frame. destruct (has_column raw field).
  - apply add_prefix_wf, DataFrame_of_records_wf.
  - constructor.
Qed.

Lemma nested_frame_rows raw field :
  wf raw ->
  nrows (nested_frame raw field) = nrows raw
  \/ (nrows (nested_frame raw field) = 0%nat /\ data (nested_frame raw field) = []).
Proof.
  intro Hwf. unfold nested_frame. destruct (has_column raw field) eqn:Hc.
  - left. simpl. rewrite length_map. now apply wf_column.
  - right. split; reflexivity.
Qed.

Lemma nested_frame_columns raw field :
  columns (nested_frame raw field)
  = if has_column raw field
    then map (String.append (field ++ "_")) (union_keys (map flat (column raw field)))
    else [].
Proof.
  unfold nested_frame. destruct (has_column raw field); [|reflexivity].
  unfold columns, add_prefix. simpl. rewrite !map_map. reflexivity.
Qed.

(** No label of an expanded field is [c], when [c] does not start like the
    prefix. *)
Lemma nested_frame_not_labelled raw field c :
  (forall k, ((field ++ "_") ++ k)%string <> c) ->
  filter (labelled c) (data (nested_frame raw field)) = [].
Proof.
  intro H. apply filter_labelled_nil. fold (columns (nested_frame raw field)).
  rewrite nested_frame_columns. destruct (has_column raw field); [|tauto].
  intro Hin. apply in_map_iff in Hin as (k & Hk & _). now apply (H k).
Qed.

End FactOrders.

Section FactOrdersFrame.

Context {ext : Externals}.

Lemma graph_labels raw labels : map fst (graph raw labels) = labels.
Proof. unfold graph. rewrite map_map. apply map_id. Qed.

Lemma filter_labelled_graph raw labels c :
  NoDup labels ->
  filter (labelled c) (graph raw labels)
  = if mem c labels then [(c, column raw c)] else [].
Proof.
  intro Hnd. destruct (mem c labels) eqn:Hc.
  - apply mem_In in Hc.
    destruct (filter_labelled_unique c (graph raw labels)) as [v Hv];
      rewrite ?graph_labels; auto.
    rewrite Hv. f_equal. f_equal.
    assert (Hin : In (c, v) (graph raw labels)).
    { apply (proj1 (filter_In (labelled c) (c, v) (graph raw labels))).
      rewrite Hv. now left. }
    unfold graph in Hin. apply in_map_iff in Hin as (k & Hk & _). congruence.
  - apply mem_not_In in Hc. apply filter_labelled_nil. now rewrite graph_labels.
Qed.

Lemma graph_wf raw labels :
  wf raw -> (forall c, In c labels -> has_column raw c = true) ->
  wf (mkDF (nrows raw) (graph raw labels)).
Proof.
  intros Hwf H. unfold wf, graph. simpl. rewrite Forall_map. apply Forall_forall.
  intros c Hc. simpl. apply wf_column; auto.
Qed.

Lemma base_cols_NoDup raw : NoDup (columns raw) -> NoDup (base_cols raw).
Proof. intro H. unfold base_cols. now apply NoDup_filter. Qed.

Lemma base_cols_In raw c :
  In c (base_cols raw) <-> In c (columns raw) /\ mem c ["customer"; "payment"; "items"] = false.
Proof. unfold base_cols. rewrite filter_In. now rewrite negb_true_iff. Qed.

(** In FactOrder, a label that does not start like an expanded field names
    a base column, and only one. *)
Lemma fact_orders_pre_filter raw c :
  NoDup (columns raw) ->
  (forall k, ("customer_" ++ k)%string <> c) ->
  (forall k, ("payment_" ++ k)%string <> c) ->
  filter (labelled c) (data (fact_orders_pre raw))
  = if mem c (base_cols raw) then [(c, column raw c)] else [].
Proof.
  intros Hnd Hc Hp. unfold fact_orders_pre. simpl.
  rewrite !filter_app, !nested_frame_not_labelled by assumption.
  rewrite !app_nil_r. apply filter_labelled_graph. now apply base_cols_NoDup.
Qed.

Lemma fact_orders_pre_base raw c :
  NoDup (columns raw) ->
  (forall k, ("customer_" ++ k)%string <> c) ->
  (forall k, ("payment_" ++ k)%string <> c) ->
  has_column (fact_orders_pre raw) c = true ->
  single (fact_orders_pre raw) c /\ column (fact_orders_pre raw) c = column raw c
  /\ In c (base_cols raw).
Proof.
  intros Hnd Hc Hp Hhas.
  pose proof (fact_orders_pre_filter raw c Hnd Hc Hp) as Hf.
  destruct (mem c (base_cols raw)) eqn:Hb.
  - split; [now exists (column raw c)|]. split; [|now apply mem_In].
    unfold column at 1. now rewrite Hf.
  - apply has_column_In in Hhas. unfold columns in Hhas.
    destruct (filter_labelled_has c _ Hhas) as (cv & rest & E & _). congruence.
Qed.

Lemma fact_orders_pre_wf raw : good raw -> wf (fact_orders_pre raw).
Proof.
  intro Hg. unfold wf, fact_orders_pre. simpl.
  apply Forall_app. split.
  - apply (graph_wf raw (base_cols raw) (good_wf _ Hg)).
    intros c Hc. apply base_cols_In in Hc as [Hc _]. now apply has_column_In.
  - apply Forall_app. split.
    + destruct (nested_frame_rows raw "customer" (good_wf _ Hg)) as [Hn | [_ Hd]].
      * rewrite <- Hn. apply nested_frame_wf.
      * rewrite Hd. constructor.
    + destruct (nested_frame_rows raw "payment" (good_wf _ Hg)) as [Hn | [_ Hd]].
      * rewrite <- Hn. apply nested_frame_wf.
      * rewrite Hd. constructor.
Qed.

Lemma df_fact_orders_Ok (raw : DataFrame) :
  good raw -> nested_ok raw = true -> df_fact_orders raw = Ok (fact_orders_frame raw).
Proof.
  intros Hg Hok. apply andb_true_iff in Hok as [Hc Hp].
  pose proof (good_NoDup _ Hg) as Hnd. pose proof (good_wf _ Hg) as Hwf.
  unfold df_fact_orders, customer_df, payment_df.
  rewrite !nested_df_Ok by assumption. cbn [bind].
  rewrite getitems_single.
  2:{ intros c Hin. apply base_cols_In in Hin as [Hin _].
      apply NoDup_single; [assumption | now apply has_column_In]. }
  cbn [bind].
  rewrite (concat_axis1_aligned (nrows raw)).
  - cbn [flat_map data]. rewrite app_nil_r.
    fold (graph raw (base_cols raw)). fold (fact_orders_pre raw).
    unfold fact_orders_frame, coerced.
    destruct (has_column (fact_orders_pre raw) "order_total") eqn:Hot; [|reflexivity].
    destruct (fact_orders_pre_base raw "order_total") as (Hs & _ & _);
      try assumption; try (intros k; discriminate).
    now rewrite (getitem_single _ _ Hs).
  - apply Forall_cons.
    { split; [|now left]. apply (graph_wf raw (base_cols raw) Hwf).
      intros c Hin. apply base_cols_In in Hin as [Hin _]. now apply has_column_In. }
    apply Forall_cons; [split; [apply nested_frame_wf | now apply nested_frame_rows]|].
    apply Forall_cons; [split; [apply nested_frame_wf | now apply nested_frame_rows]|].
    constructor.
  - eexists. split; [now left | reflexivity].
Qed.

Lemma df_fact_orders_inv (raw fo : DataFrame) :
  good raw -> df_fact_orders raw = Ok fo ->
  nested_ok raw = true /\ fo = fact_orders_frame raw.
Proof.
  intros Hg H. pose proof (good_NoDup _ Hg) as Hnd.
  assert (Hok : nested_ok raw = true).
  { unfold df_fact_orders, customer_df, payment_df in H.
    destruct (nested_df raw "customer") as [c|e] eqn:Ec; [|discriminate].
    destruct (nested_df raw "payment") as [p|e] eqn:Ep; [|discriminate].
    apply nested_df_inv in Ec as [Hc _]; [|assumption].
    apply nested_df_inv in Ep as [Hp _]; [|assumption].
    unfold nested_ok. now rewrite Hc, Hp. }
  split; [assumption|]. rewrite df_fact_orders_Ok in H by assumption. congruence.
Qed.

Lemma df_fact_orders_Raise (raw : DataFrame) :
  good raw -> nested_ok raw = false -> exists e, df_fact_orders raw = Raise e.
Proof.
  intros Hg Hok. destruct (df_fact_orders raw) as [fo|e] eqn:E; [|eauto].
  apply df_fact_orders_inv in E as [E _]; [congruence | assumption].
Qed.

Lemma fact_orders_frame_nrows raw : nrows (fact_orders_frame raw) = nrows raw.
Proof. unfold fact_orders_frame. now rewrite coerced_nrows. Qed.

Lemma fact_orders_frame_wf raw : good raw -> wf (fact_orders_frame raw).
Proof. intro Hg. apply coerced_wf. now apply fact_orders_pre_wf. Qed.

Lemma fact_orders_frame_columns raw :
  columns (fact_orders_frame raw)
  = base_cols raw ++ columns (nested_frame raw "customer")
    ++ columns (nested_frame raw "payment").
Proof.
  unfold fact_orders_frame. rewrite coerced_columns.
  unfold columns, fact_orders_pre. simpl. now rewrite !map_app, graph_labels.
Qed.

(** The order context is carried unchanged, each field in one column. *)
Lemma fact_orders_frame_ctx raw c :
  good raw -> In c ctx_cols ->
  single (fact_orders_frame raw) c /\ column (fact_orders_frame raw) c = column raw c.
Proof.
  intros Hg Hc. pose proof (good_NoDup _ Hg) as Hnd.
  assert (Hne : c <> "order_total")
    by (simpl in Hc; intuition (subst; discriminate)).
  assert (Hbase : In c (base_cols raw)).
  { apply base_cols_In. split.
    - apply has_column_In. now apply (good_ctx _ Hg).
    - simpl in Hc. intuition (subst; reflexivity). }
  assert (Hhas : has_column (fact_orders_pre raw) c = true).
  { apply has_column_In. unfold columns, fact_orders_pre. simpl.
    rewrite map_app, graph_labels. apply in_or_app. now left. }
  destruct (fact_orders_pre_base raw c) as (Hs & Hcol & _); try assumption;
    try (intros k E; simpl in Hc; intuition (subst; discriminate)).
  unfold fact_orders_frame. split.
  - now apply coerced_single.
  - now rewrite coerced_column_other.
Qed.

End FactOrdersFrame.

(** ** FactOrderItem *)

Section FactOrderItemsFrame.

Context {ext : Externals}.

Lemma repeat_each_length {A} (counts : list nat) (l : list A) :
  List.length counts = List.length l ->
  List.length (repeat_each counts l) = list_sum counts.
Proof.
  unfold repeat_each. revert l.
  induction counts as [|n counts IH]; intros [|x l] H; try discriminate; [reflexivity|].
  simpl. rewrite length_app, repeat_length. f_equal. apply IH. now injection H.
Qed.

Lemma exploded_length (raw : DataFrame) :
  List.length (exploded raw) = list_sum (item_counts raw).
Proof.
  unfold exploded, item_counts. induction (column raw "items") as [|v l IH]; [reflexivity|].
  simpl. now rewrite length_app, IH.
Qed.

Lemma item_counts_length (raw : DataFrame) :
  wf raw -> has_column raw "items" = true ->
  List.length (item_counts raw) = nrows raw.
Proof.
  intros Hwf H. unfold item_counts. rewrite length_map. now apply wf_column.
Qed.

Lemma items_frame_nrows raw : nrows (items_frame raw) = list_sum (item_counts raw).
Proof. unfold items_frame. simpl. now rewrite length_map, exploded_length. Qed.

Lemma exploded_items_Ok (raw : DataFrame) :
  good raw -> items_ok raw = true -> exploded_items raw = Ok (exploded_frame raw).
Proof.
  intros Hg Hok. pose proof (good_NoDup _ Hg) as Hnd. pose proof (good_wf _ Hg) as Hwf.
  unfold exploded_items, exploded_frame.
  destruct (has_column raw "items") eqn:Hit; [|reflexivity].
  rewrite getitems_single.
  2:{ intros c Hc. apply NoDup_single; [assumption|].
      apply in_app_or in Hc as [Hc | [<- | []]]; [now apply (good_ctx _ Hg) | assumption]. }
  cbn [bind].
  unfold explode, getitem.
  cbn [ctx_cols app map data filter labelled fst snd String.eqb Ascii.eqb Bool.eqb bind nrows].
  fold (item_counts raw). fold (exploded raw).
  unfold getitem.
  cbn [data filter labelled fst snd String.eqb Ascii.eqb Bool.eqb bind].
  rewrite json_normalize_Ok by assumption. fold (items_frame raw). cbn [bind].
  unfold drop, has_column, columns, mem.
  cbn [data map filter fst snd existsb negb String.eqb Ascii.eqb Bool.eqb orb bind nrows].
  rewrite (concat_axis1_aligned (list_sum (item_counts raw))).
  - cbn [flat_map data]. now rewrite app_nil_r.
  - assert (Hrep : forall c, In c ctx_cols ->
              List.length (repeat_each (item_counts raw) (column raw c))
              = list_sum (item_counts raw)).
    { intros c Hc. apply repeat_each_length.
      rewrite item_counts_length by assumption. symmetry.
      apply wf_column; [assumption | now apply (good_ctx _ Hg)]. }
    apply Forall_cons.
    { split; [|now left]. unfold wf. cbn [data nrows].
      repeat (apply Forall_cons; [apply Hrep; simpl; tauto|]). constructor. }
    apply Forall_cons; [|constructor].
    split; [apply DataFrame_of_records_wf | left; apply items_frame_nrows].
  - eexists. split; [now left | reflexivity].
Qed.

Lemma exploded_items_inv (raw df : DataFrame) :
  good raw -> exploded_items raw = Ok df ->
  items_ok raw = true /\ df = exploded_frame raw.
Proof.
  intros Hg H. pose proof (good_NoDup _ Hg) as Hnd.
  assert (Hok : items_ok raw = true).
  { unfold items_ok, exploded. unfold exploded_items in H.
    destruct (has_column raw "items") eqn:Hit;
      [|now rewrite column_missing by assumption].
    rewrite getitems_single in H.
    2:{ intros c Hc. apply NoDup_single; [assumption|].
        apply in_app_or in Hc as [Hc | [<- | []]]; [now apply (good_ctx _ Hg) | assumption]. }
    cbn [bind] in H. unfold explode, getitem in H.
    cbn [ctx_cols app map data filter labelled fst snd String.eqb Ascii.eqb Bool.eqb bind nrows]
      in H.
    unfold getitem in H.
    cbn [data filter labelled fst snd String.eqb Ascii.eqb Bool.eqb bind] in H.
    destruct (json_normalize (flat_map explode_cell (column raw "items"))) as [d|e] eqn:E;
      [|discriminate].
    now apply json_normalize_inv in E as [E _]. }
  split; [assumption|]. rewrite exploded_items_Ok in H by assumption. congruence.
Qed.

Lemma exploded_frame_wf raw : good raw -> wf (exploded_frame raw).
Proof.
  intro Hg. pose proof (good_wf _ Hg) as Hwf. unfold exploded_frame.
  destruct (has_column raw "items") eqn:Hit; [|constructor].
  unfold wf. cbn [data nrows]. apply Forall_app. split.
  - rewrite Forall_map. apply Forall_forall. intros c Hc. cbn [snd].
    apply repeat_each_length. rewrite item_counts_length by assumption. symmetry.
    apply wf_column; [assumption | now apply (good_ctx _ Hg)].
  - rewrite <- items_frame_nrows. apply DataFrame_of_records_wf.
Qed.

Lemma exploded_frame_nrows raw :
  nrows (exploded_frame raw) = list_sum (item_counts raw).
Proof.
  unfold exploded_frame. destruct (has_column raw "items") eqn:Hit; [reflexivity|].
  unfold item_counts. now rewrite column_missing.
Qed.

(** The order context comes first: under a context label, the first
    column is the repeated column of [raw]. *)
Lemma exploded_frame_ctx raw c :
  has_column raw "items" = true -> In c ctx_cols ->
  column (exploded_frame raw) c = repeat_each (item_counts raw) (column raw c).
Proof.
  intros Hit Hc. unfold exploded_frame. rewrite Hit. unfold column at 1.
  cbn [data]. rewrite filter_app.
  simpl in Hc. destruct Hc as [<- | [<- | [<- | [<- | [<- | []]]]]]; reflexivity.
Qed.

(** A label outside the order context names an item field, in at most one
    column. *)
Lemma exploded_frame_item_single raw c :
  ~ In c ctx_cols -> has_column (exploded_frame raw) c = true ->
  single (exploded_frame raw) c.
Proof.
  intros Hc Hhas. unfold exploded_frame in *.
  destruct (has_column raw "items"); [|discriminate].
  unfold single. cbn [data] in *. rewrite filter_app.
  rewrite (filter_labelled_nil c (map _ ctx_cols)).
  2:{ rewrite map_map. cbn [fst]. now rewrite map_id. }
  apply filter_labelled_unique.
  - apply DataFrame_of_records_NoDup.
  - apply has_column_In in Hhas. unfold columns in Hhas. cbn [data] in Hhas.
    rewrite map_app, map_map in Hhas. cbn [fst] in Hhas. rewrite map_id in Hhas.
    apply in_app_or in Hhas as [Hhas | Hhas]; [contradiction | assumption].
Qed.

Lemma exploded_frame_empty raw :
  empty (exploded_frame raw) = (nrows (exploded_frame raw) =? 0)%nat.
Proof.
  unfold exploded_frame. destruct (has_column raw "items"); [|reflexivity].
  unfold empty. cbn [data nrows]. rewrite length_app. cbn [List.length map ctx_cols].
  now rewrite orb_false_r.
Qed.

End FactOrderItemsFrame.

Section FactOrderItemsTotals.

Context {ext : Externals}.

Lemma coerced_items_single raw c :
  ~ In c ctx_cols -> has_column (coerced_items raw) c = true ->
  single (coerced_items raw) c.
Proof.
  intros Hc Hhas. unfold coerced_items in *. rewrite !coerced_has in Hhas.
  apply coerced_single, coerced_single. now apply exploded_frame_item_single.
Qed.

Lemma not_ctx (c : string) : mem c ctx_cols = false -> ~ In c ctx_cols.
Proof. apply mem_not_In. Qed.

Lemma df_fact_order_items_Ok (raw : DataFrame) :
  good raw -> items_ok raw = true ->
  df_fact_order_items raw = Ok (fact_order_items_frame raw).
Proof.
  intros Hg Hok. unfold df_fact_order_items, fact_order_items_frame.
  rewrite exploded_items_Ok by assumption. cbn [bind].
  destruct (empty (exploded_frame raw)); cbn [negb]; [reflexivity|].
  rewrite coerce_column_Ok
    by (apply exploded_frame_item_single; now apply not_ctx).
  cbn [bind].
  rewrite coerce_column_Ok.
  2:{ intro H. rewrite coerced_has in H.
      apply coerced_single. apply exploded_frame_item_single; [now apply not_ctx | assumption]. }
  cbn [bind]. fold (coerced_items raw). unfold with_line_total.
  destruct (has_column (coerced_items raw) "quantity") eqn:Hq; [|reflexivity].
  destruct (has_column (coerced_items raw) "unit_price") eqn:Hp; [|reflexivity].
  cbn [andb].
  rewrite (getitem_single _ "quantity")
    by (apply coerced_items_single; [now apply not_ctx | assumption]).
  rewrite (getitem_single _ "unit_price")
    by (apply coerced_items_single; [now apply not_ctx | assumption]).
  reflexivity.
Qed.

Lemma df_fact_order_items_inv (raw foi : DataFrame) :
  good raw -> df_fact_order_items raw = Ok foi ->
  items_ok raw = true /\ foi = fact_order_items_frame raw.
Proof.
  intros Hg H.
  assert (Hok : items_ok raw = true).
  { unfold df_fact_order_items in H.
    destruct (exploded_items raw) as [d|e] eqn:E; [|discriminate].
    now apply exploded_items_inv in E as [E _]. }
  split; [assumption|]. rewrite df_fact_order_items_Ok in H by assumption. congruence.
Qed.

Lemma coerced_items_wf raw : good raw -> wf (coerced_items raw).
Proof. intro Hg. apply coerced_wf, coerced_wf. now apply exploded_frame_wf. Qed.

Lemma coerced_items_nrows raw : nrows (coerced_items raw) = list_sum (item_counts raw).
Proof. unfold coerced_items. now rewrite !coerced_nrows, exploded_frame_nrows. Qed.

Lemma with_line_total_nrows df : nrows (with_line_total df) = nrows df.
Proof.
  unfold with_line_total.
  destruct (has_column df "quantity" && has_column df "unit_price");
    [apply setitem_nrows | reflexivity].
Qed.

Lemma with_line_total_wf df : wf df -> wf (with_line_total df).
Proof.
  intro Hwf. unfold with_line_total.
  destruct (has_column df "quantity") eqn:Hq; [|assumption].
  destruct (has_column df "unit_price") eqn:Hp; [|assumption].
  cbn [andb]. apply setitem_wf; [assumption|].
  rewrite length_map, map2_length; rewrite !wf_column by assumption; reflexivity.
Qed.

Lemma with_line_total_column df c :
  c <> "line_total" -> column (with_line_total df) c = column df c.
Proof.
  intro H. unfold with_line_total.
  destruct (has_column df "quantity" && has_column df "unit_price"); [|reflexivity].
  now apply setitem_column_other.
Qed.

Lemma with_line_total_has df c :
  has_column df c = true -> has_column (with_line_total df) c = true.
Proof.
  intro H. unfold with_line_total.
  destruct (has_column df "quantity" && has_column df "unit_price"); [|assumption].
  rewrite setitem_has, H. reflexivity.
Qed.

Lemma fact_order_items_frame_nrows raw :
  nrows (fact_order_items_frame raw) = list_sum (item_counts raw).
Proof.
  unfold fact_order_items_frame. destruct (empty (exploded_frame raw)); cbn [negb].
  - apply exploded_frame_nrows.
  - now rewrite with_line_total_nrows, coerced_items_nrows.
Qed.

Lemma fact_order_items_frame_wf raw : good raw -> wf (fact_order_items_frame raw).
Proof.
  intro Hg. unfold fact_order_items_frame.
  destruct (empty (exploded_frame raw)); cbn [negb].
  - now apply exploded_frame_wf.
  - now apply with_line_total_wf, coerced_items_wf.
Qed.

(** The order context of FactOrderItem: each order's context, once per
    exploded row. *)
Lemma fact_order_items_frame_ctx raw c :
  has_column raw "items" = true -> In c ctx_cols ->
  column (fact_order_items_frame raw) c = repeat_each (item_counts raw) (column raw c).
Proof.
  intros Hit Hc. unfold fact_order_items_frame.
  destruct (empty (exploded_frame raw)); cbn [negb].
  - now apply exploded_frame_ctx.
  - assert (Hne : c <> "line_total" /\ c <> "quantity" /\ c <> "unit_price")
      by (simpl in Hc; intuition (subst; discriminate)).
    destruct Hne as (H1 & H2 & H3).
    rewrite with_line_total_column by assumption. unfold coerced_items.
    rewrite !coerced_column_other by assumption. now apply exploded_frame_ctx.
Qed.

Lemma exploded_frame_has_ctx raw c :
  has_column raw "items" = true -> In c ctx_cols ->
  has_column (exploded_frame raw) c = true.
Proof.
  intros Hit Hc. unfold exploded_frame. rewrite Hit.
  apply has_column_In. unfold columns. cbn [data]. rewrite map_app, map_map.
  cbn [fst]. rewrite map_id. apply in_or_app. now left.
Qed.

Lemma fact_order_items_frame_has_ctx raw c :
  has_column raw "items" = true -> In c ctx_cols ->
  has_column (fact_order_items_frame raw) c = true.
Proof.
  intros Hit Hc. unfold fact_order_items_frame.
  destruct (empty (exploded_frame raw)); cbn [negb].
  - now apply exploded_frame_has_ctx.
  - apply with_line_total_has. unfold coerced_items. rewrite !coerced_has.
    now apply exploded_frame_has_ctx.
Qed.

Lemma fact_order_items_frame_empty raw :
  empty (fact_order_items_frame raw) = (list_sum (item_counts raw) =? 0)%nat.
Proof.
  unfold fact_order_items_frame.
  destruct (empty (exploded_frame raw)) eqn:E; cbn [negb].
  - rewrite E. rewrite exploded_frame_empty, exploded_frame_nrows in E. now rewrite E.
  - rewrite exploded_frame_empty, exploded_frame_nrows in E. rewrite E.
    unfold empty. rewrite with_line_total_nrows, coerced_items_nrows, E.
    cbn [orb]. apply Nat.eqb_neq. intro H. apply length_zero_iff_nil in H.
    assert (Hc : has_column (with_line_total (coerced_items raw)) "order_id" = true).
    { apply with_line_total_has. unfold coerced_items. rewrite !coerced_has.
      apply exploded_frame_has_ctx; [|simpl; tauto].
      destruct (has_column raw "items") eqn:Hit; [reflexivity|].
      unfold item_counts in E. rewrite column_missing in E by assumption.
      discriminate. }
    apply has_column_In in Hc. unfold columns in Hc. rewrite H in Hc. contradiction.
Qed.

End FactOrderItemsTotals.

(** ** The partitioned writer *)

Section Writer.

Context {ext : Externals}.
Variable env : Env.

Lemma drop_ignore (df : DataFrame) :
  drop df PARTITION_COLS true = Ok (without_partition_cols df).
Proof.
  unfold drop. destruct (filter _ PARTITION_COLS); reflexivity.
Qed.

Lemma without_partition_cols_columns (df : DataFrame) (c : string) :
  In c PARTITION_COLS -> mem c (columns (without_partition_cols df)) = false.
Proof.
  intro Hc. apply mem_not_In. unfold columns, without_partition_cols. cbn [data].
  intro Hin. apply in_map_iff in Hin as (cv & <- & Hcv).
  apply filter_In in Hcv as [_ Hcv]. apply negb_true_iff in Hcv.
  apply (proj1 (mem_not_In _ _) Hcv Hc).
Qed.

Lemma select_partition_Ok (df : DataFrame) (y m : Z) :
  single df "order_year" -> single df "order_month" ->
  select_partition df y m = Ok (slice df y m).
Proof.
  intros Hy Hm. unfold select_partition.
  now rewrite (getitem_single _ _ Hy), (getitem_single _ _ Hm).
Qed.

Lemma select_partition_inv (df part : DataFrame) (y m : Z) :
  select_partition df y m = Ok part ->
  part = slice df y m /\ single df "order_year" /\ single df "order_month".
Proof.
  unfold select_partition. intro H.
  destruct (getitem df "order_year") as [ys|e] eqn:Ey; [|discriminate].
  destruct (getitem df "order_month") as [ms|e] eqn:Em; [|discriminate].
  apply getitem_Ok in Ey as [Hy ->]. apply getitem_Ok in Em as [Hm ->].
  simpl in H. injection H as <-. auto.
Qed.

(** One iteration either raises before it writes anything, or reads the
    clock once and uploads its files. *)
Lemma write_partition_run (out_bucket : string) (context : option string)
      (fo foi : DataFrame) (p : Z * Z) (w : World) :
  write_partition env out_bucket context fo foi p w
  = match select_partition fo (fst p) (snd p) with
    | Raise e => (Raise e, w)
    | Ok orders_part =>
        match (if negb (empty foi) then select_partition foi (fst p) (snd p)
               else Ok empty_frame) with
        | Raise e => (Raise e, w)
        | Ok items_part =>
            (Ok tt,
             {| uploads := uploads w
                           ++ partition_files env out_bucket context orders_part items_part p
                                (clock_reads w);
                clock_reads := S (clock_reads w) |})
        end
    end.
Proof.
  unfold write_partition, bindM, lift.
  destruct (select_partition fo (fst p) (snd p)) as [op|e]; [|reflexivity].
  destruct (if negb (empty foi) then select_partition foi (fst p) (snd p)
            else Ok empty_frame) as [ip|e]; [|reflexivity].
  rewrite !drop_ignore. unfold utcnow_strftime, _write_parquet_and_upload.
  unfold partition_files, uploaded, run_id. cbn [uploads clock_reads].
  destruct (empty (without_partition_cols op)), (empty (without_partition_cols ip));
    cbn [uploads clock_reads app]; rewrite ?app_nil_r, <- ?app_assoc; reflexivity.
Qed.

End Writer.

(** ** The handler *)

Section Handler.

Context {ext : Externals}.
Variable env : Env.

(** The handler on an object that holds a non-empty array, stage by stage. *)
Lemma lambda_handler_array (event : Event) (context : option string) (w : World)
      (o : pyval) (os : list pyval) :
  objects env (in_bucket_of event) (in_key_of event) = Some (Json (PList (o :: os))) ->
  lambda_handler env event context w
  = match as_records (o :: os) with
    | Raise e => (Raise e, w)
    | Ok records =>
    match df_orders_raw records with
    | Raise e => (Raise e, w)
    | Ok raw =>
    match df_fact_orders raw with
    | Raise e => (Raise e, w)
    | Ok fo =>
    match df_fact_order_items raw with
    | Raise e => (Raise e, w)
    | Ok foi =>
    match partitions fo with
    | Raise e => (Raise e, w)
    | Ok ps =>
    match for_each ps (write_partition env (out_bucket_of env event) context fo foi) w with
    | (Raise e, w') => (Raise e, w')
    | (Ok _, w') => (Ok (summary env event fo foi), w')
    end end end end end end.
Proof.
  intro Hobj. unfold lambda_handler, bindM, lift, ret.
  fold (in_bucket_of event). fold (in_key_of event). rewrite Hobj.
  fold (out_bucket_of env event).
  destruct (as_records (o :: os)) as [records|e]; [|reflexivity].
  destruct (df_orders_raw records) as [raw|e]; [|reflexivity].
  destruct (df_fact_orders raw) as [fo|e]; [|reflexivity].
  destruct (df_fact_order_items raw) as [foi|e]; [|reflexivity].
  destruct (partitions fo) as [ps|e]; [|reflexivity].
  destruct (for_each ps _ w) as [[[]|e] w']; reflexivity.
Qed.

(** Anything else leaves the world as it was. *)
Lemma lambda_handler_other (event : Event) (context : option string) (w : World) :
  (forall o os, objects env (in_bucket_of event) (in_key_of event)
                <> Some (Json (PList (o :: os)))) ->
  snd (lambda_handler env event context w) = w.
Proof.
  intro H. unfold lambda_handler, bindM, lift, ret.
  fold (in_bucket_of event). fold (in_key_of event).
  destruct (objects env (in_bucket_of event) (in_key_of event)) as [[|v]|] eqn:E;
    try reflexivity.
  destruct v as [ | | | | |[|o os]| | ]; try reflexivity.
  exfalso. now apply (H o os).
Qed.

Lemma as_records_dicts (rs : list record) : as_records (map PDict rs) = Ok rs.
Proof.
  unfold as_records. induction rs as [|r rs IH]; [reflexivity|].
  simpl. simpl in IH. now rewrite IH.
Qed.

End Handler.

(** What a loop over the partitions adds to the bucket satisfies whatever
    each iteration guarantees. *)
Lemma for_each_uploads {A} (P : S3Object -> Prop) (body : A -> M unit) :
  (forall x w, exists new,
      uploads (snd (body x w)) = uploads w ++ new /\ Forall P new) ->
  forall l w, exists new,
      uploads (snd (for_each l body w)) = uploads w ++ new /\ Forall P new.
Proof.
  intros Hbody l. induction l as [|x l IH]; intro w.
  - exists []. split; [simpl; now rewrite app_nil_r | constructor].
  - simpl. unfold bindM. destruct (Hbody x w) as (new1 & H1 & HP1).
    destruct (body x w) as [[[]|e] w1]; simpl in H1.
    + destruct (IH w1) as (new2 & H2 & HP2). exists (new1 ++ new2).
      split; [rewrite H2, H1; symmetry; apply app_assoc | now apply Forall_app].
    + exists new1. now split.
Qed.

(** The rows of a slice all carry the year and month it was cut for. *)
Lemma slice_rows (df : DataFrame) (y m : Z) :
  Forall (fun v => eq_int v y = true) (column (slice df y m) "order_year")
  /\ Forall (fun v => eq_int v m = true) (column (slice df y m) "order_month").
Proof.
  unfold slice. rewrite !boolean_index_column.
  generalize (column df "order_year") as ys, (column df "order_month") as ms.
  unfold map2. induction ys as [|a ys IH]; intros [|b ms]; cbn [combine map];
    try (split; constructor).
  rewrite !mask_rows_cons. cbn [fst snd]. destruct (IH ms) as [IH1 IH2].
  destruct (eq_int a y) eqn:Ea; destruct (eq_int b m) eqn:Eb; cbn [andb]; auto.
Qed.

(** ** The partition set *)

Section Partitions.

Context {ext : Externals}.

Lemma partitions_of_timestamps (ts : list pyval) :
  Forall (fun v => is_timestamp v = true) ts ->
  mapM (fun p => y <- py_int (fst p) ;; m <- py_int (snd p) ;; Ok (y, m))
       (combine (map dt_year_cell ts) (map dt_month_cell ts))
  = Ok (map key_of ts).
Proof.
  induction 1 as [|v ts Hv _ IH]; [reflexivity|].
  destruct v; try discriminate. cbn [map combine mapM].
  cbn [fst snd dt_year_cell dt_month_cell py_int bind]. rewrite IH. reflexivity.
Qed.

Lemma partitions_fact_orders (raw : DataFrame) :
  good raw ->
  partitions (fact_orders_frame raw) = Ok (uniq_pairs [] (keys_of raw)).
Proof.
  intro Hg. unfold partitions.
  destruct (fact_orders_frame_ctx raw "order_year" Hg) as [Hy Hyc]; [simpl; tauto|].
  destruct (fact_orders_frame_ctx raw "order_month" Hg) as [Hm Hmc]; [simpl; tauto|].
  rewrite (getitem_single _ _ Hy), (getitem_single _ _ Hm). cbn [bind].
  rewrite Hyc, Hmc, (good_year _ Hg), (good_month _ Hg).
  rewrite (partitions_of_timestamps _ (good_ts _ Hg)). reflexivity.
Qed.

(** A frame of orders without rows has empty columns throughout. *)
Lemma no_rows_column (raw : DataFrame) (c : string) :
  wf raw -> nrows raw = 0%nat -> column raw c = [].
Proof.
  intros Hwf Hn. destruct (has_column raw c) eqn:Hc.
  - apply length_zero_iff_nil. rewrite <- Hn. now apply wf_column.
  - now apply column_missing.
Qed.

Lemma count_true_all_false (mask : list bool) :
  forallb negb mask = true -> count_true mask = 0%nat.
Proof.
  unfold count_true. induction mask as [|[|] mask IH]; simpl; auto; discriminate.
Qed.

Lemma as_records_inv (l : list pyval) (rs : list record) :
  as_records l = Ok rs -> l = map PDict rs.
Proof.
  unfold as_records. revert rs. induction l as [|v l IH]; simpl; intros rs H.
  - now injection H as <-.
  - destruct v; try discriminate. simpl in H.
    destruct (mapM _ l) as [rs'|e]; [|discriminate]. simpl in H.
    injection H as <-. simpl. f_equal. now apply IH.
Qed.

Lemma has_column_has_field (rs : list record) (c : string) :
  has_column (DataFrame_of_records rs) c = existsb (has_field c) (map PDict rs).
Proof.
  rewrite DataFrame_of_records_has. induction rs as [|r rs IH]; [reflexivity|].
  simpl. now rewrite IH.
Qed.

End Partitions.

(** ** Rows of FactOrderItem and the orders they come from *)

Lemma repeat_each_cons {A} (n : nat) (counts : list nat) (x : A) (l : list A) :
  repeat_each (n :: counts) (x :: l) = repeat x n ++ repeat_each counts l.
Proof. reflexivity. Qed.

Lemma repeat_each_nth {A} (counts : list nat) (l : list A) (d : A) (i : nat) :
  List.length counts = List.length l -> (i < list_sum counts)%nat ->
  (owner counts i < List.length l)%nat
  /\ nth i (repeat_each counts l) d = nth (owner counts i) l d.
Proof.
  revert l i. induction counts as [|n counts IH]; intros [|x l] i Hlen Hi;
    try discriminate; simpl in Hi; [lia|].
  rewrite repeat_each_cons. cbn [owner].
  destruct (Nat.ltb_spec i n) as [Hlt | Hge].
  - split; [simpl; lia|]. rewrite app_nth1 by now rewrite repeat_length.
    cbn [nth]. apply nth_repeat_lt. assumption.
  - injection Hlen as Hlen. destruct (IH l (i - n)%nat Hlen) as [H1 H2]; [lia|].
    split; [simpl; lia|].
    rewrite app_nth2 by (rewrite repeat_length; lia).
    rewrite repeat_length. cbn [nth]. exact H2.
Qed.

Section Provenance.

Context {ext : Externals}.

Lemma df_orders_raw_inv (orders : list record) (raw : DataFrame) :
  df_orders_raw orders = Ok raw ->
  required orders = true /\ raw = orders_frame orders /\ good raw.
Proof.
  intro H. destruct (required orders) eqn:Hreq.
  - rewrite df_orders_raw_Ok in H by assumption. injection H as <-.
    split; [reflexivity|]. split; [reflexivity | now apply orders_frame_good].
  - rewrite df_orders_raw_required in H by assumption. discriminate.
Qed.

Lemma no_items_no_rows (raw : DataFrame) :
  has_column raw "items" = false -> list_sum (item_counts raw) = 0%nat.
Proof. intro H. unfold item_counts. now rewrite column_missing. Qed.

End Provenance.

(** ** Expanded nested fields *)

Lemma dict_get_In (k : string) (d : record) (v : pyval) :
  dict_get k d = Some v -> In k (keys d).
Proof.
  induction d as [|[k' v'] d IH]; simpl; [discriminate|].
  destruct (String.eqb k k') eqn:E; [apply String.eqb_eq in E; auto | auto].
Qed.

Lemma dict_update_nil (d : record) : dict_update d [] = d.
Proof. reflexivity. Qed.

Lemma filter_all {A} (p : A -> bool) (l : list A) :
  forallb p l = true -> filter p l = l.
Proof.
  induction l as [|x l IH]; simpl; [reflexivity|].
  intro H. apply andb_true_iff in H as [-> H]. now rewrite IH.
Qed.

Lemma filter_none {A} (p : A -> bool) (l : list A) :
  forallb (fun x => negb (p x)) l = true -> filter p l = [].
Proof.
  induction l as [|x l IH]; simpl; [reflexivity|].
  intro H. apply andb_true_iff in H as [Hx H]. apply negb_true_iff in Hx.
  now rewrite Hx, IH.
Qed.

(** A record without nested records is flattened to itself. *)
Lemma flat_plain (d : record) :
  forallb (fun kv => negb (is_dict (snd kv))) d = true -> flat (PDict d) = d.
Proof.
  intro H. unfold flat, _normalise_json_ordered.
  rewrite (filter_all _ _ H), (filter_none (fun kv => is_dict (snd kv)) _ H).
  reflexivity.
Qed.

Lemma nth_map_nth_error {A B} (f : A -> B) (l : list A) (i : nat) (x : A) (d : B) :
  nth_error l i = Some x -> nth i (map f l) d = f x.
Proof.
  revert i. induction l as [|y l IH]; intros [|i] H; try discriminate; simpl in *.
  - now injection H as ->.
  - now apply IH.
Qed.

Lemma maybe_convert_objects_nth (col : list pyval) (i : nat) (v : pyval) :
  nth_error col i = Some v ->
  nth i (maybe_convert_objects col) PNone = v
  \/ nth i (maybe_convert_objects col) PNone = to_float64 v.
Proof.
  intro H. destruct (maybe_convert_objects_cases col) as [-> | ->].
  - left. now apply nth_error_nth.
  - right. now apply nth_map_nth_error.
Qed.

Section CoercedData.

Context {ext : Externals}.

Lemma coerced_In (df : DataFrame) (c c' : string) (col : list pyval) :
  c' <> c -> In (c', col) (data df) -> In (c', col) (data (coerced df c)).
Proof.
  intros Hne Hin. unfold coerced, setitem. destruct (has_column df c); [|assumption].
  cbn [data]. apply in_map_iff. exists (c', col). split; [|assumption].
  now rewrite labelled_neq.
Qed.

Lemma coerced_data (df : DataFrame) (c : string) :
  exists f, data (coerced df c) = map f (data df)
            /\ forall cv, fst (f cv) = fst cv /\ (fst cv <> c -> f cv = cv).
Proof.
  unfold coerced. destruct (has_column df c) eqn:Hc.
  - exists (fun cv => if labelled c cv then (c, to_numeric (column df c)) else cv).
    split; [unfold setitem; now rewrite Hc|].
    intro cv. destruct (labelled c cv) eqn:E.
    + apply labelled_eq in E. split; [now rewrite E | congruence].
    + auto.
  - exists (fun cv => cv). split; [now rewrite map_id | auto].
Qed.

End CoercedData.

(** ** Counting rows partition by partition *)

Lemma pair_eqb_eq (p q : Z * Z) : pair_eqb p q = true <-> p = q.
Proof.
  unfold pair_eqb. rewrite andb_true_iff, !Z.eqb_eq.
  destruct p, q; simpl. split; [intros [-> ->]; reflexivity | intros [= -> ->]; auto].
Qed.

Lemma pair_eqb_refl (p : Z * Z) : pair_eqb p p = true.
Proof. now apply pair_eqb_eq. Qed.

Lemma pair_eqb_sym (p q : Z * Z) : pair_eqb p q = pair_eqb q p.
Proof. unfold pair_eqb. now rewrite (Z.eqb_sym (fst p)), (Z.eqb_sym (snd p)). Qed.

Lemma uniq_pairs_unfold (seen : list (Z * Z)) (p : Z * Z) (l : list (Z * Z)) :
  uniq_pairs seen (p :: l)
  = if pair_mem p seen then uniq_pairs seen l else p :: uniq_pairs (p :: seen) l.
Proof. reflexivity. Qed.

Lemma uniq_pairs_unseen (l seen : list (Z * Z)) (p : Z * Z) :
  In p (uniq_pairs seen l) -> pair_mem p seen = false.
Proof.
  revert seen. induction l as [|k l IH]; intros seen Hin; [contradiction|].
  rewrite uniq_pairs_unfold in Hin. destruct (pair_mem k seen) eqn:Hk.
  - now apply IH.
  - destruct Hin as [<- | Hin]; [assumption|].
    apply IH in Hin. unfold pair_mem in Hin. simpl in Hin.
    now apply orb_false_iff in Hin as [_ Hin].
Qed.

Lemma weight_cons (p k : Z * Z) (keys : list (Z * Z)) (w : nat) (ws : list nat) :
  weight p (k :: keys) (w :: ws)
  = ((if pair_eqb p k then w else 0) + weight p keys ws)%nat.
Proof.
  unfold weight. cbn [map]. rewrite mask_rows_cons. now destruct (pair_eqb p k).
Qed.

Lemma sum_weights_skip (k : Z * Z) (w : nat) (keys : list (Z * Z)) (ws : list nat)
      (ps : list (Z * Z)) :
  (forall p, In p ps -> pair_eqb p k = false) ->
  list_sum (map (fun p => weight p (k :: keys) (w :: ws)) ps)
  = list_sum (map (fun p => weight p keys ws) ps).
Proof.
  intro H. f_equal. apply map_ext_in. intros p Hp.
  now rewrite weight_cons, (H p Hp).
Qed.

Lemma list_sum_cons (x : nat) (l : list nat) : list_sum (x :: l) = (x + list_sum l)%nat.
Proof. reflexivity. Qed.

Lemma unseen_split (k : Z * Z) (seen keys : list (Z * Z)) (ws : list nat) :
  pair_mem k seen = false ->
  (weight k keys ws
   + list_sum (mask_rows (map (fun x => negb (pair_mem x (k :: seen))) keys) ws))%nat
  = list_sum (mask_rows (map (fun x => negb (pair_mem x seen)) keys) ws).
Proof.
  intro Hk. revert ws. induction keys as [|x keys IH]; intros [|w ws]; try reflexivity.
  rewrite weight_cons. cbn [map]. rewrite !mask_rows_cons.
  unfold pair_mem at 1. cbn [existsb]. fold (pair_mem x seen).
  rewrite (pair_eqb_sym k x). destruct (pair_eqb x k) eqn:Exk.
  - apply pair_eqb_eq in Exk. subst x. rewrite Hk. cbn [orb negb].
    rewrite list_sum_cons, <- IH. lia.
  - cbn [orb]. destruct (pair_mem x seen); cbn [negb];
      rewrite ?list_sum_cons, <- IH; lia.
Qed.

(** Summed over the distinct keys, the weights of the partitions are the
    weights of all the orders. *)
Lemma sum_weights (keys seen : list (Z * Z)) (ws : list nat) :
  list_sum (map (fun p => weight p keys ws) (uniq_pairs seen keys))
  = list_sum (mask_rows (map (fun x => negb (pair_mem x seen)) keys) ws).
Proof.
  revert seen ws. induction keys as [|k keys IH]; intros seen ws; [reflexivity|].
  destruct ws as [|w ws].
  { induction (uniq_pairs seen (k :: keys)) as [|p ps IHp]; [reflexivity|].
    cbn [map]. rewrite list_sum_cons, IHp. reflexivity. }
  rewrite uniq_pairs_unfold. cbn [map]. rewrite mask_rows_cons.
  destruct (pair_mem k seen) eqn:Hk; cbn [negb].
  - rewrite sum_weights_skip; [apply IH|].
    intros p Hp. apply uniq_pairs_unseen in Hp.
    destruct (pair_eqb p k) eqn:E; [|reflexivity].
    apply pair_eqb_eq in E. congruence.
  - cbn [map]. rewrite !list_sum_cons, weight_cons, pair_eqb_refl.
    rewrite sum_weights_skip.
    + rewrite IH, <- (unseen_split k seen keys ws Hk). lia.
    + intros p Hp. apply uniq_pairs_unseen in Hp. unfold pair_mem in Hp.
      cbn [existsb] in Hp. now apply orb_false_iff in Hp as [Hp _].
Qed.

Lemma mask_rows_all {A} (l : list A) (mask : list bool) :
  List.length mask = List.length l -> forallb (fun b : bool => b) mask = true ->
  mask_rows mask l = l.
Proof.
  revert l. induction mask as [|b mask IH]; intros [|x l] Hlen Hall; try discriminate;
    [reflexivity|].
  rewrite mask_rows_cons. simpl in Hall. apply andb_true_iff in Hall as [-> Hall].
  f_equal. apply IH; [now injection Hlen | assumption].
Qed.

Lemma sum_weights_all (keys : list (Z * Z)) (ws : list nat) :
  List.length keys = List.length ws ->
  list_sum (map (fun p => weight p keys ws) (uniq_pairs [] keys)) = list_sum ws.
Proof.
  intro Hlen. rewrite sum_weights. f_equal. apply mask_rows_all.
  - now rewrite length_map.
  - apply forallb_forall. intros b Hb. apply in_map_iff in Hb as (x & <- & _).
    reflexivity.
Qed.

(** Rows kept by a mask, counted: one per order, or each order with its
    number of exploded rows. *)
Lemma count_true_weight (mask : list bool) :
  count_true mask = list_sum (mask_rows mask (map (fun _ => 1%nat) mask)).
Proof.
  unfold count_true. induction mask as [|b mask IH]; [reflexivity|].
  cbn [map]. rewrite mask_rows_cons. destruct b; cbn [filter List.length];
    rewrite ?list_sum_cons, IH; reflexivity.
Qed.

Lemma count_true_repeat_each (counts : list nat) (mask : list bool) :
  List.length counts = List.length mask ->
  count_true (repeat_each counts mask) = list_sum (mask_rows mask counts).
Proof.
  unfold count_true. revert mask.
  induction counts as [|n counts IH]; intros [|b mask] Hlen; try discriminate;
    [reflexivity|].
  rewrite repeat_each_cons, filter_app, length_app, mask_rows_cons.
  rewrite IH by now injection Hlen.
  assert (Hrep : List.length (filter (fun b0 : bool => b0) (repeat b n))
                 = if b then n else 0%nat).
  { clear. induction n as [|n IHn]; [now destruct b|].
    destruct b; simpl in *; [now rewrite IHn | assumption]. }
  rewrite Hrep. now destruct b.
Qed.

Lemma map2_repeat_each {A B C} (f : A -> B -> C) (counts : list nat)
      (l1 : list A) (l2 : list B) :
  List.length counts = List.length l1 -> List.length counts = List.length l2 ->
  map2 f (repeat_each counts l1) (repeat_each counts l2)
  = repeat_each counts (map2 f l1 l2).
Proof.
  revert l1 l2. induction counts as [|n counts IH]; intros [|x l1] [|y l2] H1 H2;
    try discriminate; [reflexivity|].
  unfold map2 in *. cbn [combine map fst snd]. rewrite !repeat_each_cons.
  rewrite <- IH by (simpl in *; lia).
  clear. induction n as [|n IHn]; [reflexivity|].
  cbn [repeat app combine map fst snd]. now rewrite IHn.
Qed.

(** ** Rows written per dataset *)

Lemma starts_with_app (a b c : string) :
  starts_with (a ++ b) (a ++ c) = starts_with b c.
Proof.
  induction a as [|x a IH]; [reflexivity|].
  cbn [String.append starts_with]. now rewrite Ascii.eqb_refl, IH.
Qed.

Section Rows.

Context {ext : Externals}.
Variable env : Env.

Lemma rows_written_app (dataset : string) (a b : list S3Object) :
  rows_written env dataset (a ++ b)
  = (rows_written env dataset a + rows_written env dataset b)%nat.
Proof.
  unfold rows_written. rewrite filter_app, map_app.
  induction (map _ (filter (in_dataset env dataset) a)) as [|x l IH]; [reflexivity|].
  cbn [app]. rewrite !list_sum_cons, IH. lia.
Qed.

Lemma in_dataset_key (dataset dataset' bucket run : string) (y m : Z) (df : DataFrame) :
  in_dataset env dataset
    {| Bucket := bucket; Key := partition_key env dataset' y m run; Body := df |}
  = starts_with ("/" ++ dataset ++ "/")
                ("/" ++ dataset' ++ "/" ++ "order_year=" ++ str_of_Z y
                 ++ "/order_month=" ++ str_of_Z m ++ "/" ++ "part-" ++ run ++ ".parquet").
Proof. unfold in_dataset, partition_key. cbn [Key]. apply starts_with_app. Qed.

Lemma rows_written_uploaded (dataset dataset' bucket run : string) (y m : Z)
      (part : DataFrame) (b : bool) :
  (forall rest, starts_with ("/" ++ dataset ++ "/") ("/" ++ dataset' ++ "/" ++ rest) = b) ->
  rows_written env dataset
    (uploaded (without_partition_cols part) bucket (partition_key env dataset' y m run))
  = if b then written_rows part else 0%nat.
Proof.
  intro Hb. unfold rows_written, uploaded, written_rows.
  destruct (empty (without_partition_cols part)); [now destruct b|].
  cbn [filter]. rewrite in_dataset_key, Hb. now destruct b.
Qed.

(** What one iteration writes for each dataset. *)
Lemma rows_written_partition_files (out_bucket : string) (context : option string)
      (orders_part items_part : DataFrame) (p : Z * Z) (k : nat) :
  rows_written env "fact_orders"
    (partition_files env out_bucket context orders_part items_part p k)
  = written_rows orders_part
  /\ rows_written env "fact_order_items"
       (partition_files env out_bucket context orders_part items_part p k)
     = written_rows items_part.
Proof.
  unfold partition_files. rewrite !rows_written_app.
  rewrite (rows_written_uploaded "fact_orders" "fact_orders" _ _ _ _ _ true) by reflexivity.
  rewrite (rows_written_uploaded "fact_orders" "fact_order_items" _ _ _ _ _ false)
    by reflexivity.
  rewrite (rows_written_uploaded "fact_order_items" "fact_orders" _ _ _ _ _ false)
    by reflexivity.
  rewrite (rows_written_uploaded "fact_order_items" "fact_order_items" _ _ _ _ _ true)
    by reflexivity.
  split; lia.
Qed.

(** A loop that ends without raising has written, for each dataset, the
    rows of the slices of its partitions. *)
Lemma for_each_rows (out_bucket : string) (context : option string)
      (fo foi : DataFrame) (ps : list (Z * Z)) :
  forall w w',
    for_each ps (write_partition env out_bucket context fo foi) w = (Ok tt, w') ->
    exists new,
      uploads w' = uploads w ++ new
      /\ rows_written env "fact_orders" new = list_sum (map (orders_rows fo) ps)
      /\ rows_written env "fact_order_items" new = list_sum (map (items_rows foi) ps).
Proof.
  induction ps as [|p ps IH]; intros w w' H.
  - injection H as <-. exists []. rewrite app_nil_r. repeat split.
  - cbn [for_each] in H. unfold bindM in H. rewrite write_partition_run in H.
    destruct (select_partition fo (fst p) (snd p)) as [op|e] eqn:Hop; [|discriminate].
    apply select_partition_inv in Hop as [-> _].
    cbn [map]. rewrite !list_sum_cons.
    destruct (negb (empty foi)) eqn:Hne.
    + destruct (select_partition foi (fst p) (snd p)) as [ip|e] eqn:Hip; [|discriminate].
      apply select_partition_inv in Hip as [-> _].
      destruct (IH _ _ H) as (new & Hnew & Ho & Hi). cbn [uploads] in Hnew.
      eexists. split; [rewrite Hnew, <- app_assoc; reflexivity|].
      rewrite !rows_written_app, Ho, Hi.
      destruct (rows_written_partition_files out_bucket context
                  (slice fo (fst p) (snd p)) (slice foi (fst p) (snd p)) p (clock_reads w))
        as [-> ->].
      split; [reflexivity|].
      assert (E : items_rows foi p = written_rows (slice foi (fst p) (snd p)))
        by (unfold items_rows; now rewrite Hne).
      now rewrite E.
    + destruct (IH _ _ H) as (new & Hnew & Ho & Hi). cbn [uploads] in Hnew.
      eexists. split; [rewrite Hnew, <- app_assoc; reflexivity|].
      rewrite !rows_written_app, Ho, Hi.
      destruct (rows_written_partition_files out_bucket context
                  (slice fo (fst p) (snd p)) empty_frame p (clock_reads w))
        as [-> ->].
      split; [reflexivity|].
      assert (E : items_rows foi p = 0%nat) by (unfold items_rows; now rewrite Hne).
      now rewrite E.
Qed.

End Rows.

Section SliceRows.

Context {ext : Externals}.

Lemma without_partition_cols_has (df : DataFrame) (c : string) :
  has_column df c = true -> mem c PARTITION_COLS = false ->
  data (without_partition_cols df) <> [].
Proof.
  intros Hc Hp. apply column_In_data in Hc.
  assert (Hin : In (c, column df c) (data (without_partition_cols df))).
  { unfold without_partition_cols. cbn [data]. apply filter_In. split; [assumption|].
    cbn [fst]. now rewrite Hp. }
  intro E. now rewrite E in Hin.
Qed.

(** A slice of a frame that has an [order_id] column is written whenever it
    has a row: the rows written are the rows the mask keeps. *)
Lemma written_rows_slice (df : DataFrame) (y m : Z) :
  has_column df "order_id" = true ->
  List.length (partition_mask df y m) = nrows df ->
  written_rows (slice df y m) = count_true (partition_mask df y m).
Proof.
  intros Hid Hlen. unfold written_rows, slice. fold (partition_mask df y m).
  rewrite <- (boolean_index_nrows df (partition_mask df y m) Hlen).
  unfold empty. cbn [nrows without_partition_cols].
  destruct (nrows (boolean_index df (partition_mask df y m)) =? 0)%nat eqn:E.
  - now apply Nat.eqb_eq in E.
  - cbn [orb].
    assert (Hne : data (without_partition_cols (boolean_index df (partition_mask df y m)))
                  <> []).
    { apply (without_partition_cols_has _ "order_id"); [|reflexivity].
      now rewrite boolean_index_has. }
    assert (Hl : (List.length
                    (data (without_partition_cols
                             (boolean_index df (partition_mask df y m)))) =? 0)%nat = false).
    { apply Nat.eqb_neq. intro E'. now apply length_zero_iff_nil in E'. }
    now rewrite Hl.
Qed.

Lemma timestamps_mask (ts : list pyval) (p : Z * Z) :
  Forall (fun v => is_timestamp v = true) ts ->
  map2 (fun a b => eq_int a (fst p) && eq_int b (snd p))
       (map dt_year_cell ts) (map dt_month_cell ts)
  = map (pair_eqb p) (map key_of ts).
Proof.
  intro H. rewrite map2_map, map_map. apply map_ext_in. intros v Hv.
  rewrite Forall_forall in H. specialize (H v Hv). destruct v; try discriminate.
  cbn [dt_year_cell dt_month_cell eq_int key_of]. unfold pair_eqb. cbn [fst snd].
  now rewrite (Z.eqb_sym (dt_year ns)), (Z.eqb_sym (dt_month ns)).
Qed.

Lemma fact_orders_mask (raw : DataFrame) (p : Z * Z) :
  good raw ->
  partition_mask (fact_orders_frame raw) (fst p) (snd p)
  = map (pair_eqb p) (keys_of raw).
Proof.
  intro Hg. unfold partition_mask.
  rewrite (proj2 (fact_orders_frame_ctx raw "order_year" Hg ltac:(simpl; tauto))).
  rewrite (proj2 (fact_orders_frame_ctx raw "order_month" Hg ltac:(simpl; tauto))).
  rewrite (good_year _ Hg), (good_month _ Hg).
  apply timestamps_mask, (good_ts _ Hg).
Qed.

Lemma keys_of_length (raw : DataFrame) :
  good raw -> List.length (keys_of raw) = nrows raw.
Proof.
  intro Hg. unfold keys_of. rewrite length_map.
  apply wf_column; [apply (good_wf _ Hg)|]. apply (good_ctx _ Hg). simpl; tauto.
Qed.

Lemma fact_order_items_mask (raw : DataFrame) (p : Z * Z) :
  good raw -> has_column raw "items" = true ->
  partition_mask (fact_order_items_frame raw) (fst p) (snd p)
  = repeat_each (item_counts raw) (map (pair_eqb p) (keys_of raw)).
Proof.
  intros Hg Hit. unfold partition_mask.
  rewrite !fact_order_items_frame_ctx by (simpl; tauto).
  assert (Hlen : forall c, In c ctx_cols ->
            List.length (item_counts raw) = List.length (column raw c)).
  { intros c Hc. rewrite item_counts_length by (try apply (good_wf _ Hg); assumption).
    symmetry. apply wf_column; [apply (good_wf _ Hg) | now apply (good_ctx _ Hg)]. }
  rewrite map2_repeat_each by (apply Hlen; simpl; tauto).
  rewrite (good_year _ Hg), (good_month _ Hg).
  now rewrite (timestamps_mask _ p (good_ts _ Hg)).
Qed.

Lemma list_sum_ones {A} (l : list A) :
  list_sum (map (fun _ => 1%nat) l) = List.length l.
Proof.
  induction l as [|x l IH]; [reflexivity|].
  cbn [map List.length]. now rewrite list_sum_cons, IH.
Qed.

Lemma list_sum_zeros {A} (l : list A) : list_sum (map (fun _ => 0%nat) l) = 0%nat.
Proof.
  induction l as [|x l IH]; [reflexivity|].
  cbn [map]. now rewrite list_sum_cons, IH.
Qed.

(** Over all partitions, FactOrder is written row for row. *)
Lemma orders_rows_sum (raw : DataFrame) :
  good raw ->
  list_sum (map (orders_rows (fact_orders_frame raw)) (uniq_pairs [] (keys_of raw)))
  = nrows (fact_orders_frame raw).
Proof.
  intro Hg. rewrite fact_orders_frame_nrows.
  assert (E : forall p,
            orders_rows (fact_orders_frame raw) p
            = weight p (keys_of raw) (map (fun _ => 1%nat) (keys_of raw))).
  { intro p. unfold orders_rows. rewrite written_rows_slice.
    - rewrite fact_orders_mask by assumption. rewrite count_true_weight.
      unfold weight. now rewrite map_map.
    - apply single_has. apply (fact_orders_frame_ctx raw "order_id" Hg). simpl; tauto.
    - rewrite fact_orders_mask by assumption.
      now rewrite length_map, keys_of_length, fact_orders_frame_nrows. }
  rewrite (map_ext _ _ E).
  rewrite sum_weights_all by (symmetry; apply length_map).
  rewrite <- (keys_of_length raw Hg). apply list_sum_ones.
Qed.

(** And so is FactOrderItem, when it has a row at all. *)
Lemma items_rows_sum (raw : DataFrame) :
  good raw ->
  list_sum (map (items_rows (fact_order_items_frame raw)) (uniq_pairs [] (keys_of raw)))
  = if negb (empty (fact_order_items_frame raw))
    then nrows (fact_order_items_frame raw) else 0%nat.
Proof.
  intro Hg. unfold items_rows.
  destruct (negb (empty (fact_order_items_frame raw))) eqn:Hne.
  2:{ apply list_sum_zeros. }
  assert (Hit : has_column raw "items" = true).
  { destruct (has_column raw "items") eqn:Hit; [reflexivity|].
    rewrite fact_order_items_frame_empty, no_items_no_rows in Hne by assumption.
    discriminate. }
  rewrite fact_order_items_frame_nrows.
  assert (Hcl : List.length (item_counts raw) = List.length (keys_of raw)).
  { rewrite keys_of_length by assumption.
    apply item_counts_length; [apply (good_wf _ Hg) | assumption]. }
  assert (E : forall p,
            written_rows (slice (fact_order_items_frame raw) (fst p) (snd p))
            = weight p (keys_of raw) (item_counts raw)).
  { intro p. rewrite written_rows_slice.
    - rewrite fact_order_items_mask by assumption.
      rewrite count_true_repeat_each by now rewrite length_map.
      reflexivity.
    - apply fact_order_items_frame_has_ctx; [assumption | simpl; tauto].
    - rewrite fact_order_items_mask by assumption.
      rewrite repeat_each_length by now rewrite length_map.
      now rewrite fact_order_items_frame_nrows. }
  rewrite (map_ext _ _ E). now apply sum_weights_all.
Qed.

End SliceRows.

Section Processed.

Context {ext : Externals}.
Variable env : Env.

(** A handler that returns row counts went through every stage. *)
Lemma lambda_handler_processed (event : Event) (context : option string) (w w' : World)
      (input out_bucket p1 p2 : string) (n_orders n_items : nat) :
  lambda_handler env event context w
  = (Ok (Processed input out_bucket p1 p2 n_orders n_items), w') ->
  exists records raw fo foi ps,
    df_orders_raw records = Ok raw
    /\ df_fact_orders raw = Ok fo
    /\ df_fact_order_items raw = Ok foi
    /\ partitions fo = Ok ps
    /\ for_each ps (write_partition env (out_bucket_of env event) context fo foi) w
       = (Ok tt, w')
    /\ n_orders = len fo
    /\ n_items = (if negb (empty foi) then len foi else 0%nat).
Proof.
  intro H.
  destruct (objects env (in_bucket_of event) (in_key_of event)) as [[|v]|] eqn:Hobj.
  1, 3: unfold lambda_handler, bindM, lift, ret in H;
        fold (in_bucket_of event) in H; fold (in_key_of event) in H;
        rewrite Hobj in H; discriminate.
  destruct v as [ | | | | |[|o os]| | ].
  1-6, 8-9: unfold lambda_handler, bindM, lift, ret in H;
        fold (in_bucket_of event) in H; fold (in_key_of event) in H;
        rewrite Hobj in H; discriminate.
  rewrite (lambda_handler_array env event context w o os Hobj) in H.
  destruct (as_records (o :: os)) as [records|e]; [|discriminate].
  destruct (df_orders_raw records) as [raw|e] eqn:Hraw; [|discriminate].
  destruct (df_fact_orders raw) as [fo|e] eqn:Hfo; [|discriminate].
  destruct (df_fact_order_items raw) as [foi|e] eqn:Hfoi; [|discriminate].
  destruct (partitions fo) as [ps|e] eqn:Hps; [|discriminate].
  destruct (for_each ps _ w) as [[[]|e] w1] eqn:Hloop; [|discriminate].
  unfold summary in H. injection H as _ _ _ _ Hn Hm <-.
  exists records, raw, fo, foi, ps. repeat split; auto.
Qed.

End Processed.

(** ** The row of an order without items *)

Lemma owner_at (before : list nat) (n : nat) (after : list nat) :
  (0 < n)%nat ->
  owner (before ++ n :: after) (list_sum before) = List.length before.
Proof.
  intro Hn. induction before as [|c before IH].
  - cbn [app owner list_sum fold_right]. now destruct (Nat.ltb_spec 0 n); [|lia].
  - cbn [app owner]. rewrite list_sum_cons.
    destruct (Nat.ltb_spec (c + list_sum before) c) as [Hlt | _]; [lia|].
    replace (c + list_sum before - c)%nat with (list_sum before) by lia.
    cbn [List.length]. now rewrite IH.
Qed.

Lemma flat_map_explode_length (l : list pyval) :
  List.length (flat_map explode_cell l)
  = list_sum (map (fun v => List.length (explode_cell v)) l).
Proof.
  induction l as [|v l IH]; [reflexivity|].
  cbn [flat_map map]. now rewrite length_app, list_sum_cons, IH.
Qed.

Lemma list_sum_app' (a b : list nat) :
  list_sum (a ++ b) = (list_sum a + list_sum b)%nat.
Proof.
  induction a as [|x a IH]; [reflexivity|].
  cbn [app]. rewrite !list_sum_cons, IH. lia.
Qed.

Section EmptyItems.

Context {ext : Externals}.

Lemma to_numeric_nth_none (series : list pyval) (k : nat) :
  nth k series PNone = PNone -> nth k (to_numeric series) PNone = PNone.
Proof.
  intro H. destruct (Nat.lt_ge_cases k (List.length series)) as [Hlt | Hge].
  - assert (Hk : nth_error series k = Some PNone).
    { rewrite <- H. now apply nth_error_nth'. }
    unfold to_numeric.
    destruct (forallb is_int (map coerce_numeric series)) eqn:E.
    + rewrite forallb_forall in E.
      assert (Hin : In (coerce_numeric PNone) (map coerce_numeric series))
        by (apply in_map; eapply nth_error_In; exact Hk).
      specialize (E _ Hin). discriminate.
    + rewrite map_map. now rewrite (nth_map_nth_error _ _ _ _ _ Hk).
  - apply nth_overflow. now rewrite to_numeric_length.
Qed.

Lemma coerced_nth_none (df : DataFrame) (c c' : string) (k : nat) :
  nth k (column df c') PNone = PNone ->
  nth k (column (coerced df c) c') PNone = PNone.
Proof.
  intro H. destruct (string_dec c' c) as [-> | Hne].
  - rewrite coerced_column_same. now apply to_numeric_nth_none.
  - now rewrite coerced_column_other.
Qed.

Lemma map2_nth_none (l1 l2 : list pyval) (k : nat) :
  nth k l1 PNone = PNone ->
  nth k (map round2_cell (map2 mul_cell l1 l2)) PNone = PNone.
Proof.
  unfold map2. revert l2 k. induction l1 as [|a l1 IH]; intros [|b l2] [|k] H;
    try reflexivity; cbn [combine map nth fst snd] in *.
  - now rewrite H.
  - now apply IH.
Qed.

Lemma with_line_total_nth_none (df : DataFrame) (c : string) (k : nat) :
  nth k (column df "quantity") PNone = PNone ->
  nth k (column df c) PNone = PNone ->
  nth k (column (with_line_total df) c) PNone = PNone.
Proof.
  intros Hq Hc. unfold with_line_total.
  destruct (has_column df "quantity" && has_column df "unit_price"); [|assumption].
  destruct (string_dec c "line_total") as [-> | Hne].
  - rewrite setitem_column_same. now apply map2_nth_none.
  - now rewrite setitem_column_other.
Qed.

(** In the exploded frame, a row that comes from a missing cell has every
    item field missing. *)
Lemma exploded_frame_item_none (raw : DataFrame) (c : string) (k : nat) :
  mem c ctx_cols = false ->
  nth_error (exploded raw) k = Some PNone ->
  nth k (column (exploded_frame raw) c) PNone = PNone.
Proof.
  intros Hc Hk. apply mem_not_In in Hc.
  destruct (has_column (exploded_frame raw) c) eqn:Hhas.
  2:{ rewrite column_missing by assumption. now destruct k. }
  unfold exploded_frame in *. destruct (has_column raw "items"); [|discriminate].
  unfold column. cbn [data]. rewrite filter_app.
  rewrite (filter_labelled_nil c (map _ ctx_cols)).
  2:{ rewrite map_map. cbn [fst]. now rewrite map_id. }
  cbn [app]. fold (column (items_frame raw) c).
  assert (Hi : has_column (items_frame raw) c = true).
  { apply has_column_In in Hhas. apply has_column_In. unfold columns in *.
    cbn [data] in Hhas. rewrite map_app, map_map in Hhas. cbn [fst] in Hhas.
    rewrite map_id in Hhas. apply in_app_or in Hhas as [Hhas | Hhas];
      [contradiction | assumption]. }
  unfold items_frame in *. rewrite DataFrame_of_records_column by assumption.
  assert (Hn : nth_error (map (field_or_nan c) (map flat (exploded raw))) k = Some PNone).
  { rewrite map_map, nth_error_map, Hk. reflexivity. }
  destruct (maybe_convert_objects_nth _ _ _ Hn) as [-> | ->]; reflexivity.
Qed.

Lemma fact_order_items_frame_item_none (raw : DataFrame) (c : string) (k : nat) :
  mem c ctx_cols = false ->
  nth_error (exploded raw) k = Some PNone ->
  nth k (column (fact_order_items_frame raw) c) PNone = PNone.
Proof.
  intros Hc Hk. unfold fact_order_items_frame.
  destruct (empty (exploded_frame raw)); cbn [negb];
    [now apply exploded_frame_item_none|].
  apply with_line_total_nth_none; unfold coerced_items;
    do 2 apply coerced_nth_none; now apply exploded_frame_item_none.
Qed.

End EmptyItems.

(** ** [line_total] *)

Lemma map2_nth {A B C} (f : A -> B -> C) (l1 : list A) (l2 : list B)
      (i : nat) (d1 : A) (d2 : B) (d : C) :
  (i < List.length l1)%nat -> (i < List.length l2)%nat ->
  nth i (map2 f l1 l2) d = f (nth i l1 d1) (nth i l2 d2).
Proof.
  unfold map2. revert l2 i. induction l1 as [|a l1 IH]; intros [|b l2] [|i] H1 H2;
    simpl in *; try lia; [reflexivity|].
  apply IH; lia.
Qed.

Section LineTotal.

Context {ext : Externals}.

Lemma to_numeric_cells (series : list pyval) :
  Forall (fun v => numeric_or_missing v = true) (to_numeric series).
Proof.
  unfold to_numeric. destruct (forallb is_int (map coerce_numeric series));
    rewrite Forall_map; apply Forall_forall; intros x _;
    now destruct x as [[z|f]|].
Qed.

Lemma to_numeric_nth (series : list pyval) (i : nat) (v : pyval) :
  nth_error series i = Some v ->
  nth i (to_numeric series) PNone = int64_cell (coerce_numeric v)
  \/ nth i (to_numeric series) PNone = float64_cell (coerce_numeric v).
Proof.
  intro H. unfold to_numeric.
  destruct (forallb is_int (map coerce_numeric series)); rewrite map_map.
  - left. now apply (nth_map_nth_error (fun x => int64_cell (coerce_numeric x))).
  - right. now apply (nth_map_nth_error (fun x => float64_cell (coerce_numeric x))).
Qed.

Lemma coerced_items_quantity (raw : DataFrame) :
  column (coerced_items raw) "quantity" = to_numeric (column (exploded_frame raw) "quantity").
Proof.
  unfold coerced_items. rewrite coerced_column_other by discriminate.
  apply coerced_column_same.
Qed.

Lemma coerced_items_unit_price (raw : DataFrame) :
  column (coerced_items raw) "unit_price"
  = to_numeric (column (exploded_frame raw) "unit_price").
Proof.
  unfold coerced_items. rewrite coerced_column_same.
  now rewrite coerced_column_other by discriminate.
Qed.

Lemma coerced_items_has (raw : DataFrame) (c : string) :
  has_column (coerced_items raw) c = has_column (exploded_frame raw) c.
Proof. unfold coerced_items. now rewrite !coerced_has. Qed.

Lemma coerced_items_columns (raw : DataFrame) :
  columns (coerced_items raw) = columns (exploded_frame raw).
Proof. unfold coerced_items. now rewrite !coerced_columns. Qed.

End LineTotal.

(** ** The storage path spells the partition *)

Lemma append_inj_l (p a b : string) : (p ++ a = p ++ b)%string -> a = b.
Proof.
  induction p as [|c p IH]; simpl; intro H; [assumption|].
  apply IH. now injection H.
Qed.

Lemma cut_at_slash (a b x y : string) :
  no_slash a = true -> no_slash b = true ->
  (a ++ String "/" x = b ++ String "/" y)%string -> a = b /\ x = y.
Proof.
  unfold no_slash. revert b.
  induction a as [|c a IH]; intros [|d b] Ha Hb H; simpl in *.
  - injection H as ->. auto.
  - injection H as <- _. apply andb_true_iff in Hb as [Hb _]. discriminate Hb.
  - injection H as -> _. apply andb_true_iff in Ha as [Ha _]. discriminate Ha.
  - injection H as -> H.
    apply andb_true_iff in Ha as [_ Ha]. apply andb_true_iff in Hb as [_ Hb].
    destruct (IH b Ha Hb H) as [-> ->]. auto.
Qed.

Lemma is_digit_no_slash (s : string) :
  forallb is_digit (list_ascii_of_string s) = true -> no_slash s = true.
Proof.
  unfold no_slash. induction s as [|c s IH]; simpl; [reflexivity|].
  intro H. apply andb_true_iff in H as [Hc Hs]. rewrite (IH Hs), andb_true_r.
  destruct (Ascii.eqb_spec c "/") as [-> | _]; [discriminate Hc | reflexivity].
Qed.

Lemma string_of_uint_no_slash (d : Decimal.uint) :
  no_slash (NilZero.string_of_uint d) = true.
Proof.
  destruct d; try reflexivity;
    apply is_digit_no_slash; apply (string_of_uint_digits (_ d)).
Qed.

Lemma str_of_Z_no_slash (z : Z) : no_slash (str_of_Z z) = true.
Proof.
  unfold str_of_Z. destruct (Z.to_int z) as [d|d]; cbn [NilZero.string_of_int].
  - apply string_of_uint_no_slash.
  - change (no_slash (String "-" (NilZero.string_of_uint d)))
      with (no_slash (NilZero.string_of_uint d)).
    apply string_of_uint_no_slash.
Qed.

Lemma Z_to_int_proper (z : Z) :
  Z.to_int z <> Decimal.Pos Decimal.Nil /\ Z.to_int z <> Decimal.Neg Decimal.Nil.
Proof.
  destruct z as [|p|p]; simpl; split; try discriminate;
    intros [= H]; now apply (Unsigned.to_uint_nonnil p).
Qed.

Lemma str_of_Z_inj (a b : Z) : str_of_Z a = str_of_Z b -> a = b.
Proof.
  unfold str_of_Z. intro H.
  assert (E : Some (Z.to_int a) = Some (Z.to_int b)).
  { destruct (Z_to_int_proper a) as [Ha1 Ha2]. destruct (Z_to_int_proper b) as [Hb1 Hb2].
    rewrite <- (NilZero.isi _ Ha1 Ha2), <- (NilZero.isi _ Hb1 Hb2). now rewrite H. }
  injection E as E.
  rewrite <- (DecimalZ.of_to a), <- (DecimalZ.of_to b). now rewrite E.
Qed.

(** Two keys of one dataset that are equal name the same partition. *)
Lemma partition_key_inj {ext : Externals} (env : Env) (dataset : string)
      (y m y' m' : Z) (r r' : string) :
  partition_key env dataset y m r = partition_key env dataset y' m' r' ->
  y = y' /\ m = m'.
Proof.
  unfold partition_key. intro H.
  do 5 apply append_inj_l in H.
  change ("/order_month=" ++ str_of_Z m ++ "/" ++ "part-" ++ r ++ ".parquet")%string
    with (String "/" ("order_month=" ++ str_of_Z m ++ "/" ++ "part-" ++ r ++ ".parquet"))%string
    in H.
  change ("/order_month=" ++ str_of_Z m' ++ "/" ++ "part-" ++ r' ++ ".parquet")%string
    with (String "/" ("order_month=" ++ str_of_Z m' ++ "/" ++ "part-" ++ r' ++ ".parquet"))%string
    in H.
  apply cut_at_slash in H as [Hy H]; try apply str_of_Z_no_slash.
  apply append_inj_l in H.
  change ("/" ++ "part-" ++ r ++ ".parquet")%string
    with (String "/" ("part-" ++ r ++ ".parquet"))%string in H.
  change ("/" ++ "part-" ++ r' ++ ".parquet")%string
    with (String "/" ("part-" ++ r' ++ ".parquet"))%string in H.
  apply cut_at_slash in H as [Hm _]; try apply str_of_Z_no_slash.
  split; now apply str_of_Z_inj.
Qed.

(* ================================================================== *)
(** * The properties of the specification *)

(** ** C1 *)

Lemma uploaded_hive {ext : Externals} (env : Env) (context : option string)
      (dataset bucket : string) (table : DataFrame) (y m : Z) (k : nat) :
  Forall (fun f => (mem "order_year" (columns (Body f)) = false
                    /\ mem "order_month" (columns (Body f)) = false)
                   /\ hive_file env context dataset table f)
         (uploaded (without_partition_cols (slice table y m)) bucket
                   (partition_key env dataset y m (run_id env context k))).
Proof.
  unfold uploaded. destruct (empty _); constructor; [|constructor].
  cbn [Body Key]. split.
  - split; apply without_partition_cols_columns; simpl; tauto.
  - exists y, m, k. split; reflexivity.
Qed.

(** C1.  Whatever the invocation, every file it uploads holds neither
    [order_year] nor [order_month] among its columns; it is the slice of
    FactOrder or of FactOrderItem for one partition [(y, m)], with the
    partition columns dropped, stored under a key that spells
    [order_year=y/order_month=m].  Every row of that slice carried exactly
    this year and month, and the key of a file names one partition only: the
    year and the month of the rows can be read back from the path. *)
Theorem C1_partition_columns_not_in_files (ext : Externals) (env : Env)
        (event : Event) (context : option string) (w : World) :
  (exists new,
      uploads (snd (lambda_handler env event context w)) = uploads w ++ new
      /\ Forall (fun f => mem "order_year" (columns (Body f)) = false
                          /\ mem "order_month" (columns (Body f)) = false) new
      /\ (new = []
          \/ exists records raw fo foi,
               df_orders_raw records = Ok raw
               /\ df_fact_orders raw = Ok fo
               /\ df_fact_order_items raw = Ok foi
               /\ Forall (fun f => hive_file env context "fact_orders" fo f
                                   \/ hive_file env context "fact_order_items" foi f)
                         new))
  /\ (forall df y m,
        Forall (fun v => eq_int v y = true) (column (slice df y m) "order_year")
        /\ Forall (fun v => eq_int v m = true) (column (slice df y m) "order_month"))
  /\ (forall dataset y m run y' m' run',
        partition_key env dataset y m run = partition_key env dataset y' m' run' ->
        y = y' /\ m = m').
Proof.
  split; [|split; [intros; apply slice_rows | intros *; apply partition_key_inj]].
  assert (Hnone : forall w', w' = w ->
            exists new, uploads w' = uploads w ++ new
              /\ Forall (fun f => mem "order_year" (columns (Body f)) = false
                                  /\ mem "order_month" (columns (Body f)) = false) new
              /\ (new = [] \/ exists records raw fo foi,
                    df_orders_raw records = Ok raw
                    /\ df_fact_orders raw = Ok fo
                    /\ df_fact_order_items raw = Ok foi
                    /\ Forall (fun f => hive_file env context "fact_orders" fo f
                                        \/ hive_file env context "fact_order_items" foi f)
                              new)).
  { intros w' ->. exists []. rewrite app_nil_r. repeat split; auto. }
  destruct (objects env (in_bucket_of event) (in_key_of event)) as [[|v]|] eqn:Hobj.
  1, 3: apply Hnone, lambda_handler_other; intros o os; congruence.
  destruct v as [ | | | | |[|o os]| | ].
  1-6, 8-9: apply Hnone, lambda_handler_other; intros o' os'; congruence.
  rewrite (lambda_handler_array env event context w o os Hobj).
  destruct (as_records (o :: os)) as [records|e]; [|now apply Hnone].
  destruct (df_orders_raw records) as [raw|e] eqn:Hraw; [|now apply Hnone].
  destruct (df_fact_orders raw) as [fo|e] eqn:Hfo; [|now apply Hnone].
  destruct (df_fact_order_items raw) as [foi|e] eqn:Hfoi; [|now apply Hnone].
  destruct (partitions fo) as [ps|e]; [|now apply Hnone].
  destruct (for_each_uploads
              (fun f => (mem "order_year" (columns (Body f)) = false
                         /\ mem "order_month" (columns (Body f)) = false)
                        /\ (hive_file env context "fact_orders" fo f
                            \/ hive_file env context "fact_order_items" foi f))
              (write_partition env (out_bucket_of env event) context fo foi))
    with (l := ps) (w := w) as (new & Hnew & HP).
  { intros p w0. rewrite write_partition_run.
    destruct (select_partition fo (fst p) (snd p)) as [op|e] eqn:Hop.
    2:{ exists []. split; [simpl; now rewrite app_nil_r | constructor]. }
    apply select_partition_inv in Hop as [-> _].
    destruct (empty foi) eqn:Hempty; cbn [negb].
    - eexists. split; [reflexivity|]. unfold partition_files.
      apply Forall_app. split.
      + eapply Forall_impl; [|apply uploaded_hive]. intros f [H1 H2]. auto.
      + unfold uploaded. cbn. constructor.
    - destruct (select_partition foi (fst p) (snd p)) as [ip|e] eqn:Hip.
      2:{ exists []. split; [simpl; now rewrite app_nil_r | constructor]. }
      apply select_partition_inv in Hip as [-> _].
      eexists. split; [reflexivity|]. unfold partition_files.
      apply Forall_app. split.
      + eapply Forall_impl; [|apply uploaded_hive]. intros f [H1 H2]. auto.
      + eapply Forall_impl; [|apply uploaded_hive]. intros f [H1 H2]. auto. }
  exists new. split.
  { destruct (for_each ps _ w) as [[[]|e] w']; exact Hnew. }
  split; [eapply Forall_impl; [|exact HP]; now intros f [H _]|].
  right. exists records, raw, fo, foi. repeat split; auto.
  eapply Forall_impl; [|exact HP]. now intros f [_ H].
Qed.

(** ** C2 *)

(** C2, as the code has it.  In a FactOrderItem that has rows, [quantity]
    and [unit_price] are the exploded item fields coerced by [to_numeric]:
    every cell is an integer, a float or missing, and a cell that does not
    read as a number is missing.  When both are columns, [line_total] is, row
    by row, [quantity * unit_price] rounded by numpy's [round(2)]: exact
    for two integers, and for floats the binary64 product times 100,
    rounded to the nearest integer (ties to even) and divided by 100; it is
    missing as soon as one of the two is.  When one of them is not a column,
    no [line_total] is derived.  For quantity 3 and unit price 2.005 the
    rounding gives 6.02: the product is the double just below 6.015, and
    times 100 it is 601.5 exactly, a tie that goes to 602. *)
Theorem C2_line_total_rounding (ext : Externals) (orders : list record)
        (raw foi : DataFrame) :
  df_orders_raw orders = Ok raw ->
  df_fact_order_items raw = Ok foi ->
  empty foi = false ->
  column foi "quantity" = to_numeric (column (exploded_frame raw) "quantity")
  /\ column foi "unit_price" = to_numeric (column (exploded_frame raw) "unit_price")
  /\ Forall (fun v => numeric_or_missing v = true) (column foi "quantity")
  /\ Forall (fun v => numeric_or_missing v = true) (column foi "unit_price")
  /\ (forall c i v,
        nth_error (column (exploded_frame raw) c) i = Some v ->
        coerce_numeric v = None ->
        nth i (to_numeric (column (exploded_frame raw) c)) PNone = PNone)
  /\ (has_column (exploded_frame raw) "quantity" = true ->
      has_column (exploded_frame raw) "unit_price" = true ->
      column foi "line_total"
      = map round2_cell (map2 mul_cell (column foi "quantity") (column foi "unit_price"))
      /\ forall i, (i < nrows foi)%nat ->
           nth i (column foi "line_total") PNone
           = round2_cell (mul_cell (nth i (column foi "quantity") PNone)
                                   (nth i (column foi "unit_price") PNone)))
  /\ (has_column (exploded_frame raw) "quantity" = false
      \/ has_column (exploded_frame raw) "unit_price" = false ->
      columns foi = columns (exploded_frame raw))
  /\ (forall a b, round2_cell (mul_cell (PInt a) (PInt b)) = PInt (wrap64 (a * b)))
  /\ (forall a g, round2_cell (mul_cell (PInt a) (PFloat g))
                  = PFloat (np_round2 (PrimFloat.mul (float_of_Z a) g)))
  /\ (forall f b, round2_cell (mul_cell (PFloat f) (PInt b))
                  = PFloat (np_round2 (PrimFloat.mul f (float_of_Z b))))
  /\ (forall f g, round2_cell (mul_cell (PFloat f) (PFloat g))
                  = PFloat (np_round2 (PrimFloat.mul f g)))
  /\ (forall v, round2_cell (mul_cell PNone v) = PNone
                /\ round2_cell (mul_cell v PNone) = PNone)
  /\ round2_cell (mul_cell (PInt 3) (PFloat 2.005)) = PFloat 6.02.
Proof.
  intros Hraw Hfoi Hne.
  apply df_orders_raw_inv in Hraw as (_ & _ & Hg).
  apply df_fact_order_items_inv in Hfoi as [_ ->]; [|assumption].
  assert (Hfoi : fact_order_items_frame raw = with_line_total (coerced_items raw)).
  { unfold fact_order_items_frame in *.
    destruct (empty (exploded_frame raw)) eqn:E; cbn [negb] in *; [congruence | reflexivity]. }
  assert (Hq : column (fact_order_items_frame raw) "quantity"
               = to_numeric (column (exploded_frame raw) "quantity")).
  { rewrite Hfoi, with_line_total_column by discriminate. apply coerced_items_quantity. }
  assert (Hp : column (fact_order_items_frame raw) "unit_price"
               = to_numeric (column (exploded_frame raw) "unit_price")).
  { rewrite Hfoi, with_line_total_column by discriminate. apply coerced_items_unit_price. }
  split; [exact Hq|]. split; [exact Hp|].
  split; [rewrite Hq; apply to_numeric_cells|].
  split; [rewrite Hp; apply to_numeric_cells|].
  split.
  { intros c i v Hi Hv. destruct (to_numeric_nth _ _ _ Hi) as [-> | ->];
      now rewrite Hv. }
  split.
  { intros Hhq Hhp.
    assert (Hlt : column (fact_order_items_frame raw) "line_total"
                  = map round2_cell
                      (map2 mul_cell (column (fact_order_items_frame raw) "quantity")
                            (column (fact_order_items_frame raw) "unit_price"))).
    { rewrite Hq, Hp, Hfoi. unfold with_line_total.
      rewrite !coerced_items_has, Hhq, Hhp. cbn [andb].
      now rewrite setitem_column_same, coerced_items_quantity, coerced_items_unit_price. }
    split; [exact Hlt|].
    intros i Hi. rewrite Hlt.
    pose proof (fact_order_items_frame_wf raw Hg) as Hwf.
    assert (Hlq : List.length (column (fact_order_items_frame raw) "quantity")
                  = nrows (fact_order_items_frame raw)).
    { apply wf_column; [assumption|]. rewrite Hfoi. apply with_line_total_has.
      now rewrite coerced_items_has. }
    assert (Hlp : List.length (column (fact_order_items_frame raw) "unit_price")
                  = nrows (fact_order_items_frame raw)).
    { apply wf_column; [assumption|]. rewrite Hfoi. apply with_line_total_has.
      now rewrite coerced_items_has. }
    rewrite (nth_indep _ PNone (round2_cell PNone))
      by (rewrite length_map, map2_length; congruence).
    rewrite map_nth. f_equal.
    apply map2_nth; congruence. }
  split.
  { intro Hmiss. rewrite Hfoi. unfold with_line_total. rewrite !coerced_items_has.
    destruct Hmiss as [-> | ->]; rewrite ?andb_false_r; cbn [andb];
      apply coerced_items_columns. }
  repeat split; try reflexivity; now destruct v.
Qed.

(** The first item of the sample batch: quantity 3 at 2.005. *)
Lemma C2_line_total_witness :
  column Reference.sample_fact_order_items "line_total"
  = map round2_cell (map2 mul_cell (column Reference.sample_fact_order_items "quantity")
                          (column Reference.sample_fact_order_items "unit_price"))
  /\ nth 0 (column Reference.sample_fact_order_items "line_total") PNone = PFloat 6.02.
Proof.
  destruct (C2_line_total_rounding
              Reference.externals Reference.sample Reference.sample_raw
              Reference.sample_fact_order_items
              ltac:(vm_compute; reflexivity) ltac:(vm_compute; reflexivity)
              ltac:(vm_compute; reflexivity))
    as (_ & _ & _ & _ & _ & H & _).
  destruct (H ltac:(vm_compute; reflexivity) ltac:(vm_compute; reflexivity)) as [Hlt _].
  split; [exact Hlt | vm_compute; reflexivity].
Defined.

(** One order with one item, quantity 3 at unit price 2.005: the code gives
    a [line_total] of 6.02, which is not 6.01. *)
Lemma C2_line_total_counterexample :
  (raw <- @df_orders_raw Reference.externals
            [[("order_id", PInt 1);
              ("order_timestamp", PStr "2025-01-01T12:00:00Z");
              ("items", PList [PDict [("quantity", PInt 3);
                                      ("unit_price", PFloat 2.005)]])]] ;;
   foi <- @df_fact_order_items Reference.externals raw ;;
   getitem foi "line_total")
  = Ok [PFloat 6.02]
  /\ PrimFloat.eqb 6.02 6.01 = false.
Proof. vm_compute. split; reflexivity. Qed.

(** ** C3 *)

(** C3.  Take a batch with both required columns; [alive] marks the orders
    whose timestamp the normalizer could parse, in the column as the frame
    constructor built it: an epoch that fits a Timestamp always is, and so
    is a text for which the date parser found an instant.  Parsing failures
    do not raise: the frame of orders is built, and it holds exactly the
    rows of the orders that are alive, in order.  The tables are then built
    from these rows alone: flattening raises only for what a surviving order
    holds (a list where a record is expected), FactOrder has one row per
    surviving order and FactOrderItem the exploded items of the surviving
    orders, so an order whose timestamp does not parse is in neither. *)
Theorem C3_unparseable_timestamp_rows_dropped (ext : Externals)
        (orders : list record) :
  required orders = true ->
  exists raw,
    df_orders_raw orders = Ok raw
    /\ nrows raw = count_true (alive orders)
    /\ alive orders = map is_timestamp (timestamps orders)
    /\ (forall i z,
          nth_error (column (DataFrame_of_records orders) "order_timestamp") i
          = Some (PInt z) ->
          0 <= z -> z * (if z <? 10 ^ 15 then 10 ^ 6 else 1) <= INT64_MAX ->
          nth_error (alive orders) i = Some true)
    /\ (forall i s t,
          nth_error (column (DataFrame_of_records orders) "order_timestamp") i
          = Some (PStr s) ->
          fullmatch_digits s = false ->
          nth_error (to_datetime
                       (texts (column (DataFrame_of_records orders) "order_timestamp"))) i
          = Some (Some t) ->
          nth_error (alive orders) i = Some true)
    /\ (forall c, mem c derived = false ->
          column raw c = mask_rows (alive orders) (column (DataFrame_of_records orders) c))
    /\ (nested_ok raw = true -> exists fo, df_fact_orders raw = Ok fo)
    /\ (items_ok raw = true -> exists foi, df_fact_order_items raw = Ok foi)
    /\ (forall fo, df_fact_orders raw = Ok fo ->
          nrows fo = count_true (alive orders)
          /\ column fo "order_id"
             = mask_rows (alive orders) (column (DataFrame_of_records orders) "order_id"))
    /\ (forall foi, df_fact_order_items raw = Ok foi ->
          nrows foi
          = list_sum (map (fun v => List.length (explode_cell v))
                          (mask_rows (alive orders)
                                     (column (DataFrame_of_records orders) "items")))
          /\ (has_column (DataFrame_of_records orders) "items" = true ->
              column foi "order_id"
              = repeat_each
                  (map (fun v => List.length (explode_cell v))
                       (mask_rows (alive orders)
                                  (column (DataFrame_of_records orders) "items")))
                  (mask_rows (alive orders)
                             (column (DataFrame_of_records orders) "order_id")))).
Proof.
  intro Hreq. exists (orders_frame orders).
  pose proof (orders_frame_good _ Hreq) as Hg.
  assert (Hcol : forall c, mem c derived = false ->
            column (orders_frame orders) c
            = mask_rows (alive orders) (column (DataFrame_of_records orders) c)).
  { intros c Hc. apply orders_frame_column. now apply mem_not_In. }
  split; [now apply df_orders_raw_Ok|].
  split; [now apply orders_frame_nrows|].
  split.
  { unfold alive, timestamps. apply notna_safe_to_datetime. }
  split; [apply alive_epoch|].
  split; [apply alive_text|].
  split; [exact Hcol|].
  split; [intro H; eexists; now apply df_fact_orders_Ok|].
  split; [intro H; eexists; now apply df_fact_order_items_Ok|].
  split.
  - intros fo Hfo. apply df_fact_orders_inv in Hfo as [_ ->]; [|assumption].
    rewrite fact_orders_frame_nrows, orders_frame_nrows by assumption.
    split; [reflexivity|].
    rewrite (proj2 (fact_orders_frame_ctx _ "order_id" Hg ltac:(simpl; tauto))).
    now apply Hcol.
  - intros foi Hfoi. apply df_fact_order_items_inv in Hfoi as [_ ->]; [|assumption].
    rewrite fact_order_items_frame_nrows. unfold item_counts.
    rewrite !Hcol by reflexivity. split; [reflexivity|].
    intro Hit. rewrite fact_order_items_frame_ctx; [|rewrite orders_frame_has, Hit; reflexivity | simpl; tauto].
    unfold item_counts. now rewrite !Hcol.
Qed.

(** The sample batch: its third order has a timestamp that does not parse
    (and a customer that could not be flattened); two orders remain. *)
Lemma C3_unparseable_witness :
  @alive Reference.externals Reference.sample = [true; true; false]
  /\ exists raw,
       @df_orders_raw Reference.externals Reference.sample = Ok raw
       /\ nrows raw = 2%nat
       /\ (exists fo, @df_fact_orders Reference.externals raw = Ok fo)
       /\ (exists foi, @df_fact_order_items Reference.externals raw = Ok foi).
Proof.
  split; [vm_compute; reflexivity|].
  destruct (C3_unparseable_timestamp_rows_dropped
              Reference.externals Reference.sample ltac:(vm_compute; reflexivity))
    as (raw & Hraw & Hn & _ & _ & _ & Hcol & Hfo & Hfoi & _).
  exists raw. split; [exact Hraw|]. split; [rewrite Hn; vm_compute; reflexivity|].
  assert (E : raw = Reference.sample_raw).
  { assert (H : @df_orders_raw Reference.externals Reference.sample
                = Ok Reference.sample_raw) by (vm_compute; reflexivity).
    congruence. }
  subst raw. split; [apply Hfo | apply Hfoi]; vm_compute; reflexivity.
Defined.

(** ** C4 *)

(** C4, as the code has it.  [explode] turns an empty list into one row
    with a missing value.  So a surviving order whose [items] is the empty
    list contributes exactly one row to FactOrderItem: with [before] and
    [after] the items cells of the orders around it, FactOrderItem is the
    exploded rows of [before], then that one row, then the exploded rows of
    [after]; the row carries the order context of this order and every
    other field of it is missing.  The order still contributes its one row
    to FactOrder, at its position among the surviving orders. *)
Theorem C4_empty_items_one_row (ext : Externals) (orders : list record)
        (raw fo foi : DataFrame) (before after : list pyval) :
  df_orders_raw orders = Ok raw ->
  df_fact_orders raw = Ok fo ->
  df_fact_order_items raw = Ok foi ->
  column raw "items" = before ++ PList [] :: after ->
  nrows fo = (List.length before + 1 + List.length after)%nat
  /\ nrows foi
     = (List.length (flat_map explode_cell before) + 1
        + List.length (flat_map explode_cell after))%nat
  /\ (forall c, In c ctx_cols ->
        nth (List.length (flat_map explode_cell before)) (column foi c) PNone
        = nth (List.length before) (column fo c) PNone)
  /\ (forall c, mem c ctx_cols = false ->
        nth (List.length (flat_map explode_cell before)) (column foi c) PNone = PNone).
Proof.
  intros Hraw Hfo Hfoi Hitems.
  apply df_orders_raw_inv in Hraw as (_ & _ & Hg).
  apply df_fact_orders_inv in Hfo as [_ ->]; [|assumption].
  apply df_fact_order_items_inv in Hfoi as [_ ->]; [|assumption].
  pose proof (good_wf _ Hg) as Hwf.
  assert (Hit : has_column raw "items" = true).
  { destruct (has_column raw "items") eqn:E; [reflexivity|].
    rewrite column_missing in Hitems by assumption. now destruct before. }
  assert (Hcounts : item_counts raw
                    = map (fun v => List.length (explode_cell v)) before
                      ++ 1%nat :: map (fun v => List.length (explode_cell v)) after).
  { unfold item_counts. now rewrite Hitems, map_app. }
  assert (Hk : list_sum (map (fun v => List.length (explode_cell v)) before)
               = List.length (flat_map explode_cell before))
    by (symmetry; apply flat_map_explode_length).
  assert (Hn : nrows raw = (List.length before + 1 + List.length after)%nat).
  { rewrite <- (wf_column raw "items" Hwf Hit), Hitems, length_app. simpl. lia. }
  split; [now rewrite fact_orders_frame_nrows|].
  split.
  { rewrite fact_order_items_frame_nrows, Hcounts, list_sum_app', list_sum_cons.
    rewrite !flat_map_explode_length. lia. }
  split.
  - intros c Hc. rewrite fact_order_items_frame_ctx by assumption.
    rewrite (proj2 (fact_orders_frame_ctx raw c Hg Hc)).
    assert (Hlen : List.length (item_counts raw) = List.length (column raw c)).
    { rewrite item_counts_length by assumption. symmetry.
      apply wf_column; [assumption | now apply (good_ctx _ Hg)]. }
    destruct (repeat_each_nth (item_counts raw) (column raw c) PNone
                (List.length (flat_map explode_cell before)) Hlen) as [_ ->].
    + rewrite Hcounts, list_sum_app', list_sum_cons, Hk. lia.
    + rewrite Hcounts, <- Hk, owner_at by lia. now rewrite length_map.
  - intros c Hc. apply fact_order_items_frame_item_none; [assumption|].
    unfold exploded. rewrite Hitems, flat_map_app. cbn [flat_map explode_cell app].
    rewrite nth_error_app2 by lia. now rewrite Nat.sub_diag.
Qed.

(** The second order of the sample batch has no item; the cells before it
    are the two items of the first order. *)
Lemma C4_empty_items_witness :
  nrows Reference.sample_fact_orders = 2%nat
  /\ nrows Reference.sample_fact_order_items = 3%nat
  /\ (forall c, In c ctx_cols ->
        nth 2 (column Reference.sample_fact_order_items c) PNone
        = nth 1 (column Reference.sample_fact_orders c) PNone)
  /\ (forall c, mem c ctx_cols = false ->
        nth 2 (column Reference.sample_fact_order_items c) PNone = PNone).
Proof.
  apply (C4_empty_items_one_row
           Reference.externals Reference.sample Reference.sample_raw
           Reference.sample_fact_orders Reference.sample_fact_order_items
           [nth 0 (column Reference.sample_raw "items") PNone] []);
    vm_compute; reflexivity.
Defined.

(** A batch of one order with [items: []]: FactOrderItem has one row, a
    file is written for it, and the result reports one row for each
    dataset. *)
Lemma C4_empty_items_counterexample :
  (raw <- @df_orders_raw Reference.externals [Reference.order2] ;;
   @df_fact_order_items Reference.externals raw)
  = Ok {| nrows := 1;
          data := [("order_id", [PInt 2]);
                   ("order_timestamp", [PTimestamp 1738411200000000000]);
                   ("order_date", [PStr "2025-02-01"]);
                   ("order_year", [PInt 2025]);
                   ("order_month", [PInt 2])] |}
  /\ fst (Reference.run (Json (PList [PDict Reference.order2])))
     = Ok (Processed "s3://raw/orders.json" "raw"
             "s3://raw/processed/store_sales/fact_orders/"
             "s3://raw/processed/store_sales/fact_order_items/" 1 1)
  /\ map (fun f => (Key f, nrows (Body f)))
         (uploads (snd (Reference.run (Json (PList [PDict Reference.order2])))))
     = [("processed/store_sales/fact_orders/order_year=2025/order_month=2/part-20250101T000000-local.parquet",
         1%nat);
        ("processed/store_sales/fact_order_items/order_year=2025/order_month=2/part-20250101T000000-local.parquet",
         1%nat)].
Proof. vm_compute. repeat split; reflexivity. Qed.

(** ** C5 *)

(** C5.  The normalizer classifies every value by its text: a value whose
    text is all digits is a numeric epoch (every non-negative integer is),
    any other text goes to the date parser, a missing value stays missing.
    An epoch is read on its own, whatever else the Series holds: as
    milliseconds when it is below 10^15 and as nanoseconds otherwise, both
    giving the instant whenever it fits a nanosecond Timestamp.  A text
    gets the instant the date parser found for it in the Series of texts.
    So an ISO string, a millisecond epoch and a nanosecond epoch of one
    instant normalize to the same Timestamp, as soon as the date parser
    reads the ISO string as that instant. *)
Theorem C5_normalizer_ms_ns_iso (ext : Externals) :
  (forall series,
      _safe_to_datetime series = map2 normalize series (to_datetime (texts series)))
  /\ (forall z, 0 <= z -> candidate_of (PInt z) = Epoch z)
  /\ (forall s, fullmatch_digits s = true ->
        exists n, 0 <= n /\ int_of_digits s = Some n /\ candidate_of (PStr s) = Epoch n)
  /\ (forall s, fullmatch_digits s = false -> candidate_of (PStr s) = Text s)
  /\ (forall n parsed, 0 <= n < 10 ^ 15 -> n * 10 ^ 6 <= INT64_MAX ->
        instant (Epoch n) parsed = Some (n * 10 ^ 6))
  /\ (forall n parsed, 10 ^ 15 <= n <= INT64_MAX -> instant (Epoch n) parsed = Some n)
  /\ (forall s parsed, instant (Text s) parsed = parsed)
  /\ (forall parsed, instant Missing parsed = None)
  /\ (nth_error (to_datetime [Some "2025-01-01T12:00:00Z"; None; None]) 0
      = Some (Some 1735732800000000000) ->
      _safe_to_datetime [PStr "2025-01-01T12:00:00Z";
                         PInt 1735732800000;
                         PInt 1735732800000000000]
      = [PTimestamp 1735732800000000000;
         PTimestamp 1735732800000000000;
         PTimestamp 1735732800000000000]).
Proof.
  split; [apply _safe_to_datetime_spec|].
  split; [apply candidate_of_nonneg_int|].
  split.
  { intros s Hs. destruct (candidate_of_digits s Hs) as (n & H1 & H2 & H3). eauto. }
  split; [apply candidate_of_text|].
  split.
  { intros n parsed [Hlo Hhi] Hfit. unfold instant, to_datetime_unit.
    destruct (Z.ltb_spec n (10 ^ 15)) as [_ | Hge]; [|lia].
    destruct (Z.leb_spec (- INT64_MAX) (n * 10 ^ 6)) as [_ | Hlt];
      [|unfold INT64_MAX in Hlt; lia].
    destruct (Z.leb_spec (n * 10 ^ 6) INT64_MAX) as [_ | Hgt]; [reflexivity | lia]. }
  split.
  { intros n parsed [Hlo Hhi]. unfold instant, to_datetime_unit.
    destruct (Z.ltb_spec n (10 ^ 15)) as [Hlt | _]; [lia|].
    rewrite Z.mul_1_r.
    destruct (Z.leb_spec (- INT64_MAX) n) as [_ | Hlt];
      [|unfold INT64_MAX in Hlt; lia].
    destruct (Z.leb_spec n INT64_MAX) as [_ | Hgt]; [reflexivity | lia]. }
  split; [reflexivity|]. split; [reflexivity|].
  intro Hiso. rewrite _safe_to_datetime_spec.
  assert (Ht : texts [PStr "2025-01-01T12:00:00Z"; PInt 1735732800000;
                      PInt 1735732800000000000]
               = [Some "2025-01-01T12:00:00Z"; None; None])
    by (vm_compute; reflexivity).
  rewrite Ht.
  pose proof (to_datetime_length [Some "2025-01-01T12:00:00Z"; None; None]) as Hlen.
  destruct (to_datetime [Some "2025-01-01T12:00:00Z"; None; None])
    as [|a [|b [|c [|d rest]]]]; try discriminate Hlen.
  cbn [nth_error] in Hiso. injection Hiso as ->.
  vm_compute. reflexivity.
Qed.

(** The instance of [Reference] reads the ISO string of the example. *)
Lemma C5_normalizer_witness :
  @_safe_to_datetime Reference.externals
    [PStr "2025-01-01T12:00:00Z"; PInt 1735732800000; PInt 1735732800000000000]
  = [PTimestamp 1735732800000000000;
     PTimestamp 1735732800000000000;
     PTimestamp 1735732800000000000].
Proof.
  apply (C5_normalizer_ms_ns_iso Reference.externals). vm_compute. reflexivity.
Defined.

(** ** C6 *)

(** C6.  When no element of a non-empty array is a record with an
    [order_id], or none is a record with an [order_timestamp], the
    invocation raises and the bucket is left as it was; on an array of
    records the error is the handler's own "Missing required fields".  The
    check is on the batch: as soon as one record carries [order_id] and one
    carries [order_timestamp], the frame of orders is built, whatever the
    other records lack. *)
Theorem C6_missing_required_column_is_fatal (ext : Externals) (env : Env)
        (event : Event) (context : option string) (w : World)
        (o : pyval) (os : list pyval) :
  objects env (in_bucket_of event) (in_key_of event) = Some (Json (PList (o :: os))) ->
  existsb (has_field "order_id") (o :: os) = false
  \/ existsb (has_field "order_timestamp") (o :: os) = false ->
  (exists e, lambda_handler env event context w = (Raise e, w))
  /\ (forall records, o :: os = map PDict records ->
        lambda_handler env event context w
        = (Raise (RuntimeError "Missing required fields: order_id and/or order_timestamp"),
           w))
  /\ (forall records,
        existsb (has_field "order_id") (map PDict records) = true ->
        existsb (has_field "order_timestamp") (map PDict records) = true ->
        exists raw, df_orders_raw records = Ok raw).
Proof.
  intros Hobj Habsent. rewrite (lambda_handler_array env event context w o os Hobj).
  assert (Hrec : forall records, o :: os = map PDict records ->
            df_orders_raw records
            = Raise (RuntimeError "Missing required fields: order_id and/or order_timestamp")).
  { intros records E. apply df_orders_raw_required. unfold required.
    rewrite !has_column_has_field, <- E.
    destruct Habsent as [-> | ->]; [reflexivity | apply andb_false_r]. }
  split; [|split].
  - destruct (as_records (o :: os)) as [records|e] eqn:Hrs; [|eauto].
    apply as_records_inv in Hrs. rewrite (Hrec records Hrs). eauto.
  - intros records E. rewrite E, as_records_dicts. now rewrite (Hrec records E).
  - intros records Hid Hts. exists (orders_frame records). apply df_orders_raw_Ok.
    unfold required. now rewrite !has_column_has_field, Hid, Hts.
Qed.

(** A batch of one order that carries no timestamp. *)
Lemma C6_missing_required_witness :
  Reference.run (Json (PList [PDict [("order_id", PInt 1)]]))
  = (Raise (RuntimeError "Missing required fields: order_id and/or order_timestamp"),
     Reference.world).
Proof.
  apply (proj1 (proj2 (C6_missing_required_column_is_fatal
                         Reference.externals
                         (Reference.env (Json (PList [PDict [("order_id", PInt 1)]])))
                         Reference.event None Reference.world
                         (PDict [("order_id", PInt 1)]) []
                         eq_refl (or_intror eq_refl)))
               [[("order_id", PInt 1)]]).
  reflexivity.
Defined.

(** ** C7 *)

Lemma fact_orders_frame_expands {ext : Externals} (raw : DataFrame) (field : string) :
  good raw ->
  In field ["customer"; "payment"] ->
  (forall k, ((field ++ "_") ++ k)%string <> "order_total") ->
  expands raw (fact_orders_frame raw) field.
Proof.
  intros Hg Hfield Hne. unfold expands. rewrite nested_frame_columns.
  destruct (has_column raw field) eqn:Hc; [|reflexivity].
  split; [reflexivity|].
  intros i d k v Hi Hk.
  set (rs := map flat (column raw field)).
  exists (maybe_convert_objects (map (field_or_nan k) rs)).
  assert (Hin : In k (union_keys rs)).
  { apply union_keys_In. exists (flat (PDict d)). split.
    - unfold rs. apply in_map. eapply nth_error_In. exact Hi.
    - eapply dict_get_In. exact Hk. }
  split; [|split].
  - unfold fact_orders_frame. apply coerced_In; [apply Hne|].
    unfold fact_orders_pre. cbn [data].
    assert (Hn : In ((field ++ "_") ++ k, maybe_convert_objects (map (field_or_nan k) rs))%string
                    (data (nested_frame raw field))).
    { unfold nested_frame. rewrite Hc. unfold add_prefix, DataFrame_of_records.
      cbn [data]. rewrite map_map. cbn [fst snd]. apply in_map_iff.
      exists k. split; [reflexivity | exact Hin]. }
    simpl in Hfield. destruct Hfield as [<- | [<- | []]];
      apply in_or_app; right; apply in_or_app; [left | right]; exact Hn.
  - rewrite maybe_convert_objects_length, length_map. unfold rs. rewrite length_map.
    rewrite fact_orders_frame_nrows. apply wf_column; [apply (good_wf _ Hg) | assumption].
  - assert (Hnth : nth_error (map (field_or_nan k) rs) i = Some v).
    { unfold rs. rewrite map_map. rewrite nth_error_map, Hi. cbn [option_map].
      unfold field_or_nan. now rewrite Hk. }
    now apply maybe_convert_objects_nth.
Qed.

(** C7.  FactOrder has one row per surviving order and is, column by
    column, the base columns (all but [customer], [payment], [items])
    followed by the expanded customer and the expanded payment, only
    [order_total] being rewritten.  A nested field that is a column has
    every flattened sub-field of every row in a column named by the prefix
    and the key, at that row; a record without nested records is flattened
    to itself; a nested field that is not a column contributes no column. *)
Theorem C7_nested_fields_expanded (ext : Externals) (orders : list record)
        (raw fo : DataFrame) :
  df_orders_raw orders = Ok raw ->
  df_fact_orders raw = Ok fo ->
  nrows fo = nrows raw
  /\ columns fo
     = base_cols raw ++ columns (nested_frame raw "customer")
       ++ columns (nested_frame raw "payment")
  /\ (exists total,
        data fo = map total (graph raw (base_cols raw)
                             ++ data (nested_frame raw "customer")
                             ++ data (nested_frame raw "payment"))
        /\ forall cv, fst (total cv) = fst cv
                      /\ (fst cv <> "order_total" -> total cv = cv))
  /\ expands raw fo "customer"
  /\ expands raw fo "payment"
  /\ (forall d, forallb (fun kv => negb (is_dict (snd kv))) d = true ->
                flat (PDict d) = d).
Proof.
  intros Hraw Hfo. apply df_orders_raw_inv in Hraw as (_ & _ & Hg).
  apply df_fact_orders_inv in Hfo as [_ ->]; [|assumption].
  split; [apply fact_orders_frame_nrows|].
  split; [apply fact_orders_frame_columns|].
  split; [apply (coerced_data (fact_orders_pre raw) "order_total")|].
  split; [apply fact_orders_frame_expands; [assumption | simpl; tauto | intros k; discriminate]|].
  split; [apply fact_orders_frame_expands; [assumption | simpl; tauto | intros k; discriminate]|].
  apply flat_plain.
Qed.

(** The sample batch: its first order has a customer with a nested
    address, no order has a payment. *)
Lemma C7_nested_fields_witness :
  columns Reference.sample_fact_orders
  = ["order_id"; "order_timestamp"; "order_date"; "order_year"; "order_month";
     "customer_name"; "customer_address.city"]
  /\ expands Reference.sample_raw Reference.sample_fact_orders "customer"
  /\ expands Reference.sample_raw Reference.sample_fact_orders "payment".
Proof.
  destruct (C7_nested_fields_expanded
              Reference.externals Reference.sample Reference.sample_raw
              Reference.sample_fact_orders
              ltac:(vm_compute; reflexivity) ltac:(vm_compute; reflexivity))
    as (_ & Hcols & _ & Hc & Hp & _).
  split; [rewrite Hcols; vm_compute; reflexivity | split; assumption].
Defined.

(** ** C8 *)

(** C8.  When the handler returns its row counts, the files it uploaded
    hold, under the prefix of FactOrder, as many rows in all as the count
    reported for [fact_orders], and under the prefix of FactOrderItem as
    many as the count reported for [fact_order_items]; the reported counts
    are the lengths of the two tables, 0 for a FactOrderItem that is
    empty. *)
Theorem C8_row_counts_match_rows_written (ext : Externals) (env : Env)
        (event : Event) (context : option string) (w w' : World)
        (input out_bucket p1 p2 : string) (n_orders n_items : nat) :
  lambda_handler env event context w
  = (Ok (Processed input out_bucket p1 p2 n_orders n_items), w') ->
  exists new,
    uploads w' = uploads w ++ new
    /\ rows_written env "fact_orders" new = n_orders
    /\ rows_written env "fact_order_items" new = n_items
    /\ exists records raw fo foi,
         df_orders_raw records = Ok raw
         /\ df_fact_orders raw = Ok fo
         /\ df_fact_order_items raw = Ok foi
         /\ n_orders = nrows fo
         /\ n_items = (if empty foi then 0%nat else nrows foi).
Proof.
  intro H.
  apply lambda_handler_processed in H
    as (records & raw & fo & foi & ps & Hraw & Hfo & Hfoi & Hps & Hloop & -> & ->).
  pose proof Hraw as Hraw'. apply df_orders_raw_inv in Hraw' as (_ & _ & Hg).
  pose proof Hfo as Hfo'. apply df_fact_orders_inv in Hfo' as [_ ->]; [|assumption].
  pose proof Hfoi as Hfoi'. apply df_fact_order_items_inv in Hfoi' as [_ ->]; [|assumption].
  rewrite partitions_fact_orders in Hps by assumption. injection Hps as <-.
  apply for_each_rows in Hloop as (new & Hnew & Ho & Hi).
  exists new. split; [assumption|].
  rewrite Ho, Hi, orders_rows_sum, items_rows_sum by assumption. unfold len.
  split; [reflexivity|]. split; [reflexivity|].
  exists records, raw, (fact_orders_frame raw), (fact_order_items_frame raw).
  repeat split; auto. now destruct (empty (fact_order_items_frame raw)).
Qed.

(** The sample batch: two partitions, 2 rows of FactOrder and 3 of
    FactOrderItem. *)
Lemma C8_row_counts_witness :
  exists new,
    uploads (snd (Reference.run (Json (PList (map PDict Reference.sample)))))
    = uploads Reference.world ++ new
    /\ rows_written
         (Reference.env (Json (PList (map PDict Reference.sample)))) "fact_orders" new
       = 2%nat
    /\ rows_written
         (Reference.env (Json (PList (map PDict Reference.sample)))) "fact_order_items" new
       = 3%nat.
Proof.
  destruct (C8_row_counts_match_rows_written
              Reference.externals
              (Reference.env (Json (PList (map PDict Reference.sample))))
              Reference.event None Reference.world
              (snd (Reference.run (Json (PList (map PDict Reference.sample)))))
              "s3://raw/orders.json" "raw"
              "s3://raw/processed/store_sales/fact_orders/"
              "s3://raw/processed/store_sales/fact_order_items/" 2 3
              ltac:(vm_compute; reflexivity))
    as (new & H1 & H2 & H3 & _).
  exists new. repeat split; assumption.
Defined.

(** ** C9 *)

(** C9.  Every row of FactOrderItem carries the order context of a row of
    FactOrder: [order_id], [order_timestamp], [order_date], [order_year] and
    [order_month] of row [i] of FactOrderItem are those of one and the same
    row [j] of FactOrder, and that order has a parsed timestamp. *)
Theorem C9_items_reference_fact_orders (ext : Externals) (orders : list record)
        (raw fo foi : DataFrame) (i : nat) :
  df_orders_raw orders = Ok raw ->
  df_fact_orders raw = Ok fo ->
  df_fact_order_items raw = Ok foi ->
  (i < nrows foi)%nat ->
  exists j,
    (j < nrows fo)%nat
    /\ (forall c, In c ctx_cols ->
          nth i (column foi c) PNone = nth j (column fo c) PNone)
    /\ is_timestamp (nth j (column fo "order_timestamp") PNone) = true.
Proof.
  intros Hraw Hfo Hfoi Hi.
  apply df_orders_raw_inv in Hraw as (_ & _ & Hg).
  apply df_fact_orders_inv in Hfo as [_ ->]; [|assumption].
  apply df_fact_order_items_inv in Hfoi as [_ ->]; [|assumption].
  rewrite fact_order_items_frame_nrows in Hi.
  destruct (has_column raw "items") eqn:Hit;
    [|rewrite no_items_no_rows in Hi by assumption; lia].
  pose proof (good_wf _ Hg) as Hwf.
  assert (Hlen : forall c, In c ctx_cols ->
            List.length (item_counts raw) = List.length (column raw c)).
  { intros c Hc. rewrite item_counts_length by assumption. symmetry.
    apply wf_column; [assumption | now apply (good_ctx _ Hg)]. }
  exists (owner (item_counts raw) i). split; [|split].
  - rewrite fact_orders_frame_nrows, <- (item_counts_length raw Hwf Hit).
    rewrite (Hlen "order_id") by (simpl; tauto).
    apply (repeat_each_nth _ _ PNone); [apply Hlen; simpl; tauto | assumption].
  - intros c Hc. rewrite fact_order_items_frame_ctx by assumption.
    rewrite (proj2 (fact_orders_frame_ctx raw c Hg Hc)).
    now apply repeat_each_nth; [apply Hlen|].
  - rewrite (proj2 (fact_orders_frame_ctx raw "order_timestamp" Hg
                      ltac:(simpl; tauto))).
    pose proof (good_ts _ Hg) as Hts. rewrite Forall_forall in Hts.
    apply Hts, nth_In.
    rewrite <- (Hlen "order_timestamp") by (simpl; tauto).
    rewrite (Hlen "order_id") by (simpl; tauto).
    apply (repeat_each_nth _ _ PNone); [apply Hlen; simpl; tauto | assumption].
Qed.

(** Row 2 of FactOrderItem of the sample batch, the row of the order
    without items. *)
Lemma C9_items_reference_witness :
  exists j,
    (j < nrows Reference.sample_fact_orders)%nat
    /\ (forall c, In c ctx_cols ->
          nth 2 (column Reference.sample_fact_order_items c) PNone
          = nth j (column Reference.sample_fact_orders c) PNone)
    /\ is_timestamp (nth j (column Reference.sample_fact_orders "order_timestamp") PNone)
       = true.
Proof.
  apply (C9_items_reference_fact_orders
           Reference.externals Reference.sample Reference.sample_raw
           Reference.sample_fact_orders Reference.sample_fact_order_items 2);
    [vm_compute; reflexivity .. | vm_compute; lia].
Defined.

(** ** C10 *)

(** C10.  On a non-empty array of records that has both required columns
    and in which no timestamp parses, the invocation succeeds: both tables
    are built without a row, the partition set is empty, nothing is uploaded
    and the clock is not even read, and the result reports 0 rows for both
    datasets. *)
Theorem C10_all_timestamps_unparseable (ext : Externals) (env : Env)
        (event : Event) (context : option string) (w : World)
        (r : record) (rs : list record) :
  objects env (in_bucket_of event) (in_key_of event)
  = Some (Json (PList (map PDict (r :: rs)))) ->
  required (r :: rs) = true ->
  forallb isna (timestamps (r :: rs)) = true ->
  exists raw fo foi,
    df_orders_raw (r :: rs) = Ok raw
    /\ df_fact_orders raw = Ok fo
    /\ df_fact_order_items raw = Ok foi
    /\ nrows fo = 0%nat
    /\ nrows foi = 0%nat
    /\ partitions fo = Ok []
    /\ lambda_handler env event context w
       = (Ok (Processed (input_of event) (out_bucket_of env event)
                ("s3://" ++ out_bucket_of env event ++ "/" ++ PROCESSED_PREFIX env
                 ++ "/fact_orders/")%string
                ("s3://" ++ out_bucket_of env event ++ "/" ++ PROCESSED_PREFIX env
                 ++ "/fact_order_items/")%string
                0 0),
          w).
Proof.
  intros Hobj Hreq Hna.
  set (raw := orders_frame (r :: rs)).
  pose proof (orders_frame_good _ Hreq) as Hg. fold raw in Hg.
  assert (Hn : nrows raw = 0%nat).
  { unfold raw. rewrite orders_frame_nrows by assumption.
    apply count_true_all_false. unfold alive, notna.
    rewrite forallb_forall in *. intros b Hb.
    apply in_map_iff in Hb as (v & <- & Hv). now rewrite (Hna v Hv). }
  assert (Hcol : forall c, column raw c = [])
    by (intro c; apply no_rows_column; [apply (good_wf _ Hg) | assumption]).
  assert (Hnested : nested_ok raw = true)
    by (unfold nested_ok; now rewrite !Hcol).
  assert (Hitems : items_ok raw = true)
    by (unfold items_ok, exploded; now rewrite Hcol).
  assert (Hcounts : list_sum (item_counts raw) = 0%nat)
    by (unfold item_counts; now rewrite Hcol).
  assert (Hps : partitions (fact_orders_frame raw) = Ok []).
  { rewrite partitions_fact_orders by assumption. unfold keys_of. now rewrite Hcol. }
  exists raw, (fact_orders_frame raw), (fact_order_items_frame raw).
  split; [now apply df_orders_raw_Ok|].
  split; [now apply df_fact_orders_Ok|].
  split; [now apply df_fact_order_items_Ok|].
  split; [now rewrite fact_orders_frame_nrows|].
  split; [now rewrite fact_order_items_frame_nrows|].
  split; [assumption|].
  cbn [map] in Hobj. rewrite (lambda_handler_array env event context w _ _ Hobj).
  change (PDict r :: map PDict rs) with (map PDict (r :: rs)).
  rewrite as_records_dicts, df_orders_raw_Ok by assumption. fold raw.
  rewrite df_fact_orders_Ok, df_fact_order_items_Ok, Hps by assumption.
  cbn [for_each ret]. unfold summary, len.
  rewrite fact_orders_frame_nrows, fact_order_items_frame_nrows, Hn, Hcounts.
  now destruct (negb _).
Qed.

(** A batch of two orders, neither with a timestamp that parses. *)
Lemma C10_all_unparseable_witness :
  exists raw fo foi,
    @df_orders_raw Reference.externals [[("order_id", PInt 1); ("order_timestamp", PStr "not-a-date");
                    ("items", PList [PDict [("sku", PStr "A")]])];
                   [("order_id", PInt 2); ("order_timestamp", PNone)]] = Ok raw
    /\ @df_fact_orders Reference.externals raw = Ok fo
    /\ @df_fact_order_items Reference.externals raw = Ok foi
    /\ nrows fo = 0%nat
    /\ nrows foi = 0%nat
    /\ partitions fo = Ok []
    /\ Reference.run
         (Json (PList (map PDict
            [[("order_id", PInt 1); ("order_timestamp", PStr "not-a-date");
              ("items", PList [PDict [("sku", PStr "A")]])];
             [("order_id", PInt 2); ("order_timestamp", PNone)]])))
       = (Ok (Processed "s3://raw/orders.json" "raw"
                "s3://raw/processed/store_sales/fact_orders/"
                "s3://raw/processed/store_sales/fact_order_items/" 0 0),
          Reference.world).
Proof.
  apply (C10_all_timestamps_unparseable
           Reference.externals
           (Reference.env (Json (PList (map PDict
              [[("order_id", PInt 1); ("order_timestamp", PStr "not-a-date");
                ("items", PList [PDict [("sku", PStr "A")]])];
               [("order_id", PInt 2); ("order_timestamp", PNone)]]))))
           Reference.event None Reference.world);
    reflexivity.
Defined.

